(** * Document-to-Markdown parser and base-image build script

    A shallow embedding of
    - [airbyte_cdk/sources/file_based/file_types/unstructured_parser.py]
    - [base_images/build.py]

    Python objects are modelled by explicit data, exceptions by a result
    type, and mutable state (open files, the logger, the environment, the
    network) by a world threaded through a state-and-exception monad. *)

From Stdlib Require Import ZArith String Ascii Strings.Byte Floats Lia Bool.
From stdpp Require Import base option list gmap strings pretty.

Set Warnings "-register-all".

(** ** Python values *)

(** The values a decoded JSON document (or an element's [to_dict()]) is
    made of. *)
Inductive PyVal :=
| PNone
| PBool (b : bool)
| PInt (z : Z)
| PFloat (f : float)
| PStr (s : string)
| PList (l : list PyVal)
| PDict (d : gmap string PyVal).

(** An element dictionary: [Dict[str, Any]]. *)
Abbreviation Element := (gmap string PyVal).

(** Python truthiness ([bool(v)], the test behind [x or y]). *)
Definition truthy (v : PyVal) : bool :=
  match v with
  | PNone => false
  | PBool b => b
  | PInt z => negb (z =? 0)%Z
  | PFloat f => negb (PrimFloat.eqb f 0%float)
  | PStr s => negb (String.eqb s "")
  | PList l => negb (Nat.eqb (length l) 0)
  | PDict d => negb (Nat.eqb (size d) 0)
  end.

(** [x or y] *)
Definition py_or (x y : PyVal) : PyVal := if truthy x then x else y.

(** The name Python prints for the type of a value. *)
Definition type_name (v : PyVal) : string :=
  match v with
  | PNone => "NoneType"
  | PBool _ => "bool"
  | PInt _ => "int"
  | PFloat _ => "float"
  | PStr _ => "str"
  | PList _ => "list"
  | PDict _ => "dict"
  end.

(** ** Exceptions and results *)

(** [requests.Response], as far as this code looks at it. *)
Record Response := {
  status_code : Z;
  content : list byte;
}.

Inductive FileBasedSourceError := ERROR_PARSING_RECORD.

Inductive Exception :=
| KeyError (key : string)
| TypeError (msg : string)
| ValueError (msg : string)
| UnicodeDecodeError
(** [dpath.exceptions.InvalidKeyName] *)
| InvalidKeyName
(** [ImportError] and its subclass [ModuleNotFoundError] *)
| ImportError
| RecordParseError (error : FileBasedSourceError) (filename : string)
(** [requests.exceptions.RequestException] and its subclasses
    ([HTTPError], [ConnectionError], ...), with their [response]
    attribute. *)
| RequestException (response : option Response)
(** [base_images.errors.SanityCheckError] *)
| SanityCheckError (msg : string)
| KeyboardInterrupt
(** [sys.exit(code)] *)
| SystemExit (code : Z)
(** [Exception(msg)] and whatever else a collaborator may raise. *)
| PyException (msg : string).

Inductive Result (A : Type) :=
| Ok (a : A)
| Raise (e : Exception).
Arguments Ok {A} a.
Arguments Raise {A} e.

Global Instance Result_ret : MRet Result := λ A x, Ok x.
Global Instance Result_bind : MBind Result := λ A B f r,
  match r with Ok a => f a | Raise e => Raise e end.

(** ** Strings *)

(** [s * n] for a string [s]: the empty string when [n <= 0]. *)
Fixpoint str_repeat (s : string) (n : nat) : string :=
  match n with
  | O => ""
  | S n' => s +:+ str_repeat s n'
  end.

Definition str_mul (s : string) (n : Z) : string := str_repeat s (Z.to_nat n).

(** The line feed, and the blank line two of them make. *)
Definition LF : string := String (ascii_of_nat 10) "".

(** [sep.join(items)] *)
Definition str_join (sep : string) (items : list string) : string :=
  String.concat sep items.

(** [s.split(sep)] for a one-character separator. *)
Fixpoint str_split (sep : ascii) (s : string) : list string :=
  match s with
  | EmptyString => [""]
  | String c rest =>
      if Ascii.eqb c sep then "" :: str_split sep rest
      else match str_split sep rest with
           | [] => [String c ""]
           | seg :: segs => String c seg :: segs
           end
  end.

Definition is_digit (c : ascii) : bool :=
  let n := nat_of_ascii c in (48 <=? n)%nat && (n <=? 57)%nat.

Fixpoint digits_value (acc : nat) (s : string) : option nat :=
  match s with
  | EmptyString => Some acc
  | String c rest =>
      if is_digit c then digits_value (10 * acc + (nat_of_ascii c - 48)) rest
      else None
  end.

(** The index [i] with [str(i) == s], if there is one. *)
Definition parse_index (s : string) : option nat :=
  match s with
  | EmptyString => None
  | String "0" EmptyString => Some 0
  | String "0" _ => None
  | _ => digits_value 0 s
  end.

(** ** dpath *)

(** [dpath.util.get] folds over a walk of the whole object.  The walk
    visits every key of every dictionary in it, also of the dictionaries
    inside lists, and raises [InvalidKeyName] at a key that is the empty
    string ([ALLOW_EMPTY_STRING_KEYS] is off); the fold stops early only
    at a second match.

    Whether the walk meets an empty key: *)
Fixpoint has_empty_key (v : PyVal) : bool :=
  match v with
  | PList l => existsb has_empty_key l
  | PDict d =>
      bool_decide (is_Some (d !! ""))
      || map_fold (λ _ v' found, has_empty_key v' || found) false d
  | _ => false
  end.

(** All globs of this file are free of glob characters, so a walked path
    matches when its segments are those of the glob, and at most one
    does: the one that is followed here, by key through dictionaries and
    by index through lists. *)
Fixpoint dpath_lookup_aux (step : PyVal → string → option PyVal)
    (segments : list string) (obj : PyVal) : option PyVal :=
  match segments with
  | [] => Some obj
  | seg :: rest => step obj seg ≫= dpath_lookup_aux step rest
  end.

Definition dpath_step (obj : PyVal) (seg : string) : option PyVal :=
  match obj with
  | PDict d => d !! seg
  | PList l => parse_index seg ≫= λ i, l !! i
  | _ => None
  end.

Definition dpath_lookup : list string → PyVal → option PyVal :=
  dpath_lookup_aux dpath_step.

(** [dpath.util.get(obj, glob, default=...)]: [InvalidKeyName] when the
    walk meets an empty key; otherwise the value at the path, the default
    when nothing is there, [KeyError(glob)] without a default. *)
Definition dpath_get (obj : Element) (glob : string) (default : option PyVal)
  : Result PyVal :=
  if String.eqb glob "/" then Ok (PDict obj)
  else if has_empty_key (PDict obj) then Raise InvalidKeyName
  else match dpath_lookup (str_split "/" glob) (PDict obj) with
       | Some v => Ok v
       | None => match default with
                 | Some d => Ok d
                 | None => Raise (KeyError glob)
                 end
       end.

(** ** Bytes and text

    A [str] is kept as the UTF-8 encoding of its text, so that decoding a
    byte string is checking that it is well-formed UTF-8. *)

Definition in_range (lo hi : N) (b : byte) : bool :=
  let n := Byte.to_N b in (lo <=? n)%N && (n <=? hi)%N.

(** The continuation bytes [0x80..0xBF]. *)
Definition is_cont : byte → bool := in_range 128 191.

(** Well-formed UTF-8 byte sequences (Unicode, table 3-7): no overlong
    forms, no surrogates, nothing above U+10FFFF. *)
Fixpoint utf8_well_formed (bs : list byte) : bool :=
  match bs with
  | [] => true
  | b1 :: r1 =>
      if in_range 0 127 b1 then utf8_well_formed r1
      else match r1 with
      | [] => false
      | b2 :: r2 =>
          if in_range 194 223 b1 then is_cont b2 && utf8_well_formed r2
          else match r2 with
          | [] => false
          | b3 :: r3 =>
              if in_range 224 239 b1 then
                (if in_range 224 224 b1 then in_range 160 191 b2
                 else if in_range 237 237 b1 then in_range 128 159 b2
                 else is_cont b2)
                && is_cont b3 && utf8_well_formed r3
              else match r3 with
              | [] => false
              | b4 :: r4 =>
                  if in_range 240 244 b1 then
                    (if in_range 240 240 b1 then in_range 144 191 b2
                     else if in_range 244 244 b1 then in_range 128 143 b2
                     else is_cont b2)
                    && is_cont b3 && is_cont b4 && utf8_well_formed r4
                  else false
              end
          end
      end
  end.

(** [contents.decode("utf-8")] *)
Definition bytes_decode_utf8 (contents : list byte) : Result string :=
  if utf8_well_formed contents then Ok (string_of_list_byte contents)
  else Raise UnicodeDecodeError.

(** ** Files, configuration and requests *)

(** A binary file object: its bytes, the read position, whether it was
    closed, and its [name] attribute ([None] when it has none,
    [Some None] when the attribute holds [None]). *)
Record IOBase := {
  io_data : list byte;
  io_pos : nat;
  io_closed : bool;
  io_name : option (option string);
}.

(** A file object is referred to through its place in the world, so
    that every holder sees the same position. *)
Definition Handle : Type := nat.

(** [BytesIO(data)] *)
Definition BytesIO (data : list byte) : IOBase :=
  {| io_data := data; io_pos := 0; io_closed := false; io_name := None |}.

Record RemoteFile := {
  uri : string;
  mime_type : option string;
}.

Record APIParameterConfigModel := {
  name : string;
  value : string;
}.

Record APIProcessingConfigModel := {
  api_key : string;
  api_url : string;
  parameters : option (list APIParameterConfigModel);
}.

(** [format.processing]: a [LocalProcessingConfigModel] (mode "local") or
    an [APIProcessingConfigModel] (mode "api"). *)
Inductive ProcessingConfig :=
| LocalProcessing
| APIProcessing (api : APIProcessingConfigModel).

Record UnstructuredFormat := {
  skip_unprocessable_file_types : option bool;
  processing : ProcessingConfig;
}.

(** [config.format]: the unstructured format or one of the other file
    formats, of which only the printed form matters here. *)
Inductive ConfigFormat :=
| Unstructured (fmt : UnstructuredFormat)
| OtherFormat (repr : string).

Record FileBasedStreamConfig := {
  format : ConfigFormat;
}.

(** A value of the form-field dictionary: a string, or a list of them. *)
Inductive FormValue :=
| FStr (s : string)
| FList (l : list string).

(** What [requests.post] is called with; the file part is described by
    the bytes ahead in the file object it is given. *)
Record Request := {
  req_url : string;
  req_headers : gmap string string;
  req_data : gmap string FormValue;
  req_file : string * list byte * string;
}.

Inductive LogLevel := WARNING.

(** ** The world and its monad *)

(** A call into the file system. *)
Inductive FsCall :=
| Mkdir (path : string)
| WriteText (path content : string)
| Unlink (path : string)
| Touch (path : string)
| OpenRead (path : string)
| OpenWrite (path : string)
| FileWrite (path chunk : string).

Record World := {
  (** [os.environ] *)
  environ : gmap string string;
  (** the file objects, by handle *)
  files : list IOBase;
  (** what the logger received *)
  logged : list (LogLevel * string);
  (** what was printed *)
  printed : list string;
  (** the calls of [requests.post], oldest first *)
  posted : list Request;
  (** the bounds of the jittered [time.sleep] calls, oldest first *)
  slept : list Z;
  (** the messages of [console.log] *)
  console : list string;
  (** the messages of [current_status.update] *)
  status : list string;
  (** the calls into the file system, oldest first *)
  fs_calls : list FsCall;
}.

Definition set_files (fs : list IOBase) (w : World) : World :=
  {| environ := environ w; files := fs; logged := logged w;
     printed := printed w; posted := posted w; slept := slept w;
     console := console w; status := status w; fs_calls := fs_calls w |}.
Definition add_logged (r : LogLevel * string) (w : World) : World :=
  {| environ := environ w; files := files w; logged := logged w ++ [r];
     printed := printed w; posted := posted w; slept := slept w;
     console := console w; status := status w; fs_calls := fs_calls w |}.
Definition add_printed (s : string) (w : World) : World :=
  {| environ := environ w; files := files w; logged := logged w;
     printed := printed w ++ [s]; posted := posted w; slept := slept w;
     console := console w; status := status w; fs_calls := fs_calls w |}.
Definition add_posted (r : Request) (w : World) : World :=
  {| environ := environ w; files := files w; logged := logged w;
     printed := printed w; posted := posted w ++ [r]; slept := slept w;
     console := console w; status := status w; fs_calls := fs_calls w |}.
Definition add_slept (s : Z) (w : World) : World :=
  {| environ := environ w; files := files w; logged := logged w;
     printed := printed w; posted := posted w; slept := slept w ++ [s];
     console := console w; status := status w; fs_calls := fs_calls w |}.
Definition add_console (s : string) (w : World) : World :=
  {| environ := environ w; files := files w; logged := logged w;
     printed := printed w; posted := posted w; slept := slept w;
     console := console w ++ [s]; status := status w; fs_calls := fs_calls w |}.
Definition add_status (s : string) (w : World) : World :=
  {| environ := environ w; files := files w; logged := logged w;
     printed := printed w; posted := posted w; slept := slept w;
     console := console w; status := status w ++ [s]; fs_calls := fs_calls w |}.
Definition add_fs_call (c : FsCall) (w : World) : World :=
  {| environ := environ w; files := files w; logged := logged w;
     printed := printed w; posted := posted w; slept := slept w;
     console := console w; status := status w; fs_calls := fs_calls w ++ [c] |}.

(** A computation: from a world to a value or an exception, and the
    world it leaves behind. *)
Definition M (A : Type) : Type := World → Result A * World.

Global Instance M_ret : MRet M := λ A x w, (Ok x, w).
Global Instance M_bind : MBind M := λ A B f m w,
  match m w with
  | (Ok a, w') => f a w'
  | (Raise e, w') => (Raise e, w')
  end.

Definition raise {A} (e : Exception) : M A := λ w, (Raise e, w).

(** A pure result, inside a computation. *)
Definition lift {A} (r : Result A) : M A := λ w, (r, w).

(** [try: body except: handler] with a bare [except]. *)
Definition try_except {A} (body : M A) (handler : Exception → M A) : M A :=
  λ w, match body w with
       | (Ok a, w') => (Ok a, w')
       | (Raise e, w') => handler e w'
       end.

(** [try: body finally: cleanup] *)
Definition try_finally {A} (body : M A) (cleanup : M unit) : M A :=
  λ w, match body w with
       | (r, w') => match cleanup w' with
                    | (Ok _, w'') => (r, w'')
                    | (Raise e, w'') => (Raise e, w'')
                    end
       end.

(** [os.environ.get(key, default)] *)
Definition environ_get (key fallback : string) : M string :=
  λ w, (Ok (default fallback (environ w !! key)), w).

(** [logger.warn(msg)] *)
Definition logger_warn (msg : string) : M unit :=
  λ w, (Ok tt, add_logged (WARNING, msg) w).

(** [print(msg)] *)
Definition print (msg : string) : M unit :=
  λ w, (Ok tt, add_printed msg w).

(** The file object behind a handle; using a closed one is a
    [ValueError]. *)
Definition the_file (h : Handle) : M IOBase :=
  λ w, match files w !! h with
       | Some f => if io_closed f
                   then (Raise (ValueError "I/O operation on closed file."), w)
                   else (Ok f, w)
       | None => (Raise (ValueError "I/O operation on closed file."), w)
       end.

Definition put_file (h : Handle) (f : IOBase) : M unit :=
  λ w, (Ok tt, set_files (<[h := f]> (files w)) w).

(** Binding a new file object. *)
Definition new_file (f : IOBase) : M Handle :=
  λ w, (Ok (length (files w)), set_files (files w ++ [f]) w).

(** [file.read()]: the bytes from the position to the end. *)
Definition io_read (h : Handle) : M (list byte) :=
  f ← the_file h;
  put_file h {| io_data := io_data f; io_pos := length (io_data f);
                io_closed := io_closed f; io_name := io_name f |};;
  mret (drop (io_pos f) (io_data f)).

(** [file.seek(pos)] *)
Definition io_seek (h : Handle) (pos : nat) : M unit :=
  f ← the_file h;
  put_file h {| io_data := io_data f; io_pos := pos;
                io_closed := io_closed f; io_name := io_name f |}.

(** [file.close()] *)
Definition io_close (h : Handle) : M unit :=
  λ w, match files w !! h with
       | Some f => put_file h {| io_data := io_data f; io_pos := io_pos f;
                                 io_closed := true; io_name := io_name f |} w
       | None => (Ok tt, w)
       end.

(** [time.sleep] for a random time of at most [bound] seconds. *)
Definition sleep_up_to (bound : Z) : M unit :=
  λ w, (Ok tt, add_slept bound w).

(** [console.log(msg)] *)
Definition console_log (msg : string) : M unit :=
  λ w, (Ok tt, add_console msg w).

(** [current_status.update(msg)] *)
Definition status_update (msg : string) : M unit :=
  λ w, (Ok tt, add_status msg w).

Definition fs_call (c : FsCall) : M unit :=
  λ w, (Ok tt, add_fs_call c w).

(** [sys.exit(code)] *)
Definition sys_exit {A} (code : Z) : M A := raise (SystemExit code).

(** [os.getenv(key)] *)
Definition os_getenv (key : string) : M (option string) :=
  λ w, (Ok (environ w !! key), w).

(** ** The collaborators of the parser

    Tables and functions of the [unstructured] library and of the Python
    runtime that the parser calls and that are not part of it. *)

Inductive FileType :=
| UNK | EMPTY | CSV | DOC | DOCX | EML | EPUB | HTML | JSON | MD | MSG
| ODT | PDF | PPT | PPTX | RTF | TXT | XLSX | XML
| OtherFileType (name : string).

Global Instance FileType_eq_dec : EqDecision FileType.
Proof. solve_decision. Defined.

Class Collaborators := {
  (** [unstructured.file_utils.filetype.STR_TO_FILETYPE] *)
  STR_TO_FILETYPE : gmap string FileType;
  (** [unstructured.file_utils.filetype.FILETYPE_TO_MIMETYPE] *)
  FILETYPE_TO_MIMETYPE : FileType → option string;
  (** [detect_filetype(filename=...)] *)
  detect_filetype_filename : string → option FileType;
  (** [detect_filetype(file=...)]: the kind sniffed from the bytes ahead
      and how many of them the sniffer consumed. *)
  detect_filetype_file : list byte → option FileType * nat;
  (** The three entry points as [_import_unstructured] imports them,
      [None] for one that cannot be imported; each maps the bytes ahead
      to the elements' [to_dict()]s. *)
  unstructured_partition_pdf : option (list byte → Result (list Element));
  unstructured_partition_docx : option (list byte → Result (list Element));
  unstructured_partition_pptx : option (list byte → Result (list Element));
  (** [str(v)] for floats, lists and dictionaries. *)
  py_repr : PyVal → string;
  (** [response.json()] *)
  response_json : Response → Result (list Element);
  (** [traceback.format_exc()] for the exception being handled. *)
  format_exc : Exception → string;
  (** [PreparedRequest.prepare] on the URL and the headers, which comes
      before the file part is read: [MissingSchema] or [InvalidURL] for a
      URL, [InvalidHeader] for a header it refuses. *)
  requests_prepare : string → gmap string string → Result unit;
  (** [Session.send]: what the connection or the remote service gives
      for the prepared request of the call that follows [n] earlier
      ones. *)
  requests_send : nat → Request → Result Response;
}.

Section Parser.
Context `{!Collaborators}.

(** [str(v)], which is also what an f-string substitutes. *)
Definition py_str (v : PyVal) : string :=
  match v with
  | PStr s => s
  | PNone => "None"
  | PBool true => "True"
  | PBool false => "False"
  | PInt z => pretty z
  | _ => py_repr v
  end.

(** [s * v]: integers (and booleans) repeat, anything else is a
    [TypeError]. *)
Definition py_str_mul (s : string) (v : PyVal) : Result string :=
  match v with
  | PInt z => Ok (str_mul s z)
  | PBool b => Ok (str_mul s (if b then 1 else 0))
  | _ => Raise (TypeError
           ("can't multiply sequence by non-int of type '" +:+ type_name v +:+ "'"))
  end.

(** [x == "literal"] *)
Definition py_eq_str (v : PyVal) (s : string) : bool :=
  match v with
  | PStr s' => String.eqb s' s
  | _ => false
  end.

(** *** [UnstructuredParser._convert_to_markdown] *)
Definition _convert_to_markdown (el : Element) : Result string :=
  ty ← dpath_get el "type" None;
  if py_eq_str ty "Title" then
    depth ← dpath_get el "metadata/category_depth" (Some (PInt 1));
    heading_str ← py_str_mul "#" (py_or depth (PInt 1));
    text ← dpath_get el "text" None;
    mret (heading_str +:+ " " +:+ py_str text)
  else
    ty ← dpath_get el "type" None;
    if py_eq_str ty "ListItem" then
      text ← dpath_get el "text" None;
      mret ("- " +:+ py_str text)
    else
      ty ← dpath_get el "type" None;
      if py_eq_str ty "Formula" then
        text ← dpath_get el "text" None;
        mret ("```" +:+ LF +:+ py_str text +:+ LF +:+ "```")
      else
        text ← dpath_get el "text" (Some (PStr ""));
        mret (py_str text).

(** The generator [(self._convert_to_markdown(el) for el in elements)],
    drained by [join]: the first exception ends it. *)
Fixpoint convert_all (elements : list Element) : Result (list string) :=
  match elements with
  | [] => Ok []
  | el :: rest =>
      r ← _convert_to_markdown el;
      rs ← convert_all rest;
      mret (r :: rs)
  end.

(** *** [UnstructuredParser._render_markdown] *)
Definition _render_markdown (elements : list Element) : Result string :=
  rs ← convert_all elements;
  mret (str_join (LF +:+ LF) rs).

(** *** [optional_decode] *)
Definition optional_decode (contents : string + list byte) : Result string :=
  match contents with
  | inr bytes => bytes_decode_utf8 bytes
  | inl str => Ok str
  end.

(** *** [requests.Response]: [raise_for_status], [ok] and [__bool__] *)

(** [HTTPError(response=self)] for a status in 400..599. *)
Definition raise_for_status (r : Response) : Result unit :=
  if (400 <=? status_code r)%Z && (status_code r <? 600)%Z
  then Raise (RequestException (Some r))
  else Ok tt.

(** [Response.ok]: whether [raise_for_status] goes through. *)
Definition response_ok (r : Response) : bool :=
  match raise_for_status r with
  | Ok _ => true
  | Raise _ => false
  end.

(** [Response.__bool__] returns [self.ok]. *)
Definition response_bool (r : Response) : bool := response_ok r.

Definition isinstance_RequestException (e : Exception) : bool :=
  match e with
  | RequestException _ => true
  | _ => false
  end.

(** *** [user_error] *)
Definition user_error (e : Exception) : bool :=
  match e with
  | RequestException response =>
      (* bool(e.response and 400 <= e.response.status_code < 500) *)
      match response with
      | None => false
      | Some r =>
          if response_bool r
          then (400 <=? status_code r)%Z && (status_code r <? 500)%Z
          else false
      end
  | _ => false
  end.

Definition CLOUD_DEPLOYMENT_MODE : string := "cloud".

(** *** [UnstructuredParser._params_to_dict]

    The body of its loop, then the function. *)
Definition _params_to_dict_step (result_dict : gmap string FormValue)
    (item : APIParameterConfigModel) : gmap string FormValue :=
  let key := name item in
  let value := value item in
  match result_dict !! key with
  | Some existing_value =>
      match existing_value with
      | FList l => <[key := FList (l ++ [value])]> result_dict
      | FStr s => <[key := FList [s; value]]> result_dict
      end
  | None => <[key := FStr value]> result_dict
  end.

Definition _params_to_dict (params : option (list APIParameterConfigModel))
  : gmap string FormValue :=
  let result_dict : gmap string FormValue := ∅ in
  match params with
  | None => result_dict
  | Some items => foldl _params_to_dict_step result_dict items
  end.

(** *** [UnstructuredParser._supported_file_types] *)
Definition _supported_file_types : list (option FileType) :=
  [Some MD; Some PDF; Some DOCX; Some PPTX].

(** *** [UnstructuredParser._handle_unprocessable_file] *)
Definition _handle_unprocessable_file (remote_file : RemoteFile)
    (skip_unprocessable_file_types : option bool) : M unit :=
  if default false skip_unprocessable_file_types then
    logger_warn ("File " +:+ uri remote_file +:+ " cannot be parsed. Skipping it.")
  else
    raise (RecordParseError ERROR_PARSING_RECORD (uri remote_file)).

(** [if hasattr(file, "name"): file.name = None] *)
Definition clear_name (file : Handle) : M unit :=
  λ w, match files w !! file with
       | Some f =>
           match io_name f with
           | Some _ =>
               put_file file {| io_data := io_data f; io_pos := io_pos f;
                                io_closed := io_closed f;
                                io_name := Some None |} w
           | None => (Ok tt, w)
           end
       | None => (Ok tt, w)
       end.

(** [detect_filetype(file=file)]: sniffs the bytes ahead and leaves the
    position after the bytes it consumed. *)
Definition sniff (file : Handle) : M (option FileType) :=
  f ← the_file file;
  let '(kind, consumed) := detect_filetype_file (drop (io_pos f) (io_data f)) in
  put_file file {| io_data := io_data f;
                   io_pos := io_pos f `min` length (io_data f)
                             + consumed `min` (length (io_data f) - io_pos f);
                   io_closed := io_closed f; io_name := io_name f |};;
  mret kind.

(** [bool(s)] for an optional string: [None] and the empty string are
    falsy. *)
Definition optional_str_truthy (s : option string) : bool :=
  match s with
  | Some s => negb (String.eqb s "")
  | None => false
  end.

(** [key in table] *)
Definition py_in {V} (key : option string) (table : gmap string V) : bool :=
  match key with
  | Some k => bool_decide (is_Some (table !! k))
  | None => false
  end.

(** *** [UnstructuredParser._get_filetype] *)
Definition _get_filetype (file : Handle) (remote_file : RemoteFile)
  : M (option FileType) :=
  if optional_str_truthy (mime_type remote_file)
     && py_in (mime_type remote_file) STR_TO_FILETYPE
  then mret (mime_type remote_file ≫= (STR_TO_FILETYPE !!.))
  else
    clear_name file;;
    let file_type := detect_filetype_filename (uri remote_file) in
    if bool_decide (file_type ≠ None) && negb (bool_decide (file_type = Some UNK))
    then mret file_type
    else
      type_based_on_content ← sniff file;
      io_seek file 0;;
      mret type_based_on_content.

(** *** [_import_unstructured]

    The three imports, in the order of the source; the module's globals
    are bound when all of them went through, and are handed on here. *)
Definition _import_unstructured
  : Result ((list byte → Result (list Element))
            * (list byte → Result (list Element))
            * (list byte → Result (list Element))) :=
  match unstructured_partition_docx with
  | None => Raise ImportError
  | Some partition_docx =>
  match unstructured_partition_pdf with
  | None => Raise ImportError
  | Some partition_pdf =>
  match unstructured_partition_pptx with
  | None => Raise ImportError
  | Some partition_pptx => Ok (partition_pdf, partition_docx, partition_pptx)
  end end end.

(** [not f] for a function object [f]: functions are truthy. *)
Definition not_function {A B} (f : A → B) : bool := false.

(** *** [UnstructuredParser._read_file_locally] *)
Definition _read_file_locally (file_handle : Handle) (filetype : option FileType)
  : M (option string) :=
  '(partition_pdf, partition_docx, partition_pptx) ← lift _import_unstructured;
  if not_function partition_pdf || not_function partition_docx
     || not_function partition_pptx
  then raise (PyException "unstructured library is not available")
  else
      elements ←
        (if bool_decide (filetype = Some PDF) then
           io_seek file_handle 0;;
           buffered ← io_read file_handle;
           file ← new_file (BytesIO buffered);
           try_finally
             (io_seek file_handle 0;;
              bytes ← io_read file;
              lift (partition_pdf bytes))
             (io_close file)
         else if bool_decide (filetype = Some DOCX) then
           bytes ← io_read file_handle;
           lift (partition_docx bytes)
         else if bool_decide (filetype = Some PPTX) then
           bytes ← io_read file_handle;
           lift (partition_pptx bytes)
         else
           raise (PyException
             "local variable 'elements' referenced before assignment"));
      markdown ← lift (_render_markdown elements);
      mret (Some markdown).

(** What a call of [requests.post] gives for a request: the request is
    prepared, then sent. *)
Definition requests_post (n : nat) (request : Request) : Result Response :=
  requests_prepare (req_url request) (req_headers request);;
  requests_send n request.

(** The bytes ahead of the read position in a file object, whatever its
    state. *)
Definition bytes_ahead (h : Handle) : M (list byte) :=
  λ w, (Ok (from_option (λ f, drop (io_pos f) (io_data f)) [] (files w !! h)), w).

(** A call of [requests.post] is recorded with what it was given; the
    number of the earlier calls comes back. *)
Definition called (request : Request) : M nat :=
  λ w, (Ok (length (posted w)), add_posted request w).

(** [requests.post(url, headers=..., data=..., files=...)]: the library
    prepares the URL and the headers, then reads the file part from its
    handle, then sends. *)
Definition post (url : string) (headers : gmap string string)
    (data : gmap string FormValue) (file_part : string * Handle * string)
  : M Response :=
  let '(filename, file_handle, mimetype) := file_part in
  pending ← bytes_ahead file_handle;
  n ← called {| req_url := url; req_headers := headers; req_data := data;
                req_file := (filename, pending, mimetype) |};
  lift (requests_prepare url headers);;
  body ← io_read file_handle;
  lift (requests_send n {| req_url := url; req_headers := headers;
                           req_data := data;
                           req_file := (filename, body, mimetype) |}).

(** *** [UnstructuredParser._read_file_remotely] *)
Definition _read_file_remotely (file_handle : Handle)
    (format : APIProcessingConfigModel) (filetype : FileType)
  : M (option string) :=
  let headers : gmap string string :=
    <["unstructured-api-key" := api_key format]>
      (<["accept" := "application/json"]> ∅) in
  let data := _params_to_dict (parameters format) in
  mimetype ← match FILETYPE_TO_MIMETYPE filetype with
             | Some m => mret m
             | None => raise (KeyError "FILETYPE_TO_MIMETYPE")
             end;
  let file_data := ("filename", file_handle, mimetype) in
  print "Try request!";;
  response ← post (api_url format +:+ "/general/v0/general") headers data file_data;
  lift (raise_for_status response);;
  json_response ← lift (response_json response);
  markdown ← lift (_render_markdown json_response);
  mret (Some markdown).

(** *** [backoff.on_exception]

    [backoff.expo] with its defaults: 1, 2, 4, ... *)
Definition expo (n : nat) : Z := 1 * 2 ^ Z.of_nat n.

(** The retry loop of the decorator.  [tries] counts the calls made,
    [n] the waits taken from the generator; [None] is an unfinished
    loop. *)
Fixpoint on_exception_loop {A} (fuel : nat) (exception giveup : Exception → bool)
    (max_tries : nat) (target : M A) (tries n : nat) : M (option A) :=
  match fuel with
  | O => mret None
  | S fuel' =>
      let tries := tries + 1 in
      try_except (ret ← target; mret (Some ret))
        (λ e,
           if exception e then
             let max_tries_exceeded := (tries =? max_tries)%nat in
             if giveup e || max_tries_exceeded then raise e
             else
               sleep_up_to (expo n);;
               on_exception_loop fuel' exception giveup max_tries target tries (n + 1)
           else raise e)
  end.

Definition max_tries : nat := 5.

(** *** [UnstructuredParser._read_file_remotely_with_retries]

    Five rounds are all the loop can take ([on_exception_loop_finishes]
    below), so they are the fuel. *)
Definition _read_file_remotely_with_retries (file_handle : Handle)
    (format : APIProcessingConfigModel) (filetype : FileType)
  : M (option (option string)) :=
  on_exception_loop max_tries isinstance_RequestException user_error max_tries
    (_read_file_remotely file_handle format filetype) 0 0.

(** *** [UnstructuredParser._read_file] *)
Definition _read_file (file_handle : Handle) (remote_file : RemoteFile)
    (format : UnstructuredFormat) : M (option string) :=
  filetype ← _get_filetype file_handle remote_file;
  if bool_decide (filetype = Some MD) then
    file_content ← io_read file_handle;
    decoded_content ← lift (optional_decode (inr file_content));
    mret (Some decoded_content)
  else if negb (bool_decide (filetype ∈ _supported_file_types)) then
    _handle_unprocessable_file remote_file (skip_unprocessable_file_types format);;
    mret None
  else
    match processing format, filetype with
    | LocalProcessing, _ => _read_file_locally file_handle filetype
    | APIProcessing api, Some filetype =>
        r ← _read_file_remotely_with_retries file_handle api filetype;
        mret (mjoin r)
    | APIProcessing api, None => raise (KeyError "FILETYPE_TO_MIMETYPE")
    end.

(** *** [_extract_format] *)
Definition _extract_format (config : FileBasedStreamConfig)
  : Result UnstructuredFormat :=
  match format config with
  | Unstructured config_format => Ok config_format
  | OtherFormat repr => Raise (ValueError ("Invalid format config: " +:+ repr))
  end.

(** [stream_reader.open_file(file, mode, None, logger)] as a context
    manager: the reader's file object on entry, closed on exit. *)
Definition with_open_file {A} (stream_reader : RemoteFile → Result IOBase)
    (file : RemoteFile) (body : Handle → M A) : M A :=
  f ← lift (stream_reader file);
  file_handle ← new_file f;
  try_finally (body file_handle) (io_close file_handle).

(** *** [UnstructuredParser.parse_records]: the records the generator
    yields until it ends or raises. *)
Definition parse_records (config : FileBasedStreamConfig) (file : RemoteFile)
    (stream_reader : RemoteFile → Result IOBase)
  : M (list (gmap string string)) :=
  format ← lift (_extract_format config);
  with_open_file stream_reader file (λ file_handle,
    markdown ← _read_file file_handle file format;
    match markdown with
    | Some markdown =>
        mret [ <["document_key" := uri file]> (<["content" := markdown]> ∅) ]
    | None => mret []
    end).

(** [s.casefold()], for what it is compared with here: no character
    outside A-Z folds to a letter of "cloud". *)
Definition casefold_char (c : ascii) : ascii :=
  let n := nat_of_ascii c in
  if (65 <=? n)%nat && (n <=? 90)%nat then ascii_of_nat (n + 32) else c.

Fixpoint casefold (s : string) : string :=
  match s with
  | EmptyString => EmptyString
  | String c rest => String (casefold_char c) (casefold rest)
  end.

(** [s.startswith(prefix)] *)
Definition startswith (s prefix : string) : bool := String.prefix prefix s.

(** *** [UnstructuredParser.check_config] *)
Definition check_config (config : FileBasedStreamConfig)
  : M (bool * option string) :=
  format_config ← lift (_extract_format config);
  match processing format_config with
  | LocalProcessing => mret (true, None)
  | APIProcessing api =>
      deployment_mode ← environ_get "DEPLOYMENT_MODE" "";
      if String.eqb (casefold deployment_mode) CLOUD_DEPLOYMENT_MODE
         && negb (startswith (api_url api) "https://")
      then mret (false, Some "Base URL must start with https://")
      else
        caught ← try_except
          (payload ← new_file (BytesIO (list_byte_of_string
                                          "# Airbyte source connection test"));
           _read_file_remotely payload api MD;;
           mret None)
          (λ e, mret (Some (false, Some (format_exc e))));
        match caught with
        | Some failure => mret failure
        | None => mret (true, None)
        end
  end.

(** *** The parser's properties *)

Inductive FileReadMode := READ | READ_BINARY.

Definition parser_max_n_files_for_schema_inference : option nat := Some 1.

Definition parser_max_n_files_for_parsability : option nat := Some 0.

Definition file_read_mode : FileReadMode := READ_BINARY.

(** *** [UnstructuredParser.infer_schema] *)
Definition infer_schema (config : FileBasedStreamConfig) (file : RemoteFile)
    (stream_reader : RemoteFile → Result IOBase)
  : M (gmap string (gmap string string)) :=
  format ← lift (_extract_format config);
  with_open_file stream_reader file (λ file_handle,
    filetype ← _get_filetype file_handle file;
    (if negb (bool_decide (filetype ∈ _supported_file_types)) then
       _handle_unprocessable_file file (skip_unprocessable_file_types format)
     else mret tt);;
    mret (<["document_key" := <["type" := "string"]> ∅]>
            (<["content" := <["type" := "string"]> ∅]> ∅))).

End Parser.

(** ** The build script ([base_images/build.py]) *)

(** A base image version class, and its instance for a platform
    ([BaseImageVersion(dagger_client, platform)]). *)
Record BaseImageClass := {
  version : string;
  github_url : string;
  changelog_entry : string;
}.

Record AirbyteConnectorBaseImage := {
  image_class : BaseImageClass;
  platform : string;
}.

(** What the script imports from the rest of the project and from its
    libraries. *)
Class BuildCollaborators := {
  (** [consts.DEBUG] *)
  DEBUG : bool;
  (** [consts.PROJECT_DIR] *)
  PROJECT_DIR : string;
  (** [consts.SUPPORTED_PLATFORMS] *)
  SUPPORTED_PLATFORMS : list string;
  (** [base_images.ALL_BASE_IMAGES] *)
  ALL_BASE_IMAGES : list BaseImageClass;
  (** [python.ALL_BASE_IMAGES] *)
  python_ALL_BASE_IMAGES : list BaseImageClass;
  (** [python.AirbytePythonConnectorBaseImage.image_name] *)
  python_image_name : string;
  (** [base_image_version.name_with_tag] *)
  name_with_tag : AirbyteConnectorBaseImage → string;
  (** [hacks.get_container_dockerfile(base_image_version.container)] *)
  get_container_dockerfile : AirbyteConnectorBaseImage → Result string;
  (** [await base_image_version.run_sanity_checks_for_version()] *)
  run_sanity_checks_for_version : AirbyteConnectorBaseImage → Result unit;
  (** [markdown_table(entries).set_params(...).get_markdown()] *)
  markdown_table : list (string * string) → Result string;
  (** entering [dagger.Connection(dagger_config)] *)
  dagger_connection : Result unit;
}.

Section Build.
Context `{!BuildCollaborators}.

Definition DOCKERFILE_HEADER : string :=
  LF +:+ "# This file is generated by base_images/build.py. Please do not edit it manually."
  +:+ LF +:+ "# It is not used by Airbyte internal build process."
  +:+ LF +:+ "# It is meant for documentation and debugging purposes."
  +:+ LF.

(** [Path(a / b)] *)
Definition path_join (a b : string) : string := a +:+ "/" +:+ b.

(** [itertools.product(xs, ys)] *)
Definition product {A B} (xs : list A) (ys : list B) : list (A * B) :=
  x ← xs; y ← ys; [(x, y)].

(** [all(bools)] *)
Definition all (bools : list bool) : bool := forallb id bools.

(** *** [generate_dockerfile] *)
Definition generate_dockerfile (base_image_version : AirbyteConnectorBaseImage)
  : M unit :=
  dockerfile ← lift (get_container_dockerfile base_image_version);
  let dockerfile_directory :=
    path_join (path_join (path_join PROJECT_DIR "generated") "dockerfiles")
              (platform base_image_version) in
  fs_call (Mkdir dockerfile_directory);;
  let dockerfile_path :=
    path_join dockerfile_directory
              (name_with_tag base_image_version +:+ ".Dockerfile") in
  let dockerfile := DOCKERFILE_HEADER +:+ LF +:+ dockerfile +:+ LF in
  fs_call (WriteText dockerfile_path dockerfile);;
  console_log (":whale2: Generated Dockerfile for "
               +:+ name_with_tag base_image_version +:+ " for "
               +:+ platform base_image_version +:+ ": " +:+ dockerfile_path).

(** *** [run_sanity_checks] *)
Definition run_sanity_checks (base_image_version : AirbyteConnectorBaseImage)
  : M bool :=
  try_except
    (lift (run_sanity_checks_for_version base_image_version);;
     console_log (":white_check_mark: Successfully ran sanity checks on "
                  +:+ name_with_tag base_image_version +:+ " for "
                  +:+ platform base_image_version);;
     mret true)
    (λ e, match e with
          | SanityCheckError sanity_check_error =>
              console_log (":cross_mark: Sanity checks failure on "
                           +:+ name_with_tag base_image_version +:+ " for "
                           +:+ platform base_image_version +:+ ": "
                           +:+ sanity_check_error);;
              mret false
          | _ => raise e
          end).

(** *** [write_changelog_file] *)
Definition write_changelog_file (changelog_path base_image_name : string)
    (base_images_classes : list BaseImageClass) : M unit :=
  let entries :=
    (λ base_version_image_class,
       ("[" +:+ version base_version_image_class +:+ "]("
            +:+ github_url base_version_image_class +:+ ")",
        changelog_entry base_version_image_class)) <$> base_images_classes in
  markdown ← lift (markdown_table entries);
  fs_call (OpenWrite changelog_path);;
  fs_call (FileWrite changelog_path
             ("# Changelog for " +:+ base_image_name +:+ LF +:+ LF));;
  fs_call (FileWrite changelog_path markdown).

(** The body of the [for] loop of [a_build], over the pairs left. *)
Fixpoint a_build_loop (pairs : list (string * BaseImageClass))
    (sanity_check_successes : list bool) : M (list bool) :=
  match pairs with
  | [] => mret sanity_check_successes
  | (platform, BaseImageVersion) :: rest =>
      let base_image_version :=
        {| image_class := BaseImageVersion; platform := platform |} in
      status_update (":whale2: Generating dockerfile for "
                     +:+ name_with_tag base_image_version +:+ " for " +:+ platform);;
      generate_dockerfile base_image_version;;
      status_update (":mag_right: Running sanity checks on "
                     +:+ name_with_tag base_image_version +:+ " for " +:+ platform);;
      success ← run_sanity_checks base_image_version;
      a_build_loop rest (sanity_check_successes ++ [success])
  end.

(** *** [a_build] *)
Definition a_build : M bool :=
  status_update ":dagger: Initializing Dagger";;
  (if DEBUG then mret tt
   else
     let dagger_logs_path := "/tmp/base_images_project_build_dagger_logs.log" in
     fs_call (Unlink dagger_logs_path);;
     fs_call (Touch dagger_logs_path);;
     fs_call (OpenRead dagger_logs_path);;
     console_log (":information_source: Dagger logs will be written to "
                  +:+ dagger_logs_path));;
  let sanity_check_successes := [] in
  lift dagger_connection;;
  sanity_check_successes ←
    a_build_loop (product SUPPORTED_PLATFORMS ALL_BASE_IMAGES)
                 sanity_check_successes;
  mret (all sanity_check_successes).

(** *** [main] *)
Definition main : M unit :=
  try_except
    (success ← a_build;
     let python_changelog_path :=
       path_join PROJECT_DIR "CHANGELOG_PYTHON_CONNECTOR_BASE_IMAGE.md" in
     (if negb success then
        console_log ":bomb: Sanity checks failed. Feel free to prepend the command with LOG_LEVEL=DEBUG if you want to investigate Dagger logs."
      else
        write_changelog_file python_changelog_path python_image_name
                             python_ALL_BASE_IMAGES;;
        console_log (":memo: Wrote the updated changelog to "
                     +:+ python_changelog_path +:+ ".");;
        git_hook ← os_getenv "GIT_HOOK";
        if bool_decide (git_hook ≠ None) && bool_decide (git_hook ≠ Some "")
        then console_log "[bold green] The updated changelog and dockerfile files were commited.[/bold green]"
        else console_log "[bold green]You can now commit and push the changelog and the generated dockerfiles![/bold green]");;
     if negb success then sys_exit 1 else mret tt)
    (λ e, match e with
          | KeyboardInterrupt =>
              console_log ":bomb: Aborted the build.";;
              sys_exit 1
          | _ => raise e
          end).

End Build.

(** ** Vocabulary of the statements *)

(** [joined_by sep rs out]: [out] is the renderings [rs] in their order,
    with one [sep] between each two neighbours and none at either end. *)
Inductive joined_by (sep : string) : list string → string → Prop :=
| joined_nil : joined_by sep [] ""
| joined_one r : joined_by sep [r] r
| joined_app rs1 rs2 out1 out2 :
    rs1 ≠ [] → rs2 ≠ [] →
    joined_by sep rs1 out1 → joined_by sep rs2 out2 →
    joined_by sep (rs1 ++ rs2) (out1 +:+ sep +:+ out2).

(** The [category_depth] stored in an element's [metadata], if any. *)
Definition category_depth (el : Element) : option PyVal :=
  match el !! "metadata" with
  | Some (PDict metadata) => metadata !! "category_depth"
  | _ => None
  end.


(** The test extraction of [check_config]: the fixed Markdown payload
    sent to the service. *)
Definition connection_test `{!Collaborators} (api : APIProcessingConfigModel)
  : M (option string) :=
  payload ← new_file (BytesIO (list_byte_of_string
                                 "# Airbyte source connection test"));
  _read_file_remotely payload api MD.

(** A cloud deployment (by the environment of the world) with a service
    URL that is not an https one. *)
Definition insecure_on_cloud (api : APIProcessingConfigModel) (w : World) : bool :=
  String.eqb (casefold (default "" (environ w !! "DEPLOYMENT_MODE")))
             CLOUD_DEPLOYMENT_MODE
  && negb (startswith (api_url api) "https://").

(** What a computation may change of a file object: its [name] and its
    position, which stays or goes back to the start. *)
Definition file_kept (w w' : World) (h : Handle) : Prop :=
  ∀ f, files w !! h = Some f →
    ∃ f', files w' !! h = Some f'
        ∧ io_data f' = io_data f
        ∧ io_closed f' = io_closed f
        ∧ (io_pos f' = io_pos f ∨ io_pos f' = 0).

(** ... and of the rest of the world: nothing. *)
Definition world_kept (w w' : World) : Prop :=
  environ w' = environ w ∧ logged w' = logged w ∧ printed w' = printed w
  ∧ posted w' = posted w ∧ slept w' = slept w ∧ console w' = console w
  ∧ status w' = status w ∧ fs_calls w' = fs_calls w
  ∧ length (files w') = length (files w).

(** The values given to a parameter name, in the order of the list. *)
Definition values_of (key : string) (items : list APIParameterConfigModel)
  : list string :=
  value <$> filter (λ item, name item = key) items.

(** What the form-field dictionary holds for a name with these values. *)
Definition coalesced (values : list string) : option FormValue :=
  match values with
  | [] => None
  | [v] => Some (FStr v)
  | _ => Some (FList values)
  end.

(** *** Vocabulary for the build script *)

Section BuildVocabulary.
Context `{!BuildCollaborators}.

(** The base image versions of a run: one per platform and class. *)
Definition base_image_versions : list AirbyteConnectorBaseImage :=
  (λ pair, {| image_class := pair.2; platform := pair.1 |})
    <$> product SUPPORTED_PLATFORMS ALL_BASE_IMAGES.

(** Whether the sanity checks of a version go through. *)
Definition sanity_passed (base_image_version : AirbyteConnectorBaseImage) : bool :=
  match run_sanity_checks_for_version base_image_version with
  | Ok _ => true
  | Raise _ => false
  end.

(** A version for which nothing but a sanity check can fail. *)
Definition checkable (base_image_version : AirbyteConnectorBaseImage) : Prop :=
  (∃ dockerfile, get_container_dockerfile base_image_version = Ok dockerfile)
  ∧ (run_sanity_checks_for_version base_image_version = Ok tt
     ∨ ∃ msg, run_sanity_checks_for_version base_image_version
              = Raise (SanityCheckError msg)).

Definition python_changelog_path : string :=
  path_join PROJECT_DIR "CHANGELOG_PYTHON_CONNECTOR_BASE_IMAGE.md".

(** The rows of the changelog table. *)
Definition changelog_entries : list (string * string) :=
  (λ c, ("[" +:+ version c +:+ "](" +:+ github_url c +:+ ")",
         changelog_entry c)) <$> python_ALL_BASE_IMAGES.

(** The file-system calls that regenerate the changelog. *)
Definition changelog_calls (markdown : string) : list FsCall :=
  [ OpenWrite python_changelog_path;
    FileWrite python_changelog_path
      ("# Changelog for " +:+ python_image_name +:+ LF +:+ LF);
    FileWrite python_changelog_path markdown ].

End BuildVocabulary.

Definition is_open_write (c : FsCall) : bool :=
  match c with
  | OpenWrite _ => true
  | _ => false
  end.

(** [w'] has the file-system calls of [w] and then some more, none of
    which opens a file for writing. *)
Definition no_file_opened_for_writing (w w' : World) : Prop :=
  ∃ extra, fs_calls w' = fs_calls w ++ extra
         ∧ Forall (λ c, is_open_write c = false) extra.

(** ** Concrete inputs

    Collaborators, worlds and files on which the statements below are
    run. *)

(** A service that answers every request with the given status. *)
Definition always_status (status : Z) : nat → Request → Result Response :=
  λ _ _, Ok {| status_code := status; content := [] |}.

(** A service that answers the first [failures] requests with status
    [status] and the later ones with 200. *)
Definition failing_first (failures : nat) (status : Z)
  : nat → Request → Result Response :=
  λ n _, if (n <? failures)%nat
         then Ok {| status_code := status; content := [] |}
         else Ok {| status_code := 200; content := [] |}.

(** The elements the example service returns for every document. *)
Definition example_elements : list Element :=
  [ <["type" := PStr "Title"]> (<["text" := PStr "Report"]>
      (<["metadata" := PDict (<["category_depth" := PInt 2]> ∅)]> ∅));
    <["type" := PStr "ListItem"]> (<["text" := PStr "Buy milk"]> ∅);
    <["type" := PStr "NarrativeText"]> (<["text" := PStr "Done."]> ∅) ].

Definition example_collaborators (service : nat → Request → Result Response)
  : Collaborators := {|
  STR_TO_FILETYPE :=
    <["application/pdf" := PDF]> (<["text/markdown" := MD]>
      (<["text/csv" := CSV]> ∅));
  FILETYPE_TO_MIMETYPE := λ filetype,
    match filetype with
    | MD => Some "text/markdown"
    | PDF => Some "application/pdf"
    | CSV => Some "text/csv"
    | _ => None
    end;
  detect_filetype_filename := λ filename,
    if String.eqb filename "notes.md" then Some MD
    else if String.eqb filename "table.csv" then Some CSV
    else if String.eqb filename "" then None
    else Some UNK;
  detect_filetype_file := λ bytes,
    (if String.prefix "%PDF" (string_of_list_byte bytes) then Some PDF
     else Some TXT,
     4);
  unstructured_partition_pdf := Some (λ _, Ok example_elements);
  unstructured_partition_docx := Some (λ _, Ok example_elements);
  unstructured_partition_pptx := Some (λ _, Ok example_elements);
  py_repr := λ _, "?";
  response_json := λ _, Ok example_elements;
  format_exc := λ e,
    match e with
    | RequestException (Some r) => "HTTPError: " +:+ pretty (status_code r)
    | _ => "Traceback (most recent call last)"
    end;
  requests_prepare := λ _ _, Ok tt;
  requests_send := service;
|}.

(** A world with one open file, of the given bytes. *)
Definition example_world (data : list byte) : World :=
  {| environ := ∅; files := [BytesIO data]; logged := []; printed := [];
     posted := []; slept := []; console := []; status := []; fs_calls := [] |}.

(** The same, under a cloud deployment. *)
Definition cloud_world : World :=
  {| environ := <["DEPLOYMENT_MODE" := "Cloud"]> ∅; files := []; logged := [];
     printed := []; posted := []; slept := []; console := []; status := [];
     fs_calls := [] |}.

Definition example_api (url : string) : APIProcessingConfigModel :=
  {| api_key := "secret"; api_url := url;
     parameters := Some [ {| name := "strategy"; value := "fast" |} ] |}.

Definition example_config (skip : option bool) (processing : ProcessingConfig)
  : FileBasedStreamConfig :=
  {| format := Unstructured {| skip_unprocessable_file_types := skip;
                               processing := processing |} |}.

(** Two versions of the Python base image, on two platforms; the sanity
    checks fail on the platforms listed in [broken]. *)
Definition example_image (version : string) : BaseImageClass :=
  {| version := version;
     github_url := "https://github.com/airbytehq/airbyte/tree/" +:+ version;
     changelog_entry := "Release " +:+ version |}.

Definition example_build (broken : list string) : BuildCollaborators := {|
  DEBUG := false;
  PROJECT_DIR := "/repo/base_images";
  SUPPORTED_PLATFORMS := ["linux/amd64"; "linux/arm64"];
  ALL_BASE_IMAGES := [example_image "1.0.0"; example_image "1.1.0"];
  python_ALL_BASE_IMAGES := [example_image "1.0.0"; example_image "1.1.0"];
  python_image_name := "airbyte/python-connector-base";
  name_with_tag := λ base_image_version,
    "airbyte/python-connector-base:" +:+ version (image_class base_image_version);
  get_container_dockerfile := λ _, Ok "FROM python:3.9";
  run_sanity_checks_for_version := λ base_image_version,
    if bool_decide (platform base_image_version ∈ broken)
    then Raise (SanityCheckError "unexpected python version")
    else Ok tt;
  markdown_table := λ entries,
    Ok (String.concat LF ((λ entry, "|" +:+ entry.1 +:+ "|" +:+ entry.2 +:+ "|")
                            <$> entries));
  dagger_connection := Ok tt;
|}.

(** A world in which nothing happened yet. *)
Definition empty_world : World :=
  {| environ := ∅; files := []; logged := []; printed := []; posted := [];
     slept := []; console := []; status := []; fs_calls := [] |}.

(** ** Concrete elements *)

Definition list_item_element : Element :=
  <["type" := PStr "ListItem"]> (<["text" := PStr "Buy milk"]> ∅).

Definition formula_element : Element :=
  <["type" := PStr "Formula"]> (<["text" := PStr "E = mc^2"]> ∅).

(** An element whose type is not a string, and one without a type. *)
Definition numbered_element : Element :=
  <["type" := PInt 7]> (<["text" := PStr "seven"]> ∅).

Definition untyped_element : Element := <["text" := PStr "orphan"]> ∅.

(** Titles with a negative depth and with a depth given as text. *)
Definition title_with_depth (depth : PyVal) : Element :=
  <["type" := PStr "Title"]> (<["text" := PStr "Intro"]>
    (<["metadata" := PDict (<["category_depth" := depth]> ∅)]> ∅)).

(** Elements with the empty string among the keys of one of their
    dictionaries: a title of depth 3, and a paragraph without text. *)
Definition title_with_empty_key : Element :=
  <["" := PInt 1]> (title_with_depth (PInt 3)).

Definition paragraph_with_empty_key : Element :=
  <["type" := PStr "NarrativeText"]>
    (<["metadata" := PDict (<["" := PStr "page"]> ∅)]> ∅).

(** *** Vocabulary for remote extraction *)

(** The request [_read_file_remotely] builds for a configuration, the
    bytes of the file part and their content type. *)
Definition remote_request (api : APIProcessingConfigModel) (body : list byte)
    (mimetype : string) : Request :=
  {| req_url := api_url api +:+ "/general/v0/general";
     req_headers := <["unstructured-api-key" := api_key api]>
                      (<["accept" := "application/json"]> ∅);
     req_data := _params_to_dict (parameters api);
     req_file := ("filename", body, mimetype) |}.

(** What preparing the request of a configuration gives: it depends on
    the URL and the headers alone. *)
Definition preparation `{!Collaborators} (api : APIProcessingConfigModel)
  : Result unit :=
  let request := remote_request api [] "" in
  requests_prepare (req_url request) (req_headers request).

(** A file object after it was read to its end. *)
Definition read_to_end (f : IOBase) : IOBase :=
  {| io_data := io_data f; io_pos := length (io_data f);
     io_closed := io_closed f; io_name := io_name f |}.

(** What is made of the answer of the service. *)
Definition rendered_response `{!Collaborators} (answer : Result Response)
  : Result (option string) :=
  response ← answer;
  raise_for_status response;;
  json_response ← response_json response;
  markdown ← _render_markdown json_response;
  mret (Some markdown).

(** The waits of the decorator, in the order they are taken. *)
Definition backoff_waits : list Z := [1; 2; 4; 8]%Z.

(** A computation that sends at most one request and does not sleep. *)
Definition one_request_at_most {A} (m : M A) : Prop :=
  ∀ w r w', m w = (r, w') →
    slept w' = slept w
    ∧ ∃ extra, posted w' = posted w ++ extra ∧ length extra ≤ 1.

(** *** Vocabulary for what a computation leaves as it was *)

(** Every run of [m] relates the world before to the world after. *)
Definition preserves {A} (R : relation World) (m : M A) : Prop :=
  ∀ w r w', m w = (r, w') → R w w'.

(** Relations that the steps on files, the logger and the standard
    output keep; and those that sending and sleeping keep as well. *)
Class LocalFrame (R : relation World) : Prop := {
  frame_refl : Reflexive R;
  frame_trans : Transitive R;
  frame_put h f w : R w (set_files (<[h := f]> (files w)) w);
  frame_new f w : R w (set_files (files w ++ [f]) w);
  frame_logged r w : R w (add_logged r w);
  frame_printed s w : R w (add_printed s w);
}.

Class RemoteFrame (R : relation World) : Prop := {
  frame_posted r w : R w (add_posted r w);
  frame_slept s w : R w (add_slept s w);
}.

(** Nothing was sent and no time was spent waiting. *)
Definition offline (w w' : World) : Prop :=
  posted w' = posted w ∧ slept w' = slept w.

(** No file object went away. *)
Definition files_stay (w w' : World) : Prop :=
  length (files w) ≤ length (files w').

(** A file object after it was closed. *)
Definition closed_file (f : IOBase) : IOBase :=
  {| io_data := io_data f; io_pos := io_pos f; io_closed := true;
     io_name := io_name f |}.

(** The schema [infer_schema] advertises. *)
Definition static_schema : gmap string (gmap string string) :=
  <["document_key" := <["type" := "string"]> ∅]>
    (<["content" := <["type" := "string"]> ∅]> ∅).

(** Collaborators whose [requests] refuses a URL without "http://" or
    "https://" in front, as the library does with [MissingSchema]. *)
Definition scheme_checking_collaborators : Collaborators :=
  let C := example_collaborators (always_status 503) in
  {| STR_TO_FILETYPE := @STR_TO_FILETYPE C;
     FILETYPE_TO_MIMETYPE := @FILETYPE_TO_MIMETYPE C;
     detect_filetype_filename := @detect_filetype_filename C;
     detect_filetype_file := @detect_filetype_file C;
     unstructured_partition_pdf := @unstructured_partition_pdf C;
     unstructured_partition_docx := @unstructured_partition_docx C;
     unstructured_partition_pptx := @unstructured_partition_pptx C;
     py_repr := @py_repr C;
     response_json := @response_json C;
     format_exc := @format_exc C;
     requests_prepare := λ url _,
       if startswith url "http://" || startswith url "https://" then Ok tt
       else Raise (RequestException None);
     requests_send := @requests_send C |}.

(** Collaborators whose PDF entry point counts the bytes it is given. *)
Definition counting_collaborators : Collaborators := {|
  STR_TO_FILETYPE := <["application/pdf" := PDF]> ∅;
  FILETYPE_TO_MIMETYPE := λ _, None;
  detect_filetype_filename := λ _, Some UNK;
  detect_filetype_file := λ _, (Some PDF, 4);
  unstructured_partition_pdf := Some (λ bytes,
    Ok [ <["type" := PStr "NarrativeText"]>
           (<["text" := PInt (Z.of_nat (length bytes))]> ∅) ]);
  unstructured_partition_docx := Some (λ _, Ok []);
  unstructured_partition_pptx := Some (λ _, Ok []);
  py_repr := λ _, "?";
  response_json := λ _, Ok [];
  format_exc := λ _, "Traceback (most recent call last)";
  requests_prepare := λ _ _, Ok tt;
  requests_send := always_status 200;
|}.

(** A world whose one file is open, named, and already read up to
    position 4. *)
Definition partly_read_world : World :=
  {| environ := ∅;
     files := [ {| io_data := list_byte_of_string "%PDF-1.7"; io_pos := 4;
                   io_closed := false; io_name := Some (Some "/tmp/x.pdf") |} ];
     logged := []; printed := []; posted := []; slept := []; console := [];
     status := []; fs_calls := [] |}.



(** The warning of the unprocessable-file policy. *)
Definition skipped_warning (file : RemoteFile) : LogLevel * string :=
  (WARNING, "File " +:+ uri file +:+ " cannot be parsed. Skipping it.").

(** The payload of the connection check. *)
Definition connection_test_payload : list byte :=
  list_byte_of_string "# Airbyte source connection test".

(** *** More vocabulary for the build script *)

Section BuildPaths.
Context `{!BuildCollaborators}.

(** Where the Dockerfile of a version goes. *)
Definition dockerfile_directory (base_image_version : AirbyteConnectorBaseImage)
  : string :=
  path_join (path_join (path_join PROJECT_DIR "generated") "dockerfiles")
            (platform base_image_version).

Definition dockerfile_path (base_image_version : AirbyteConnectorBaseImage)
  : string :=
  path_join (dockerfile_directory base_image_version)
            (name_with_tag base_image_version +:+ ".Dockerfile").

(** The rows of the changelog table of some classes. *)
Definition changelog_rows (classes : list BaseImageClass)
  : list (string * string) :=
  (λ c, ("[" +:+ version c +:+ "](" +:+ github_url c +:+ ")",
         changelog_entry c)) <$> classes.

End BuildPaths.


(** A build in which the sanity checks of one platform raise the given
    exception. *)
Definition example_build_raising (e : Exception) : BuildCollaborators := {|
  DEBUG := true;
  PROJECT_DIR := "/repo/base_images";
  SUPPORTED_PLATFORMS := ["linux/amd64"; "linux/arm64"];
  ALL_BASE_IMAGES := [example_image "1.0.0"];
  python_ALL_BASE_IMAGES := [example_image "1.0.0"];
  python_image_name := "airbyte/python-connector-base";
  name_with_tag := λ base_image_version,
    "airbyte/python-connector-base:" +:+ version (image_class base_image_version);
  get_container_dockerfile := λ _, Ok "FROM python:3.9";
  run_sanity_checks_for_version := λ base_image_version,
    if String.eqb (platform base_image_version) "linux/arm64"
    then Raise e else Ok tt;
  markdown_table := λ entries,
    match entries with
    | [] => Raise (ValueError "empty table")
    | _ => Ok "|table|"
    end;
  dagger_connection := Ok tt;
|}.

(* ================================================================== *)
(** * Theorems *)

(** ** The Markdown renderer *)

Section RendererFacts.
Context `{!Collaborators}.

Lemma str_append_assoc (a b c : string) : (a +:+ b) +:+ c = a +:+ (b +:+ c).
Proof.
  induction a as [|ch a IH]; [done|].
  change (String ch ((a +:+ b) +:+ c) = String ch (a +:+ b +:+ c)).
  by rewrite IH.
Qed.

Lemma str_join_cons sep r r' rs :
  str_join sep (r :: r' :: rs) = r +:+ sep +:+ str_join sep (r' :: rs).
Proof. reflexivity. Qed.

(** Joining a concatenation: one separator goes between the halves. *)
Lemma str_join_app sep rs1 rs2 :
  rs1 ≠ [] → rs2 ≠ [] →
  str_join sep (rs1 ++ rs2) = str_join sep rs1 +:+ sep +:+ str_join sep rs2.
Proof.
  intros H1 H2. induction rs1 as [|r [|r' rs1] IH]; [done | |].
  - destruct rs2 as [|r2 rs2]; [done | reflexivity].
  - change ((r :: r' :: rs1) ++ rs2) with (r :: r' :: (rs1 ++ rs2)).
    rewrite !str_join_cons.
    change (r' :: rs1 ++ rs2) with ((r' :: rs1) ++ rs2).
    rewrite IH by done. by rewrite !str_append_assoc.
Qed.

Lemma joined_by_str_join sep rs out :
  joined_by sep rs out → out = str_join sep rs.
Proof.
  induction 1 as [| |rs1 rs2 o1 o2 H1 H2 _ IH1 _ IH2]; [done..|].
  subst. by rewrite str_join_app.
Qed.

(** The relation holds of what [join] computes, and of nothing else. *)
Lemma str_join_joined_by sep rs : joined_by sep rs (str_join sep rs).
Proof.
  induction rs as [|r [|r' rs] IH].
  - constructor.
  - constructor.
  - rewrite str_join_cons.
    apply (joined_app sep [r] (r' :: rs)); [done | done | constructor | exact IH].
Qed.

Lemma joined_by_functional sep rs out1 out2 :
  joined_by sep rs out1 → joined_by sep rs out2 → out1 = out2.
Proof.
  intros H1 H2. by rewrite (joined_by_str_join _ _ _ H1), (joined_by_str_join _ _ _ H2).
Qed.

Lemma convert_all_Forall2 elements rs :
  convert_all elements = Ok rs ↔
  Forall2 (λ el r, _convert_to_markdown el = Ok r) elements rs.
Proof.
  revert rs. induction elements as [|el els IH]; intros rs; simpl.
  - split.
    + intros [= <-]. constructor.
    + intros Hf. by inversion Hf.
  - split.
    + destruct (_convert_to_markdown el) as [r|e] eqn:Hel; [|done]. simpl.
      destruct (convert_all els) as [rs'|e] eqn:Hels; [|done]. simpl.
      intros [= <-]. constructor; [done | by apply IH].
    + intros Hf. inversion Hf as [|? r ? rs' Hr Hrs]; subst.
      rewrite Hr. simpl. apply IH in Hrs. rewrite Hrs. reflexivity.
Qed.

(** An element that cannot be rendered ends the whole rendering with its
    exception. *)
Lemma render_markdown_first_failure done_els el rest rs e :
  convert_all done_els = Ok rs →
  _convert_to_markdown el = Raise e →
  _render_markdown (done_els ++ el :: rest) = Raise e.
Proof.
  unfold _render_markdown. revert rs.
  induction done_els as [|d ds IH]; intros rs Hd Hel; simpl in *.
  - by rewrite Hel.
  - destruct (_convert_to_markdown d); [|done]. simpl in *.
    destruct (convert_all ds) as [rs'|] eqn:Hds; [|done].
    specialize (IH rs' eq_refl Hel).
    destruct (convert_all (ds ++ el :: rest)); [done|]. simpl in *. done.
Qed.

(** C5. For every sequence of elements, the renderer returns the
    renderings of the elements joined in the order of the input, with
    exactly one blank line (two line feeds) between neighbours and none
    before the first or after the last: elements that render one by one
    give that string, and a string that is returned is that of the
    renderings of all the elements. *)
Theorem render_markdown_blank_line_joined (elements : list Element) :
  (∀ rs, Forall2 (λ el r, _convert_to_markdown el = Ok r) elements rs →
     ∃ out, _render_markdown elements = Ok out ∧ joined_by (LF +:+ LF) rs out)
  ∧ (∀ out, _render_markdown elements = Ok out →
     ∃ rs, Forall2 (λ el r, _convert_to_markdown el = Ok r) elements rs
         ∧ joined_by (LF +:+ LF) rs out).
Proof.
  split.
  - intros rs Hf. apply convert_all_Forall2 in Hf.
    exists (str_join (LF +:+ LF) rs). split.
    + unfold _render_markdown. by rewrite Hf.
    + apply str_join_joined_by.
  - intros out. unfold _render_markdown.
    destruct (convert_all elements) as [rs|e] eqn:Hall; [|done].
    intros [= <-]. exists rs. split.
    + by apply convert_all_Forall2.
    + apply str_join_joined_by.
Qed.

(** *** Field lookups *)

(** No empty key in a dictionary: none among its own keys, and none in
    its values. *)
Lemma has_empty_key_dict (d : gmap string PyVal) :
  has_empty_key (PDict d) = false ↔
  d !! "" = None ∧ ∀ k v, d !! k = Some v → has_empty_key v = false.
Proof.
  cbn [has_empty_key]. rewrite orb_false_iff, bool_decide_eq_false.
  rewrite <- eq_None_not_Some.
  assert (map_fold (λ _ v' found, has_empty_key v' || found) false d = false
          ↔ ∀ k v, d !! k = Some v → has_empty_key v = false) as ->; [|done].
  induction d as [|k v d Hk Hfold IH] using map_first_key_ind.
  - rewrite map_fold_empty. split; [|done]. intros _ k v. by rewrite lookup_empty.
  - rewrite map_fold_insert_first_key by done. rewrite orb_false_iff, IH. split.
    + intros [Hv Hd] k' v'. rewrite lookup_insert_Some.
      intros [[<- <-]|[_ Hl]]; [done | by eapply Hd].
    + intros Hall. split.
      * apply (Hall k). by rewrite lookup_insert_eq.
      * intros k' v' Hl. apply (Hall k'). rewrite lookup_insert_ne; [done|].
        intros <-. by rewrite Hk in Hl.
Qed.

(** An empty key anywhere ends every lookup. *)
Lemma dpath_get_empty_key (el : Element) (glob : string) (default : option PyVal) :
  String.eqb glob "/" = false →
  has_empty_key (PDict el) = true →
  dpath_get el glob default = Raise InvalidKeyName.
Proof. intros Hne Hkey. unfold dpath_get. by rewrite Hne, Hkey. Qed.

(** Without one, a path of one segment is a lookup of that key. *)
Lemma dpath_get_key (el : Element) (key : string) (default : option PyVal) :
  has_empty_key (PDict el) = false →
  String.eqb key "/" = false →
  str_split "/" key = [key] →
  dpath_get el key default =
    match el !! key with
    | Some v => Ok v
    | None => match default with
              | Some d => Ok d
              | None => Raise (KeyError key)
              end
    end.
Proof.
  intros Hkeys Hne Hsplit. unfold dpath_get. rewrite Hne, Hkeys, Hsplit.
  unfold dpath_lookup. cbn [dpath_lookup_aux dpath_step].
  by destruct (el !! key).
Qed.

Lemma dpath_get_type (el : Element) :
  has_empty_key (PDict el) = false →
  dpath_get el "type" None =
    match el !! "type" with Some v => Ok v | None => Raise (KeyError "type") end.
Proof. intros Hkeys. by apply dpath_get_key. Qed.

Lemma dpath_get_text (el : Element) (default : option PyVal) :
  has_empty_key (PDict el) = false →
  dpath_get el "text" default =
    match el !! "text" with
    | Some v => Ok v
    | None => match default with
              | Some d => Ok d
              | None => Raise (KeyError "text")
              end
    end.
Proof. intros Hkeys. by apply dpath_get_key. Qed.

Lemma dpath_get_category_depth (el : Element) (d : PyVal) :
  has_empty_key (PDict el) = false →
  dpath_get el "metadata/category_depth" (Some d) =
    Ok (default d (category_depth el)).
Proof.
  intros Hkeys. unfold dpath_get, category_depth. rewrite Hkeys.
  change (String.eqb "metadata/category_depth" "/") with false.
  change (str_split "/" "metadata/category_depth")
    with ["metadata"; "category_depth"].
  unfold dpath_lookup. cbn [dpath_lookup_aux dpath_step].
  destruct (el !! "metadata") as [[| | | | |l|md]|]; try reflexivity.
  cbn [mbind option_bind dpath_lookup_aux dpath_step].
  by destruct (md !! "category_depth").
Qed.

(** An element with an empty key in one of its dictionaries is not
    rendered: the first lookup raises. *)
Lemma convert_empty_key (el : Element) :
  has_empty_key (PDict el) = true →
  _convert_to_markdown el = Raise InvalidKeyName.
Proof.
  intros Hkey. unfold _convert_to_markdown.
  by rewrite (dpath_get_empty_key el "type" None eq_refl Hkey).
Qed.

(** The branch taken by an element of each kind. *)
Lemma convert_title (el : Element) :
  has_empty_key (PDict el) = false →
  el !! "type" = Some (PStr "Title") →
  _convert_to_markdown el =
    (heading_str ← py_str_mul "#" (py_or (default (PInt 1) (category_depth el))
                                         (PInt 1));
     text ← dpath_get el "text" None;
     mret (heading_str +:+ " " +:+ py_str text)).
Proof.
  intros Hkeys Hty. unfold _convert_to_markdown.
  rewrite (dpath_get_type el Hkeys), Hty, (dpath_get_category_depth el _ Hkeys).
  reflexivity.
Qed.

Lemma convert_list_item (el : Element) :
  has_empty_key (PDict el) = false →
  el !! "type" = Some (PStr "ListItem") →
  _convert_to_markdown el =
    (text ← dpath_get el "text" None; mret ("- " +:+ py_str text)).
Proof.
  intros Hkeys Hty. unfold _convert_to_markdown.
  rewrite (dpath_get_type el Hkeys), Hty. reflexivity.
Qed.

Lemma convert_formula (el : Element) :
  has_empty_key (PDict el) = false →
  el !! "type" = Some (PStr "Formula") →
  _convert_to_markdown el =
    (text ← dpath_get el "text" None;
     mret ("```" +:+ LF +:+ py_str text +:+ LF +:+ "```")).
Proof.
  intros Hkeys Hty. unfold _convert_to_markdown.
  rewrite (dpath_get_type el Hkeys), Hty. reflexivity.
Qed.

Lemma convert_other (el : Element) (ty : PyVal) :
  has_empty_key (PDict el) = false →
  el !! "type" = Some ty →
  py_eq_str ty "Title" = false →
  py_eq_str ty "ListItem" = false →
  py_eq_str ty "Formula" = false →
  _convert_to_markdown el =
    (text ← dpath_get el "text" (Some (PStr "")); mret (py_str text)).
Proof.
  intros Hkeys Hty H1 H2 H3. unfold _convert_to_markdown.
  rewrite (dpath_get_type el Hkeys), Hty. cbn [mbind Result_bind].
  rewrite H1, H2, H3. reflexivity.
Qed.

(** C6, as the code has it.  A [Title] element with text [t], none of
    whose dictionaries has the empty string as a key: a positive integer
    [category_depth] [d] in its metadata gives [d] number signs, a space
    and [t]; a [category_depth] that is absent, zero or falsy in another
    way gives one number sign, a space and [t].  With an empty key
    anywhere in the element, the lookup raises [InvalidKeyName] and there
    is no rendering. *)
Theorem title_heading_depth (el : Element) (t : string) :
  el !! "type" = Some (PStr "Title") →
  el !! "text" = Some (PStr t) →
  (has_empty_key (PDict el) = false →
     (∀ d : Z, (0 < d)%Z → category_depth el = Some (PInt d) →
        _convert_to_markdown el
          = Ok (str_repeat "#" (Z.to_nat d) +:+ " " +:+ t))
     ∧ (category_depth el = None → _convert_to_markdown el = Ok ("# " +:+ t))
     ∧ (∀ v, category_depth el = Some v → truthy v = false →
          _convert_to_markdown el = Ok ("# " +:+ t)))
  ∧ (has_empty_key (PDict el) = true →
     _convert_to_markdown el = Raise InvalidKeyName).
Proof.
  intros Hty Htext. split; [|apply convert_empty_key].
  intros Hkeys.
  rewrite (convert_title el Hkeys Hty), (dpath_get_text el _ Hkeys), Htext.
  split; [|split].
  - intros d Hd Hdepth. rewrite Hdepth. cbn [from_option id]. unfold py_or.
    assert (truthy (PInt d) = true) as ->.
    { simpl. apply negb_true_iff, Z.eqb_neq. lia. }
    reflexivity.
  - intros Hdepth. rewrite Hdepth. reflexivity.
  - intros v Hdepth Hfalsy. rewrite Hdepth. cbn [from_option id]. unfold py_or.
    rewrite Hfalsy. reflexivity.
Qed.

(** The same for a text that is not a string: it is printed as [str]
    prints it. *)
Lemma title_heading_any_text (el : Element) (text : PyVal) (d : Z) :
  has_empty_key (PDict el) = false →
  el !! "type" = Some (PStr "Title") →
  el !! "text" = Some text →
  category_depth el = Some (PInt d) →
  _convert_to_markdown el =
    Ok (str_mul "#" (if (d =? 0)%Z then 1 else d) +:+ " " +:+ py_str text).
Proof.
  intros Hkeys Hty Htext Hdepth.
  rewrite (convert_title el Hkeys Hty), (dpath_get_text el _ Hkeys), Htext, Hdepth.
  cbn [from_option id]. unfold py_or. simpl truthy. by destruct (d =? 0)%Z.
Qed.

(** A depth that is neither falsy nor an integer cannot be multiplied. *)
Lemma title_heading_bad_depth (el : Element) (s : string) :
  has_empty_key (PDict el) = false →
  el !! "type" = Some (PStr "Title") →
  category_depth el = Some (PStr s) → s ≠ "" →
  _convert_to_markdown el =
    Raise (TypeError "can't multiply sequence by non-int of type 'str'").
Proof.
  intros Hkeys Hty Hdepth Hs. rewrite (convert_title el Hkeys Hty), Hdepth.
  cbn [from_option id]. unfold py_or. simpl truthy.
  destruct (String.eqb_spec s ""); [done|]. reflexivity.
Qed.

(** C10, as the code has it.  Rendering one element is partial.
    Without a "text" key, an element whose type is "Title", "ListItem"
    or "Formula" raises.  When none of its dictionaries has the empty
    string as a key, it is the lookup of "text" that raises, having no
    default there: its [KeyError] is what a list item, a formula, and a
    title with a usable depth raise; and an element of any other type
    renders as the empty string.  With an empty key anywhere in it, an
    element of whatever type raises [InvalidKeyName]: the fallback
    branch tolerates a missing text, not such a key. *)
Theorem convert_to_markdown_missing_text (el : Element) :
  el !! "text" = None →
  (∀ ty, ty ∈ ["Title"; "ListItem"; "Formula"] →
     el !! "type" = Some (PStr ty) →
     ∃ e, _convert_to_markdown el = Raise e)
  ∧ (has_empty_key (PDict el) = false →
     (∀ ty, ty ∈ ["ListItem"; "Formula"] →
        el !! "type" = Some (PStr ty) →
        _convert_to_markdown el = Raise (KeyError "text"))
     ∧ (∀ heading_str,
        el !! "type" = Some (PStr "Title") →
        py_str_mul "#" (py_or (default (PInt 1) (category_depth el)) (PInt 1))
          = Ok heading_str →
        _convert_to_markdown el = Raise (KeyError "text"))
     ∧ (∀ ty, el !! "type" = Some ty →
        py_eq_str ty "Title" = false →
        py_eq_str ty "ListItem" = false →
        py_eq_str ty "Formula" = false →
        _convert_to_markdown el = Ok ""))
  ∧ (has_empty_key (PDict el) = true →
     _convert_to_markdown el = Raise InvalidKeyName).
Proof.
  intros Htext.
  assert (has_empty_key (PDict el) = false →
     ∀ ty, ty ∈ ["ListItem"; "Formula"] →
     el !! "type" = Some (PStr ty) →
     _convert_to_markdown el = Raise (KeyError "text")) as Hkey.
  { intros Hkeys ty Hin Hty.
    apply elem_of_cons in Hin as [->|Hin];
      [|apply list_elem_of_singleton in Hin as ->].
    - rewrite (convert_list_item el Hkeys Hty), (dpath_get_text el _ Hkeys), Htext.
      reflexivity.
    - rewrite (convert_formula el Hkeys Hty), (dpath_get_text el _ Hkeys), Htext.
      reflexivity. }
  split; [|split; [|apply convert_empty_key]].
  - intros ty Hin Hty.
    destruct (has_empty_key (PDict el)) eqn:Hkeys.
    { eexists. by apply convert_empty_key. }
    apply elem_of_cons in Hin as [->|Hin].
    + rewrite (convert_title el Hkeys Hty), (dpath_get_text el _ Hkeys), Htext.
      destruct (py_str_mul _ _); eexists; reflexivity.
    + eexists. by apply (Hkey eq_refl ty).
  - intros Hkeys. split; [exact (Hkey Hkeys)|split].
    + intros heading_str Hty Hmul.
      rewrite (convert_title el Hkeys Hty), Hmul, (dpath_get_text el _ Hkeys), Htext.
      reflexivity.
    + intros ty Hty H1 H2 H3.
      rewrite (convert_other el ty Hkeys Hty H1 H2 H3), (dpath_get_text el _ Hkeys),
        Htext.
      reflexivity.
Qed.

End RendererFacts.

(** C6 as stated fails: a title of depth 3 with text "Intro" that has
    the empty string among its keys is not rendered as "### Intro"; the
    lookup of its type raises. *)
Lemma title_with_empty_key_is_not_rendered :
  title_with_empty_key !! "type" = Some (PStr "Title")
  ∧ title_with_empty_key !! "text" = Some (PStr "Intro")
  ∧ category_depth title_with_empty_key = Some (PInt 3)
  ∧ @_convert_to_markdown (example_collaborators (always_status 200))
      title_with_empty_key
    = Raise InvalidKeyName.
Proof. repeat split. Qed.

(** C10 as stated fails: an element of another type without a "text"
    key, whose metadata has the empty string as a key, does not render
    as the empty string; the lookup of its type raises. *)
Lemma paragraph_with_empty_key_is_not_rendered :
  paragraph_with_empty_key !! "text" = None
  ∧ paragraph_with_empty_key !! "type" = Some (PStr "NarrativeText")
  ∧ @_convert_to_markdown (example_collaborators (always_status 200))
      paragraph_with_empty_key
    = Raise InvalidKeyName.
Proof. repeat split. Qed.

(** ** The form fields of the remote request *)

Section FormFields.

Lemma coalesced_snoc (vs : list string) (v : string) :
  coalesced (vs ++ [v]) =
    match coalesced vs with
    | None => Some (FStr v)
    | Some (FStr s) => Some (FList [s; v])
    | Some (FList l) => Some (FList (l ++ [v]))
    end.
Proof. destruct vs as [|v1 [|v2 vs]]; reflexivity. Qed.

(** One round of the loop, seen from one name. *)
Lemma params_to_dict_step_lookup result_dict item key vs :
  result_dict !! key = coalesced vs →
  _params_to_dict_step result_dict item !! key =
    coalesced (vs ++ values_of key [item]).
Proof.
  intros Hinv. unfold _params_to_dict_step, values_of.
  destruct (decide (name item = key)) as [Heq|Hne].
  - rewrite filter_cons_True by done. rewrite filter_nil.
    change (value <$> [item]) with [value item].
    rewrite coalesced_snoc, <- Hinv, Heq.
    destruct (result_dict !! key) as [[s|l]|]; by rewrite lookup_insert_eq.
  - rewrite filter_cons_False by done. rewrite filter_nil.
    change (value <$> []) with (@nil string). rewrite app_nil_r, <- Hinv.
    destruct (result_dict !! name item) as [[s|l]|]; by rewrite lookup_insert_ne.
Qed.

Lemma values_of_cons key item items :
  values_of key (item :: items) = values_of key [item] ++ values_of key items.
Proof.
  unfold values_of. change (item :: items) with ([item] ++ items).
  by rewrite filter_app, fmap_app.
Qed.

Lemma params_to_dict_fold_lookup items result_dict key vs :
  result_dict !! key = coalesced vs →
  foldl _params_to_dict_step result_dict items !! key =
    coalesced (vs ++ values_of key items).
Proof.
  revert result_dict vs. induction items as [|item items IH];
    intros result_dict vs Hinv.
  - unfold values_of. rewrite filter_nil. simpl. by rewrite app_nil_r.
  - cbn [foldl]. rewrite values_of_cons, app_assoc.
    apply IH. by apply params_to_dict_step_lookup.
Qed.

Lemma params_to_dict_lookup (items : list APIParameterConfigModel) (key : string) :
  _params_to_dict (Some items) !! key = coalesced (values_of key items).
Proof.
  unfold _params_to_dict.
  by rewrite (params_to_dict_fold_lookup items ∅ key []).
Qed.

(** C8. The form-field dictionary holds, for a name occurring once, its
    value; for a name occurring several times, the list of its values in
    the order of the parameters; nothing for a name that does not occur;
    and it is empty when there is no parameter list. *)
Theorem params_to_dict_coalesces :
  (∀ (items : list APIParameterConfigModel) (key : string),
     match values_of key items with
     | [] => _params_to_dict (Some items) !! key = None
     | [v] => _params_to_dict (Some items) !! key = Some (FStr v)
     | v1 :: v2 :: vs =>
         _params_to_dict (Some items) !! key = Some (FList (v1 :: v2 :: vs))
     end)
  ∧ _params_to_dict None = ∅.
Proof.
  split; [|reflexivity].
  intros items key. pose proof (params_to_dict_lookup items key) as Hk.
  by destruct (values_of key items) as [|v1 [|v2 vs]].
Qed.

End FormFields.

(** ** Running computations *)

Section MonadFacts.

Lemma bind_ok {A B} (m : M A) (f : A → M B) w a w' :
  m w = (Ok a, w') → (m ≫= f) w = f a w'.
Proof. intros Hm. unfold mbind, M_bind. by rewrite Hm. Qed.

Lemma bind_raise {A B} (m : M A) (f : A → M B) w e w' :
  m w = (Raise e, w') → (m ≫= f) w = (Raise e, w').
Proof. intros Hm. unfold mbind, M_bind. by rewrite Hm. Qed.

Lemma bind_lift_ok {A B} (a : A) (f : A → M B) w :
  (lift (Ok a) ≫= f) w = f a w.
Proof. reflexivity. Qed.

Lemma bind_assoc {A B C} (m : M A) (f : A → M B) (g : B → M C) w :
  ((m ≫= f) ≫= g) w = (m ≫= λ a, f a ≫= g) w.
Proof. unfold mbind, M_bind. by destruct (m w) as [[a|e] w']. Qed.

Lemma the_file_open (h : Handle) (f : IOBase) w :
  files w !! h = Some f → io_closed f = false → the_file h w = (Ok f, w).
Proof. intros Hf Hc. unfold the_file. by rewrite Hf, Hc. Qed.

(** Reading gives the bytes ahead and moves to the end. *)
Lemma io_read_open (h : Handle) (f : IOBase) w :
  files w !! h = Some f → io_closed f = false →
  io_read h w =
    (Ok (drop (io_pos f) (io_data f)),
     set_files (<[h := {| io_data := io_data f; io_pos := length (io_data f);
                          io_closed := false; io_name := io_name f |}]> (files w)) w).
Proof.
  intros Hf Hc. unfold io_read.
  rewrite (bind_ok _ _ _ _ _ (the_file_open h f w Hf Hc)).
  unfold mbind, M_bind, put_file, mret, M_ret. by rewrite Hc.
Qed.

Lemma io_seek_open (h : Handle) (f : IOBase) (pos : nat) w :
  files w !! h = Some f → io_closed f = false →
  io_seek h pos w =
    (Ok tt,
     set_files (<[h := {| io_data := io_data f; io_pos := pos;
                          io_closed := false; io_name := io_name f |}]> (files w)) w).
Proof.
  intros Hf Hc. unfold io_seek.
  rewrite (bind_ok _ _ _ _ _ (the_file_open h f w Hf Hc)).
  unfold put_file. by rewrite Hc.
Qed.

End MonadFacts.

(** ** File-type detection *)

Section Detection.
Context `{!Collaborators}.




(** Clearing the name never fails and keeps bytes and position. *)
Lemma clear_name_spec file w :
  ∃ w', clear_name file w = (Ok tt, w') ∧ world_kept w w'
      ∧ ∀ f, files w !! file = Some f →
          ∃ f', files w' !! file = Some f' ∧ io_data f' = io_data f
              ∧ io_closed f' = io_closed f ∧ io_pos f' = io_pos f.
Proof.
  unfold clear_name. destruct (files w !! file) as [f|] eqn:Hf.
  - destruct (io_name f) as [n|].
    + eexists. split; [reflexivity|]. split.
      * unfold world_kept. cbn. by rewrite length_insert.
      * intros f0 [= <-]. eexists. split.
        -- cbn. apply list_lookup_insert_eq. by eapply lookup_lt_Some.
        -- done.
    + exists w. repeat split; try done. intros f0 [= <-]. by exists f.
  - exists w. repeat split; done.
Qed.




End Detection.

Section DetectionEffects.
Context `{!Collaborators}.

Lemma world_kept_refl w : world_kept w w.
Proof. by repeat split. Qed.

Lemma world_kept_trans w1 w2 w3 :
  world_kept w1 w2 → world_kept w2 w3 → world_kept w1 w3.
Proof. unfold world_kept. intros H1 H2. destruct_and!. repeat split; congruence. Qed.

Lemma file_kept_refl w h : file_kept w w h.
Proof. intros f Hf. exists f. auto. Qed.

Lemma file_kept_trans w1 w2 w3 h :
  file_kept w1 w2 h → file_kept w2 w3 h → file_kept w1 w3 h.
Proof.
  intros H1 H2 f Hf. destruct (H1 f Hf) as (f2 & Hf2 & Hd2 & Hc2 & Hp2).
  destruct (H2 f2 Hf2) as (f3 & Hf3 & Hd3 & Hc3 & Hp3).
  exists f3. repeat split; [done | congruence | congruence |].
  destruct Hp3 as [Hp3|Hp3]; [|by right]. rewrite Hp3. done.
Qed.

(** Whatever detection does, it changes nothing but the name and the
    position of the file it was given, and the position only by taking
    it back to the start. *)
Lemma get_filetype_effects file remote_file w r w' :
  _get_filetype file remote_file w = (r, w') →
  world_kept w w' ∧ file_kept w w' file.
Proof.
  unfold _get_filetype.
  destruct (optional_str_truthy _ && py_in _ _).
  { intros [= <- <-]. split; [apply world_kept_refl | apply file_kept_refl]. }
  destruct (clear_name_spec file w) as (w1 & Hclear & Hw1 & Hf1).
  rewrite (bind_ok _ _ _ _ _ Hclear).
  assert (file_kept w w1 file) as Hk1.
  { intros f Hf. destruct (Hf1 f Hf) as (f' & ? & ? & ? & ?).
    exists f'. auto. }
  destruct (bool_decide _ && negb _).
  { intros [= <- <-]. done. }
  unfold sniff. rewrite bind_assoc. unfold the_file at 1.
  unfold mbind at 1, M_bind at 1.
  destruct (files w1 !! file) as [f1|] eqn:Hfile1; [|by intros [= <- <-]].
  destruct (io_closed f1) eqn:Hc1; [by intros [= <- <-]|].
  destruct (detect_filetype_file _) as [kind consumed].
  unfold mbind at 1, M_bind at 1. unfold mbind at 1, M_bind at 1.
  unfold put_file at 1. cbn [mret M_ret].
  set (f2 := {| io_data := io_data f1; io_pos := _;
                io_closed := io_closed f1; io_name := io_name f1 |}).
  set (w2 := set_files _ w1).
  assert (files w2 !! file = Some f2) as Hf2.
  { subst w2. cbn. apply list_lookup_insert_eq. by eapply lookup_lt_Some. }
  rewrite (bind_ok _ _ _ _ _ (io_seek_open file f2 0 w2 Hf2 Hc1)).
  intros [= <- <-].
  split.
  - eapply world_kept_trans; [exact Hw1|].
    subst w2. unfold world_kept. cbn. by rewrite !length_insert.
  - eapply file_kept_trans; [exact Hk1|].
    intros f Hf. rewrite Hfile1 in Hf. injection Hf as <-.
    eexists. split.
    + cbn. apply list_lookup_insert_eq. subst w2. cbn.
      rewrite length_insert. by eapply lookup_lt_Some.
    + subst f2. cbn. auto.
Qed.

End DetectionEffects.

(** ** Reading one file *)

Section ReadFile.
Context `{!Collaborators}.

(** C7. A file detected as Markdown is read and decoded as UTF-8, and
    that is all: for every format configuration, local or remote, the
    result is the decoded bytes of the file when they are well-formed
    UTF-8 and the decoding error otherwise, and no request is sent. *)
Theorem read_file_markdown
    (file_handle : Handle) (remote_file : RemoteFile)
    (format : UnstructuredFormat) (f : IOBase) (w w1 : World) :
  files w !! file_handle = Some f → io_closed f = false → io_pos f = 0 →
  _get_filetype file_handle remote_file w = (Ok (Some MD), w1) →
  (_read_file file_handle remote_file format w).1
    = (decoded_content ← bytes_decode_utf8 (io_data f);
       Ok (Some decoded_content))
  ∧ (utf8_well_formed (io_data f) = true →
     (_read_file file_handle remote_file format w).1
       = Ok (Some (string_of_list_byte (io_data f))))
  ∧ (utf8_well_formed (io_data f) = false →
     (_read_file file_handle remote_file format w).1 = Raise UnicodeDecodeError)
  ∧ posted (_read_file file_handle remote_file format w).2 = posted w.
Proof.
  intros Hf Hc Hp Hdetect.
  destruct (get_filetype_effects _ _ _ _ _ Hdetect) as [Hw1 Hk1].
  destruct (Hk1 f Hf) as (f1 & Hf1 & Hd1 & Hc1 & Hp1).
  assert (io_pos f1 = 0) as Hp1' by (destruct Hp1; congruence).
  assert (io_closed f1 = false) as Hc1' by congruence.
  assert (_read_file file_handle remote_file format w
          = match bytes_decode_utf8 (io_data f) with
            | Ok s => (Ok (Some s), (io_read file_handle w1).2)
            | Raise e => (Raise e, (io_read file_handle w1).2)
            end) as Hrun.
  { unfold _read_file. rewrite (bind_ok _ _ _ _ _ Hdetect).
    rewrite bool_decide_eq_true_2 by done.
    pose proof (io_read_open file_handle f1 w1 Hf1 Hc1') as Hread.
    rewrite Hp1', Hd1 in Hread. rewrite drop_0 in Hread.
    rewrite (bind_ok _ _ _ _ _ Hread). rewrite Hread.
    unfold mbind, M_bind, lift, optional_decode. cbn [snd].
    by destruct (bytes_decode_utf8 (io_data f)). }
  assert (posted (io_read file_handle w1).2 = posted w) as Hposted.
  { rewrite (io_read_open file_handle f1 w1 Hf1 Hc1'). cbn.
    unfold world_kept in Hw1. by destruct_and!. }
  rewrite Hrun. unfold bytes_decode_utf8.
  destruct (utf8_well_formed (io_data f)); cbn; repeat split; done.
Qed.

End ReadFile.

(** ** The unprocessable-file policy *)

Section Unprocessable.
Context `{!Collaborators}.

Lemma io_close_spec (h : Handle) w :
  ∃ w', io_close h w = (Ok tt, w')
      ∧ logged w' = logged w ∧ posted w' = posted w.
Proof.
  unfold io_close. destruct (files w !! h); eexists; done.
Qed.

(** Leaving the [with] block closes the file and keeps the outcome. *)
Lemma try_finally_close {A} (body : M A) (h : Handle) w r w1 :
  body w = (r, w1) →
  ∃ w2, try_finally body (io_close h) w = (r, w2)
      ∧ logged w2 = logged w1 ∧ posted w2 = posted w1.
Proof.
  intros Hbody. unfold try_finally. rewrite Hbody.
  destruct (io_close_spec h w1) as (w2 & -> & Hl & Hp). by exists w2.
Qed.

Lemma not_supported_not_markdown (kind : option FileType) :
  kind ∉ _supported_file_types → kind ≠ Some MD.
Proof. intros Hnot ->. apply Hnot. unfold _supported_file_types. set_solver. Qed.

(** C4. A file whose detected kind is none of Markdown, PDF, DOCX and
    PPTX: with [skip_unprocessable_file_types] true, [parse_records]
    logs one warning, yields no record and raises nothing; with the flag
    false or unset, it raises the record-parse error that names the
    file's URI. *)
Theorem parse_records_unsupported_kind
    (config : FileBasedStreamConfig) (fmt : UnstructuredFormat)
    (file : RemoteFile) (stream_reader : RemoteFile → Result IOBase)
    (f : IOBase) (kind : option FileType) (w w2 : World) :
  format config = Unstructured fmt →
  stream_reader file = Ok f →
  _get_filetype (length (files w)) file (set_files (files w ++ [f]) w)
    = (Ok kind, w2) →
  kind ∉ _supported_file_types →
  (skip_unprocessable_file_types fmt = Some true →
     ∃ w', parse_records config file stream_reader w = (Ok [], w')
         ∧ logged w' = logged w ++
             [(WARNING, "File " +:+ uri file +:+ " cannot be parsed. Skipping it.")])
  ∧ (skip_unprocessable_file_types fmt = Some false
       ∨ skip_unprocessable_file_types fmt = None →
     ∃ w', parse_records config file stream_reader w
           = (Raise (RecordParseError ERROR_PARSING_RECORD (uri file)), w')
         ∧ logged w' = logged w).
Proof.
  intros Hfmt Hopen Hdetect Hkind.
  destruct (get_filetype_effects _ _ _ _ _ Hdetect) as [Hw2 _].
  assert (logged w2 = logged w) as Hlog.
  { unfold world_kept in Hw2. destruct_and!. done. }
  assert (∀ (r : Result unit) w3,
    _handle_unprocessable_file file (skip_unprocessable_file_types fmt) w2
      = (r, w3) →
    ∃ w', parse_records config file stream_reader w
          = (match r with Ok _ => Ok [] | Raise e => Raise e end, w')
        ∧ logged w' = logged w3) as Hrun.
  { intros r w3 Hpolicy. unfold parse_records, _extract_format.
    rewrite Hfmt. unfold lift at 1. unfold mbind at 1, M_bind at 1.
    unfold with_open_file. rewrite Hopen.
    unfold lift at 1. unfold mbind at 1, M_bind at 1.
    unfold new_file at 1. unfold mbind at 1, M_bind at 1.
    match goal with
    | |- ∃ w', try_finally ?body ?cleanup ?w0 = _ ∧ _ =>
        assert (body w0 = (match r with Ok _ => Ok [] | Raise e => Raise e end, w3))
          as Hbody
    end.
    { unfold _read_file. rewrite bind_assoc. rewrite (bind_ok _ _ _ _ _ Hdetect).
      rewrite bool_decide_eq_false_2 by by apply not_supported_not_markdown.
      rewrite (bool_decide_eq_false_2 _ Hkind). cbn [negb].
      unfold mbind at 1, M_bind at 1.
      unfold mbind at 1, M_bind at 1. rewrite Hpolicy.
      by destruct r as [[]|e]. }
    destruct (try_finally_close _ (length (files w)) _ _ _ Hbody)
      as (w' & Hfin & Hl & _).
    exists w'. by rewrite Hfin. }
  split.
  - intros Hskip.
    destruct (Hrun (Ok tt) (add_logged
        (WARNING, "File " +:+ uri file +:+ " cannot be parsed. Skipping it.") w2))
      as (w' & Hres & Hl).
    { unfold _handle_unprocessable_file. rewrite Hskip. reflexivity. }
    exists w'. split; [done|]. rewrite Hl. cbn. by rewrite Hlog.
  - intros Hskip.
    destruct (Hrun (Raise (RecordParseError ERROR_PARSING_RECORD (uri file))) w2)
      as (w' & Hres & Hl).
    { unfold _handle_unprocessable_file. by destruct Hskip as [-> | ->]. }
    exists w'. split; [done|]. by rewrite Hl.
Qed.

End Unprocessable.

(** ** Remote extraction and its retries *)

Section Retries.
Context `{!Collaborators}.

(** A response is truthy exactly when its status is outside 400..599. *)
Lemma response_bool_status (r : Response) :
  response_bool r = negb ((400 <=? status_code r)%Z && (status_code r <? 600)%Z).
Proof.
  unfold response_bool, response_ok, raise_for_status.
  by destruct ((400 <=? status_code r)%Z && (status_code r <? 600)%Z).
Qed.

(** So the test of [user_error] never succeeds on a response: the
    status is looked at only when the response is truthy, and then it is
    not in 400..499. *)
Lemma user_error_never (e : Exception) : user_error e = false.
Proof.
  destruct e as [| | | | | | |[r|]| | | |]; try reflexivity.
  unfold user_error. rewrite response_bool_status.
  destruct (400 <=? status_code r)%Z eqn:Hlo; [|reflexivity].
  destruct (status_code r <? 600)%Z eqn:Hhi; [reflexivity|].
  cbn. apply Z.ltb_ge in Hhi. apply Z.ltb_ge. lia.
Qed.

(** The loop of the decorator ends within [max_tries] rounds. *)
Lemma on_exception_loop_finishes {A} (target : M A)
    (exception giveup : Exception → bool) (cap fuel tries n : nat) w :
  tries < cap → cap ≤ tries + fuel →
  (on_exception_loop fuel exception giveup cap target tries n w).1 ≠ Ok None.
Proof.
  revert tries n w. induction fuel as [|fuel IH]; intros tries n w Hlt Hfuel.
  - lia.
  - cbn [on_exception_loop]. unfold try_except.
    unfold mbind at 1, M_bind at 1.
    destruct (target w) as [[a|e] w1]; [done|].
    destruct (exception e); [|done].
    destruct (giveup e); [done|]. cbn [orb].
    destruct (Nat.eqb_spec (tries + 1) cap) as [Heq|Hne]; [done|].
    unfold mbind at 1, M_bind at 1. unfold sleep_up_to at 1.
    apply IH; lia.
Qed.

(** Remote extraction with retries always comes to an end: it returns
    what an attempt returned, or raises. *)
Lemma read_file_remotely_with_retries_finishes file_handle format filetype w :
  (_read_file_remotely_with_retries file_handle format filetype w).1 ≠ Ok None.
Proof.
  unfold _read_file_remotely_with_retries.
  apply on_exception_loop_finishes; unfold max_tries; lia.
Qed.

(** A first attempt that succeeds is the only one. *)
Lemma read_file_remotely_first_success file_handle format filetype w r w1 :
  _read_file_remotely file_handle format filetype w = (Ok r, w1) →
  _read_file_remotely_with_retries file_handle format filetype w
    = (Ok (Some r), w1).
Proof.
  intros Hrun. unfold _read_file_remotely_with_retries, max_tries.
  cbn [on_exception_loop]. unfold try_except.
  by rewrite (bind_ok _ _ _ _ _ Hrun).
Qed.

(** An attempt that fails with a request exception is followed by a
    wait and another attempt, as long as fewer than five were made --
    whatever the status of the response. *)
Lemma read_file_remotely_retry_step file_handle format filetype
    (fuel tries n : nat) w response w1 :
  tries + 1 ≠ max_tries →
  _read_file_remotely file_handle format filetype w
    = (Raise (RequestException response), w1) →
  on_exception_loop (S fuel) isinstance_RequestException user_error max_tries
    (_read_file_remotely file_handle format filetype) tries n w
  = on_exception_loop fuel isinstance_RequestException user_error max_tries
      (_read_file_remotely file_handle format filetype) (tries + 1) (n + 1)
      (add_slept (expo n) w1).
Proof.
  intros Hcap Hrun. cbn [on_exception_loop]. unfold try_except.
  rewrite (bind_raise _ _ _ _ _ Hrun). cbn [isinstance_RequestException].
  rewrite user_error_never. cbn [orb].
  destruct (Nat.eqb_spec (tries + 1) max_tries); [done|]. reflexivity.
Qed.

End Retries.

(** C2 (the code departs from it).  A service that answers every request
    with 404: the decorated extraction does not stop at the first
    failure.  It sends five requests, waiting up to 1, 2, 4 and 8 seconds
    between them, and only then raises the HTTP error. *)
Theorem client_error_is_retried_five_times :
  let run := @_read_file_remotely_with_retries
               (example_collaborators (always_status 404)) 0
               (example_api "https://api.example.com") PDF
               (example_world (list_byte_of_string "%PDF-1.7")) in
  run.1 = Raise (RequestException (Some {| status_code := 404; content := [] |}))
  ∧ length (posted run.2) = 5
  ∧ slept run.2 = [1; 2; 4; 8]%Z.
Proof. vm_compute. done. Qed.

(** Two 503 answers and then a 200: the third attempt's result is
    returned, after waits of up to 1 and 2 seconds. *)
Lemma server_error_twice_then_success :
  let run := @_read_file_remotely_with_retries
               (example_collaborators (failing_first 2 503)) 0
               (example_api "https://api.example.com") PDF
               (example_world (list_byte_of_string "%PDF-1.7")) in
  run.1 = Ok (Some (Some ("## Report" +:+ LF +:+ LF +:+ "- Buy milk"
                          +:+ LF +:+ LF +:+ "Done.")))
  ∧ length (posted run.2) = 3
  ∧ slept run.2 = [1; 2]%Z.
Proof. vm_compute. done. Qed.

(** Five failures in a row exhaust the retries: the last error is
    raised after five requests. *)
Lemma server_error_five_times :
  let run := @_read_file_remotely_with_retries
               (example_collaborators (always_status 503)) 0
               (example_api "https://api.example.com") PDF
               (example_world (list_byte_of_string "%PDF-1.7")) in
  run.1 = Raise (RequestException (Some {| status_code := 503; content := [] |}))
  ∧ length (posted run.2) = 5.
Proof. vm_compute. done. Qed.

(** ** The connection check *)

Section Check.
Context `{!Collaborators}.

(** What [check_config] does for an unstructured format with a remote
    service. *)
Lemma check_config_remote config fmt api w :
  format config = Unstructured fmt →
  processing fmt = APIProcessing api →
  check_config config w =
    if insecure_on_cloud api w
    then (Ok (false, Some "Base URL must start with https://"), w)
    else match connection_test api w with
         | (Ok _, w1) => (Ok (true, None), w1)
         | (Raise e, w1) => (Ok (false, Some (format_exc e)), w1)
         end.
Proof.
  intros Hfmt Hproc. unfold check_config, _extract_format. rewrite Hfmt.
  unfold lift at 1. unfold mbind at 1, M_bind at 1. rewrite Hproc.
  unfold environ_get at 1. unfold mbind at 1, M_bind at 1.
  unfold insecure_on_cloud.
  destruct (String.eqb _ _ && negb _); [reflexivity|].
  unfold try_except, connection_test.
  unfold mbind at 1, M_bind at 1.
  rewrite <- (bind_assoc (new_file _)
                (λ payload, _read_file_remotely payload api MD)
                (λ _, mret None)).
  unfold mbind at 1, M_bind at 1.
  by destruct ((new_file _ ≫= _) w) as [[r|e] w1].
Qed.

(** C3, as the code has it.  For a configuration whose format is the
    unstructured one, [check_config] returns a pair and raises nothing.
    Local processing gives (True, None) and leaves the world as it was.
    A remote service under a deployment mode that case-folds to "cloud"
    and a URL that does not start with "https://" gives exactly
    (False, "Base URL must start with https://"), again without touching
    the world, so without a request.  Otherwise an exception of the test
    extraction is caught and returned as (False, message). *)
Theorem check_config_reports_instead_of_raising
    (config : FileBasedStreamConfig) (fmt : UnstructuredFormat) (w : World) :
  format config = Unstructured fmt →
  (∃ ok message w', check_config config w = (Ok (ok, message), w'))
  ∧ (processing fmt = LocalProcessing →
     check_config config w = (Ok (true, None), w))
  ∧ (∀ api deployment_mode,
     processing fmt = APIProcessing api →
     environ w !! "DEPLOYMENT_MODE" = Some deployment_mode →
     casefold deployment_mode = "cloud" →
     startswith (api_url api) "https://" = false →
     check_config config w
       = (Ok (false, Some "Base URL must start with https://"), w))
  ∧ (∀ api e w1,
     processing fmt = APIProcessing api →
     insecure_on_cloud api w = false →
     connection_test api w = (Raise e, w1) →
     check_config config w = (Ok (false, Some (format_exc e)), w1)).
Proof.
  intros Hfmt. split; [|split; [|split]].
  - destruct (processing fmt) as [|api] eqn:Hproc.
    + exists true, None, w. unfold check_config, _extract_format.
      rewrite Hfmt. unfold lift at 1. unfold mbind at 1, M_bind at 1.
      by rewrite Hproc.
    + rewrite (check_config_remote config fmt api w Hfmt Hproc).
      destruct (insecure_on_cloud api w); [by eexists _, _, _|].
      destruct (connection_test api w) as [[r|e] w1]; by eexists _, _, _.
  - intros Hproc. unfold check_config, _extract_format.
    rewrite Hfmt. unfold lift at 1. unfold mbind at 1, M_bind at 1.
    by rewrite Hproc.
  - intros api deployment_mode Hproc Henv Hcloud Hurl.
    rewrite (check_config_remote config fmt api w Hfmt Hproc).
    unfold insecure_on_cloud. rewrite Henv. cbn [from_option id].
    by rewrite Hcloud, Hurl.
  - intros api e w1 Hproc Hguard Htest.
    rewrite (check_config_remote config fmt api w Hfmt Hproc).
    by rewrite Hguard, Htest.
Qed.

(** A configuration of another format makes [check_config] raise. *)
Lemma check_config_other_format (config : FileBasedStreamConfig) repr w :
  format config = OtherFormat repr →
  check_config config w
    = (Raise (ValueError ("Invalid format config: " +:+ repr)), w).
Proof.
  intros Hfmt. unfold check_config, _extract_format. by rewrite Hfmt.
Qed.

(** C3 as stated fails: on a configuration for CSV files,
    [check_config] raises a [ValueError] instead of returning a pair. *)
Lemma check_config_raises_on_csv_config :
  @check_config (example_collaborators (always_status 200))
    {| format := OtherFormat "CsvFormat()" |} cloud_world
  = (Raise (ValueError "Invalid format config: CsvFormat()"), cloud_world).
Proof. reflexivity. Qed.

End Check.

(** ** The build script *)

Section BuildFacts.
Context `{!BuildCollaborators}.

Lemma bind_status_update {B} msg (f : unit → M B) w :
  (status_update msg ≫= f) w = f tt (add_status msg w).
Proof. reflexivity. Qed.

Lemma bind_console_log {B} msg (f : unit → M B) w :
  (console_log msg ≫= f) w = f tt (add_console msg w).
Proof. reflexivity. Qed.

Lemma bind_fs_call {B} c (f : unit → M B) w :
  (fs_call c ≫= f) w = f tt (add_fs_call c w).
Proof. reflexivity. Qed.

Lemma forallb_fmap {A B} (p : B → bool) (f : A → B) (l : list A) :
  forallb p (f <$> l) = forallb (λ x, p (f x)) l.
Proof. induction l as [|x l IH]; [done|]. cbn. by rewrite IH. Qed.

Lemma no_file_opened_refl w : no_file_opened_for_writing w w.
Proof. exists []. by rewrite app_nil_r. Qed.

Lemma no_file_opened_trans w1 w2 w3 :
  no_file_opened_for_writing w1 w2 → no_file_opened_for_writing w2 w3 →
  no_file_opened_for_writing w1 w3.
Proof.
  intros (e1 & H1 & F1) (e2 & H2 & F2). exists (e1 ++ e2). split.
  - by rewrite H2, H1, app_assoc.
  - by apply Forall_app.
Qed.

Lemma no_file_opened_same_calls w w' :
  fs_calls w' = fs_calls w → no_file_opened_for_writing w w'.
Proof. intros Heq. exists []. by rewrite app_nil_r. Qed.

Lemma no_file_opened_elem w w' p :
  no_file_opened_for_writing w w' →
  OpenWrite p ∈ fs_calls w' → OpenWrite p ∈ fs_calls w.
Proof.
  intros (extra & Heq & Hall) Hin. rewrite Heq in Hin.
  apply elem_of_app in Hin as [Hin|Hin]; [done|].
  rewrite Forall_forall in Hall. by specialize (Hall _ Hin).
Qed.

(** Generating a Dockerfile makes a directory and writes one file. *)
Lemma generate_dockerfile_effects base_image_version w r w' :
  generate_dockerfile base_image_version w = (r, w') →
  no_file_opened_for_writing w w'.
Proof.
  unfold generate_dockerfile. unfold lift at 1. unfold mbind at 1, M_bind at 1.
  destruct (get_container_dockerfile base_image_version) as [dockerfile|e].
  - rewrite !bind_fs_call. unfold console_log. intros [= <- <-].
    eexists [_; _]. split.
    + cbn. by rewrite <- app_assoc.
    + by repeat constructor.
  - intros [= <- <-]. apply no_file_opened_refl.
Qed.

(** When the generation cannot fail, it does not. *)
Lemma generate_dockerfile_ok base_image_version dockerfile w :
  get_container_dockerfile base_image_version = Ok dockerfile →
  ∃ w', generate_dockerfile base_image_version w = (Ok tt, w').
Proof.
  intros Hd. unfold generate_dockerfile. unfold lift at 1.
  unfold mbind at 1, M_bind at 1. rewrite Hd. by eexists.
Qed.

(** The sanity checks of a version: [True] when they go through,
    [False] on a [SanityCheckError]; any other exception is passed on.
    The file system is not touched. *)
Lemma run_sanity_checks_effects base_image_version w r w' :
  run_sanity_checks base_image_version w = (r, w') →
  fs_calls w' = fs_calls w
  ∧ ∀ success, r = Ok success → success = sanity_passed base_image_version.
Proof.
  unfold run_sanity_checks, try_except, sanity_passed.
  unfold lift at 1. unfold mbind at 1, M_bind at 1.
  destruct (run_sanity_checks_for_version base_image_version) as [[]|e].
  - rewrite bind_console_log. intros [= <- <-]. split; [done|].
    by intros ? [= <-].
  - destruct e; intros [= <- <-]; (split; [done|]); by intros ? [= <-].
Qed.

Lemma run_sanity_checks_ok base_image_version w :
  run_sanity_checks_for_version base_image_version = Ok tt
  ∨ (∃ msg, run_sanity_checks_for_version base_image_version
            = Raise (SanityCheckError msg)) →
  ∃ w', run_sanity_checks base_image_version w
        = (Ok (sanity_passed base_image_version), w').
Proof.
  unfold run_sanity_checks, try_except, sanity_passed.
  unfold lift at 1. unfold mbind at 1, M_bind at 1.
  intros [-> | [msg ->]]; by eexists.
Qed.

(** The loop: its calls open nothing for writing, and when it ends the
    list holds one result per pair, in the order of the pairs. *)
Lemma a_build_loop_effects pairs sanity_check_successes w r w' :
  a_build_loop pairs sanity_check_successes w = (r, w') →
  no_file_opened_for_writing w w'
  ∧ ∀ successes, r = Ok successes →
      successes = sanity_check_successes ++
        ((λ pair, sanity_passed {| image_class := pair.2; platform := pair.1 |})
           <$> pairs).
Proof.
  revert sanity_check_successes w.
  induction pairs as [|[platform cls] pairs IH]; intros acc w.
  - cbn. intros [= <- <-]. split; [apply no_file_opened_refl|].
    intros ? [= <-]. by rewrite app_nil_r.
  - cbn [a_build_loop]. rewrite bind_status_update.
    unfold mbind at 1, M_bind at 1.
    destruct (generate_dockerfile _ _) as [[[]|e] w1] eqn:Hgen.
    2:{ intros [= <- <-]. split; [|done].
        apply generate_dockerfile_effects in Hgen.
        eapply no_file_opened_trans; [|exact Hgen].
        by apply no_file_opened_same_calls. }
    apply generate_dockerfile_effects in Hgen.
    rewrite bind_status_update.
    unfold mbind at 1, M_bind at 1.
    destruct (run_sanity_checks _ _) as [[success|e] w2] eqn:Hrun.
    2:{ intros [= <- <-]. split; [|done].
        apply run_sanity_checks_effects in Hrun as [Hcalls _].
        eapply no_file_opened_trans; [|by apply no_file_opened_same_calls].
        eapply no_file_opened_trans; [|exact Hgen].
        by apply no_file_opened_same_calls. }
    apply run_sanity_checks_effects in Hrun as [Hcalls Hsuccess].
    intros Hrest. apply IH in Hrest as [Hopened Hres]. split.
    + eapply no_file_opened_trans; [|exact Hopened].
      eapply no_file_opened_trans; [|by apply no_file_opened_same_calls].
      eapply no_file_opened_trans; [|exact Hgen].
      by apply no_file_opened_same_calls.
    + intros successes Hr. rewrite (Hres successes Hr).
      rewrite (Hsuccess success eq_refl). cbn. by rewrite <- app_assoc.
Qed.

Lemma a_build_loop_ok pairs sanity_check_successes w :
  Forall (λ pair, checkable {| image_class := pair.2; platform := pair.1 |})
         pairs →
  ∃ successes w', a_build_loop pairs sanity_check_successes w
                  = (Ok successes, w').
Proof.
  revert sanity_check_successes w.
  induction pairs as [|[platform cls] pairs IH]; intros acc w Hall.
  - by eexists _, _.
  - apply Forall_cons in Hall as [[[dockerfile Hd] Hcheck] Hall].
    cbn [a_build_loop]. rewrite bind_status_update.
    destruct (generate_dockerfile_ok _ dockerfile
                (add_status (":whale2: Generating dockerfile for "
                   +:+ name_with_tag {| image_class := cls; platform := platform |}
                   +:+ " for " +:+ platform) w) Hd) as [w1 Hgen].
    rewrite (bind_ok _ _ _ _ _ Hgen). rewrite bind_status_update.
    destruct (run_sanity_checks_ok _
                (add_status (":mag_right: Running sanity checks on "
                   +:+ name_with_tag {| image_class := cls; platform := platform |}
                   +:+ " for " +:+ platform) w1) Hcheck) as [w2 Hrun].
    rewrite (bind_ok _ _ _ _ _ Hrun). by apply IH.
Qed.

(** [a_build]: no file is opened for writing, and a returned value is
    the conjunction of the results of all versions. *)
Lemma a_build_effects w r w' :
  a_build w = (r, w') →
  no_file_opened_for_writing w w'
  ∧ ∀ success, r = Ok success →
      success = forallb sanity_passed base_image_versions.
Proof.
  unfold a_build. rewrite bind_status_update.
  set (w0 := add_status _ w).
  assert (∃ w1, (if DEBUG then mret tt
                 else
                   fs_call (Unlink "/tmp/base_images_project_build_dagger_logs.log");;
                   fs_call (Touch "/tmp/base_images_project_build_dagger_logs.log");;
                   fs_call (OpenRead "/tmp/base_images_project_build_dagger_logs.log");;
                   console_log (":information_source: Dagger logs will be written to "
                                +:+ "/tmp/base_images_project_build_dagger_logs.log")) w0
                = (Ok tt, w1)
              ∧ no_file_opened_for_writing w w1) as (w1 & Hinit & Hopened1).
  { destruct DEBUG.
    - exists w0. split; [done|]. by apply no_file_opened_same_calls.
    - eexists. split; [reflexivity|]. eexists [_; _; _]. split.
      + cbn. by rewrite <- !app_assoc.
      + by repeat constructor. }
  rewrite (bind_ok _ _ _ _ _ Hinit).
  unfold lift at 1. unfold mbind at 1, M_bind at 1.
  destruct dagger_connection as [[]|e]; [|by intros [= <- <-]].
  unfold mbind at 1, M_bind at 1.
  destruct (a_build_loop _ _ w1) as [[successes|e] w2] eqn:Hloop;
    apply a_build_loop_effects in Hloop as [Hopened2 Hres].
  - intros [= <- <-]. split; [by eapply no_file_opened_trans|].
    intros success [= <-]. rewrite (Hres successes eq_refl).
    unfold all, base_image_versions. cbn [app].
    by rewrite !forallb_fmap.
  - intros [= <- <-]. split; [by eapply no_file_opened_trans|done].
Qed.

Lemma a_build_ok w :
  dagger_connection = Ok tt →
  Forall checkable base_image_versions →
  ∃ w', a_build w = (Ok (forallb sanity_passed base_image_versions), w').
Proof.
  intros Hdagger Hall.
  assert (∃ success w', a_build w = (Ok success, w')) as (success & w' & Hrun).
  { unfold a_build. rewrite bind_status_update.
    assert (∀ w0, ∃ w1,
      (if DEBUG then mret tt
       else
         fs_call (Unlink "/tmp/base_images_project_build_dagger_logs.log");;
         fs_call (Touch "/tmp/base_images_project_build_dagger_logs.log");;
         fs_call (OpenRead "/tmp/base_images_project_build_dagger_logs.log");;
         console_log (":information_source: Dagger logs will be written to "
                      +:+ "/tmp/base_images_project_build_dagger_logs.log")) w0
      = (Ok tt, w1)) as Hinit.
    { intros w0. destruct DEBUG; by eexists. }
    destruct (Hinit (add_status ":dagger: Initializing Dagger" w)) as [w1 Hw1].
    rewrite (bind_ok _ _ _ _ _ Hw1).
    unfold lift at 1. unfold mbind at 1, M_bind at 1. rewrite Hdagger.
    destruct (a_build_loop_ok (product SUPPORTED_PLATFORMS ALL_BASE_IMAGES) [] w1)
      as (successes & w2 & Hloop).
    { unfold base_image_versions in Hall.
      exact (proj1 (Forall_fmap _ _ _) Hall). }
    rewrite (bind_ok _ _ _ _ _ Hloop). by eexists _, _. }
  exists w'. rewrite Hrun. f_equal. f_equal.
  by apply (a_build_effects _ _ _ Hrun).
Qed.

End BuildFacts.

Section BuildMain.
Context `{!BuildCollaborators}.

(** The handler of [main]: an interrupt becomes exit status 1 after a
    console message, anything else is passed on; the file system is not
    touched. *)
Lemma main_handler_effects (e : Exception) w :
  ∃ e' w',
    (match e with
     | KeyboardInterrupt =>
         console_log ":bomb: Aborted the build.";; sys_exit 1
     | _ => raise e
     end : M unit) w = (Raise e', w')
    ∧ fs_calls w' = fs_calls w.
Proof. destruct e; by eexists _, _. Qed.

(** [main], by what [a_build] gives. *)
Lemma main_cases w :
  match a_build w with
  | (Ok false, w1) =>
      ∃ w2, main w = (Raise (SystemExit 1), w2) ∧ fs_calls w2 = fs_calls w1
  | (Ok true, w1) =>
      match markdown_table changelog_entries with
      | Ok markdown =>
          ∃ w2, main w = (Ok tt, w2)
              ∧ fs_calls w2 = fs_calls w1 ++ changelog_calls markdown
      | Raise _ =>
          ∃ e w2, main w = (Raise e, w2) ∧ fs_calls w2 = fs_calls w1
      end
  | (Raise _, w1) =>
      ∃ e w2, main w = (Raise e, w2) ∧ fs_calls w2 = fs_calls w1
  end.
Proof.
  destruct (a_build w) as [[[|]|e] w1] eqn:Hrun; unfold main, try_except.
  - (* every check passed *)
    rewrite (bind_ok _ _ _ _ _ Hrun). cbn [negb].
    unfold write_changelog_file. fold changelog_entries.
    fold python_changelog_path.
    destruct (markdown_table changelog_entries) as [markdown|e].
    + unfold mbind, M_bind, lift, fs_call, console_log, os_getenv, mret, M_ret.
      destruct (bool_decide _ && bool_decide _);
        (eexists; split; [reflexivity|]);
        cbn; unfold changelog_calls; by rewrite <- !app_assoc.
    + unfold lift at 1. unfold mbind, M_bind.
      apply main_handler_effects.
  - (* some check failed *)
    rewrite (bind_ok _ _ _ _ _ Hrun). cbn [negb].
    eexists. split; reflexivity.
  - rewrite (bind_raise _ _ _ _ _ Hrun). apply main_handler_effects.
Qed.

(** C9. The changelog is regenerated exactly when every sanity check of
    the run succeeded.  A value returned by [a_build] is the conjunction
    of the results of all (platform, base image) pairs, and [a_build]
    does return when the connection is made and nothing but sanity
    checks fails.  When it returns
    false, [main] exits with status 1 and writes nothing; when it
    returns true, [main] writes the changelog file; and [main] opens a
    file for writing only in that case, and only the changelog. *)
Theorem changelog_written_iff_all_sanity_checks_pass (w : World) :
  (∀ success w1, a_build w = (Ok success, w1) →
     success = forallb sanity_passed base_image_versions)
  ∧ (dagger_connection = Ok tt → Forall checkable base_image_versions →
     ∃ w1, a_build w = (Ok (forallb sanity_passed base_image_versions), w1))
  ∧ (∀ w1, a_build w = (Ok false, w1) →
     ∃ w2, main w = (Raise (SystemExit 1), w2) ∧ fs_calls w2 = fs_calls w1)
  ∧ (∀ w1 markdown, a_build w = (Ok true, w1) →
     markdown_table changelog_entries = Ok markdown →
     ∃ w2, main w = (Ok tt, w2)
         ∧ fs_calls w2 = fs_calls w1 ++ changelog_calls markdown)
  ∧ (∀ path, OpenWrite path ∈ fs_calls (main w).2 →
     OpenWrite path ∉ fs_calls w →
     path = python_changelog_path ∧ ∃ w1, a_build w = (Ok true, w1)).
Proof.
  split; [|split; [|split; [|split]]].
  - intros success w1 Hrun. by apply (a_build_effects _ _ _ Hrun).
  - apply a_build_ok.
  - intros w1 Hrun. pose proof (main_cases w) as Hmain. by rewrite Hrun in Hmain.
  - intros w1 markdown Hrun Hmd. pose proof (main_cases w) as Hmain.
    by rewrite Hrun, Hmd in Hmain.
  - intros path Hin Hnot. pose proof (main_cases w) as Hmain.
    destruct (a_build w) as [[[|]|e] w1] eqn:Hrun;
      pose proof (proj1 (a_build_effects _ _ _ Hrun)) as Hopened.
    + destruct (markdown_table changelog_entries) as [markdown|e].
      * destruct Hmain as (w2 & Hm & Hcalls). rewrite Hm in Hin. cbn in Hin.
        rewrite Hcalls in Hin. apply elem_of_app in Hin as [Hin|Hin].
        { by apply (no_file_opened_elem _ _ _ Hopened) in Hin. }
        split; [|by eexists]. unfold changelog_calls in Hin.
        apply elem_of_cons in Hin as [[= ->]|Hin]; [done|].
        apply elem_of_cons in Hin as [?|Hin]; [done|].
        by apply list_elem_of_singleton in Hin.
      * destruct Hmain as (e' & w2 & Hm & Hcalls). rewrite Hm in Hin.
        cbn in Hin. rewrite Hcalls in Hin.
        by apply (no_file_opened_elem _ _ _ Hopened) in Hin.
    + destruct Hmain as (w2 & Hm & Hcalls). rewrite Hm in Hin.
      cbn in Hin. rewrite Hcalls in Hin.
      by apply (no_file_opened_elem _ _ _ Hopened) in Hin.
    + destruct Hmain as (e' & w2 & Hm & Hcalls). rewrite Hm in Hin.
      cbn in Hin. rewrite Hcalls in Hin.
      by apply (no_file_opened_elem _ _ _ Hopened) in Hin.
Qed.

End BuildMain.

(** ** The statements above, on the concrete inputs *)

Lemma render_markdown_blank_line_joined_witness :
  ∃ out,
    @_render_markdown (example_collaborators (always_status 200)) example_elements
      = Ok out
    ∧ joined_by (LF +:+ LF) ["## Report"; "- Buy milk"; "Done."] out.
Proof.
  apply (proj1 (@render_markdown_blank_line_joined
                  (example_collaborators (always_status 200)) example_elements)).
  repeat constructor.
Defined.

Lemma title_heading_depth_witness :
  let el : Element :=
    <["type" := PStr "Title"]> (<["text" := PStr "Hello"]>
      (<["metadata" := PDict (<["category_depth" := PInt 3]> ∅)]> ∅)) in
  el !! "type" = Some (PStr "Title")
  ∧ el !! "text" = Some (PStr "Hello")
  ∧ has_empty_key (PDict el) = false
  ∧ category_depth el = Some (PInt 3)
  ∧ @_convert_to_markdown (example_collaborators (always_status 200)) el
    = Ok "### Hello".
Proof.
  intros el. split; [reflexivity|]. split; [reflexivity|]. split; [reflexivity|].
  split; [reflexivity|].
  apply (proj1 (proj1 (@title_heading_depth
                         (example_collaborators (always_status 200))
                         el "Hello" eq_refl eq_refl) eq_refl) 3%Z);
    [lia | reflexivity].
Defined.

Lemma convert_to_markdown_missing_text_witness :
  let el : Element := <["type" := PStr "ListItem"]> ∅ in
  el !! "text" = None
  ∧ el !! "type" = Some (PStr "ListItem")
  ∧ has_empty_key (PDict el) = false
  ∧ @_convert_to_markdown (example_collaborators (always_status 200)) el
    = Raise (KeyError "text").
Proof.
  intros el. split; [reflexivity|]. split; [reflexivity|]. split; [reflexivity|].
  apply (proj1 (proj1 (proj2 (@convert_to_markdown_missing_text
                                (example_collaborators (always_status 200))
                                el eq_refl)) eq_refl)
           "ListItem"); [|reflexivity].
  apply list_elem_of_here.
Defined.


Lemma read_file_markdown_witness :
  let C := example_collaborators (always_status 200) in
  let w := example_world (list_byte_of_string "# Title") in
  let file := {| uri := "notes.md"; mime_type := Some "text/markdown" |} in
  let format := {| skip_unprocessable_file_types := None;
                   processing := APIProcessing (example_api "https://x") |} in
  (@_read_file C 0 file format w).1 = Ok (Some "# Title")
  ∧ posted (@_read_file C 0 file format w).2 = posted w.
Proof.
  intros C w file format.
  pose proof (@read_file_markdown C 0 file format
                (BytesIO (list_byte_of_string "# Title")) w w
                eq_refl eq_refl eq_refl eq_refl) as (_ & Hok & _ & Hposted).
  split; [apply Hok; reflexivity | exact Hposted].
Defined.

Lemma parse_records_unsupported_kind_witness :
  let C := example_collaborators (always_status 200) in
  let file := {| uri := "table.csv"; mime_type := None |} in
  let stream_reader : RemoteFile → Result IOBase :=
    λ _, Ok (BytesIO (list_byte_of_string "a,b")) in
  (∃ w', @parse_records C (example_config (Some true) LocalProcessing)
           file stream_reader empty_world = (Ok [], w')
       ∧ logged w' = [(WARNING, "File table.csv cannot be parsed. Skipping it.")])
  ∧ (∃ w', @parse_records C (example_config None LocalProcessing)
             file stream_reader empty_world
           = (Raise (RecordParseError ERROR_PARSING_RECORD "table.csv"), w')
         ∧ logged w' = []).
Proof.
  intros C file stream_reader. split.
  - eapply (proj1 (@parse_records_unsupported_kind C
              (example_config (Some true) LocalProcessing) _ file stream_reader
              _ (Some CSV) empty_world _ eq_refl eq_refl eq_refl
              ltac:(compute_done))).
    reflexivity.
  - eapply (proj2 (@parse_records_unsupported_kind C
              (example_config None LocalProcessing) _ file stream_reader
              _ (Some CSV) empty_world _ eq_refl eq_refl eq_refl
              ltac:(compute_done))).
    by right.
Defined.

Lemma check_config_reports_instead_of_raising_witness :
  @check_config (example_collaborators (always_status 200))
    (example_config None (APIProcessing (example_api "http://api.example.com")))
    cloud_world
  = (Ok (false, Some "Base URL must start with https://"), cloud_world).
Proof.
  apply (proj1 (proj2 (proj2 (@check_config_reports_instead_of_raising
            (example_collaborators (always_status 200))
            (example_config None (APIProcessing (example_api "http://api.example.com")))
            _ cloud_world eq_refl)))
           (example_api "http://api.example.com") "Cloud");
    reflexivity.
Defined.

Lemma changelog_written_iff_all_sanity_checks_pass_witness :
  (∃ w2, @main (example_build ["linux/arm64"]) empty_world
         = (Raise (SystemExit 1), w2)
       ∧ filter (λ c, is_open_write c = true) (fs_calls w2) = [])
  ∧ (∃ w2, @main (example_build []) empty_world = (Ok tt, w2)
         ∧ filter (λ c, is_open_write c = true) (fs_calls w2)
           = [OpenWrite "/repo/base_images/CHANGELOG_PYTHON_CONNECTOR_BASE_IMAGE.md"]).
Proof.
  split.
  - destruct (proj1 (proj2 (proj2 (@changelog_written_iff_all_sanity_checks_pass
                (example_build ["linux/arm64"]) empty_world)))
                (@a_build (example_build ["linux/arm64"]) empty_world).2
                ltac:(vm_compute; reflexivity)) as (w2 & Hmain & Hcalls).
    exists w2. split; [exact Hmain|]. rewrite Hcalls. vm_compute. reflexivity.
  - destruct (proj1 (proj2 (proj2 (proj2
                (@changelog_written_iff_all_sanity_checks_pass
                   (example_build []) empty_world))))
                (@a_build (example_build []) empty_world).2 _
                ltac:(vm_compute; reflexivity) eq_refl)
      as (w2 & Hmain & Hcalls).
    exists w2. split; [exact Hmain|]. rewrite Hcalls. vm_compute. reflexivity.
Defined.

(** ** More runs on the concrete inputs *)

(** The decoder on well-formed text (ASCII, two, three and four byte
    forms) and on what UTF-8 excludes: a stray byte, an overlong form, a
    surrogate, a truncated form and a code point above U+10FFFF. *)
Lemma utf8_well_formed_examples :
  utf8_well_formed (list_byte_of_string "# Title") = true
  ∧ utf8_well_formed [xc3; xa9] = true
  ∧ utf8_well_formed [xe2; x82; xac] = true
  ∧ utf8_well_formed [xf0; x9f; x98; x80] = true
  ∧ utf8_well_formed [xff] = false
  ∧ utf8_well_formed [xc0; x80] = false
  ∧ utf8_well_formed [xed; xa0; x80] = false
  ∧ utf8_well_formed [xe2; x82] = false
  ∧ utf8_well_formed [xf4; x90; x80; x80] = false.
Proof. repeat split; reflexivity. Qed.

(** A Markdown file that is not UTF-8: the decoding error leaves
    [parse_records], for a local and for a remote configuration alike,
    and no request is sent. *)
Lemma parse_records_undecodable_markdown :
  let C := example_collaborators (always_status 200) in
  let file := {| uri := "notes.md"; mime_type := None |} in
  let stream_reader : RemoteFile → Result IOBase := λ _, Ok (BytesIO [xff; xfe]) in
  let remote := APIProcessing (example_api "https://api.example.com") in
  (@parse_records C (example_config (Some true) LocalProcessing)
     file stream_reader empty_world).1 = Raise UnicodeDecodeError
  ∧ (@parse_records C (example_config (Some true) remote)
       file stream_reader empty_world).1 = Raise UnicodeDecodeError
  ∧ posted (@parse_records C (example_config (Some true) remote)
              file stream_reader empty_world).2 = [].
Proof. vm_compute. done. Qed.

(** A Markdown file yields one record: its text under "content", its
    URI under "document_key". *)
Lemma parse_records_markdown_record :
  (@parse_records (example_collaborators (always_status 200))
     (example_config None LocalProcessing)
     {| uri := "notes.md"; mime_type := None |}
     (λ _, Ok (BytesIO (list_byte_of_string "# Title"))) empty_world).1
  = Ok [ <["document_key" := "notes.md"]> (<["content" := "# Title"]> ∅) ].
Proof. vm_compute. done. Qed.

(** The deployment mode is compared without regard to case. *)
Lemma casefold_examples :
  casefold "CLOUD" = "cloud" ∧ casefold "Cloud" = "cloud"
  ∧ casefold "cloud" = "cloud" ∧ casefold "oss" ≠ "cloud".
Proof. repeat split; done. Qed.

(** The connection check against a service that works, and against one
    that answers 500: the error is reported, not raised.  Outside the
    cloud an http URL is accepted. *)
Lemma check_config_examples :
  let config :=
    example_config None (APIProcessing (example_api "http://localhost:8000")) in
  (@check_config (example_collaborators (always_status 200)) config empty_world).1
    = Ok (true, None)
  ∧ (@check_config (example_collaborators (always_status 500)) config empty_world).1
    = Ok (false, Some "HTTPError: 500")
  ∧ length (posted (@check_config (example_collaborators (always_status 500))
                      config empty_world).2) = 1
  ∧ (@check_config (example_collaborators (always_status 200)) config cloud_world)
    = (Ok (false, Some "Base URL must start with https://"), cloud_world).
Proof. vm_compute. done. Qed.

(** The form fields of a request with a repeated parameter. *)
Lemma params_to_dict_example :
  _params_to_dict (Some [ {| name := "strategy"; value := "fast" |};
                          {| name := "languages"; value := "eng" |};
                          {| name := "languages"; value := "deu" |};
                          {| name := "languages"; value := "fra" |} ])
  = <["strategy" := FStr "fast"]>
      (<["languages" := FList ["eng"; "deu"; "fra"]]> ∅).
Proof. vm_compute. done. Qed.

(** A build in which one platform fails its sanity checks: every pair
    is still checked, and the result is false. *)
Lemma a_build_example :
  (@a_build (example_build ["linux/arm64"]) empty_world).1 = Ok false
  ∧ length (console (@a_build (example_build ["linux/arm64"]) empty_world).2) = 9
  ∧ (@a_build (example_build []) empty_world).1 = Ok true.
Proof. vm_compute. done. Qed.

(* ================================================================== *)
(** * Further properties *)

(** ** The renderer, element by element *)

Section RendererTemplates.
Context `{!Collaborators}.

(** X1.. An element with a text, none of whose dictionaries has the
    empty string as a key, renders as "- " and the text when its type is
    "ListItem", and as the text between two lines of three backquotes
    when its type is "Formula". *)
Theorem list_item_and_formula_templates (el : Element) (text : PyVal) :
  has_empty_key (PDict el) = false →
  el !! "text" = Some text →
  (el !! "type" = Some (PStr "ListItem") →
     _convert_to_markdown el = Ok ("- " +:+ py_str text))
  ∧ (el !! "type" = Some (PStr "Formula") →
     _convert_to_markdown el
       = Ok ("```" +:+ LF +:+ py_str text +:+ LF +:+ "```")).
Proof.
  intros Hkeys Htext. split; intros Hty.
  - rewrite (convert_list_item el Hkeys Hty), (dpath_get_text el _ Hkeys), Htext.
    reflexivity.
  - rewrite (convert_formula el Hkeys Hty), (dpath_get_text el _ Hkeys), Htext.
    reflexivity.
Qed.

Lemma py_eq_str_ne (ty : PyVal) (s : string) :
  ty ≠ PStr s → py_eq_str ty s = false.
Proof.
  intros Hne. destruct ty; try reflexivity. cbn.
  destruct (String.eqb_spec s0 s); [congruence | reflexivity].
Qed.

(** X2.. An element whose type is anything but the strings "Title",
    "ListItem" and "Formula" -- another string, or a value that is not a
    string -- renders as its text, as [str] prints it, when none of its
    dictionaries has the empty string as a key. *)
Theorem other_types_render_their_text (el : Element) (ty text : PyVal) :
  has_empty_key (PDict el) = false →
  el !! "type" = Some ty →
  ty ∉ [PStr "Title"; PStr "ListItem"; PStr "Formula"] →
  el !! "text" = Some text →
  _convert_to_markdown el = Ok (py_str text).
Proof.
  intros Hkeys Hty Hother Htext.
  rewrite (convert_other el ty Hkeys Hty), (dpath_get_text el _ Hkeys), Htext;
    [reflexivity|..];
    apply py_eq_str_ne; intros ->; apply Hother.
  - apply list_elem_of_here.
  - apply list_elem_of_further, list_elem_of_here.
  - do 2 apply list_elem_of_further. apply list_elem_of_here.
Qed.

(** X3.. An element without a "type" key cannot be rendered, text or no
    text: the first lookup raises, [KeyError('type')] when none of the
    element's dictionaries has the empty string as a key, and
    [InvalidKeyName] when one has. *)
Theorem missing_type_raises (el : Element) :
  el !! "type" = None →
  _convert_to_markdown el
    = Raise (if has_empty_key (PDict el) then InvalidKeyName else KeyError "type").
Proof.
  intros Hty. destruct (has_empty_key (PDict el)) eqn:Hkeys.
  - by apply convert_empty_key.
  - unfold _convert_to_markdown. by rewrite (dpath_get_type el Hkeys), Hty.
Qed.


(** Rendering the elements one after the other. *)
Lemma convert_all_app (es1 es2 : list Element) (rs1 rs2 : list string) :
  convert_all es1 = Ok rs1 → convert_all es2 = Ok rs2 →
  convert_all (es1 ++ es2) = Ok (rs1 ++ rs2).
Proof.
  revert rs1. induction es1 as [|el es1 IH]; intros rs1 H1 H2.
  - injection H1 as <-. exact H2.
  - change ((el :: es1) ++ es2) with (el :: (es1 ++ es2)).
    cbn [convert_all] in H1 |- *.
    destruct (_convert_to_markdown el) as [r|]; [|done].
    cbn [mbind Result_bind] in H1 |- *.
    destruct (convert_all es1) as [rs1'|] eqn:Hes1; [|done].
    injection H1 as <-. by rewrite (IH rs1' eq_refl H2).
Qed.

Lemma convert_all_length (es : list Element) (rs : list string) :
  convert_all es = Ok rs → length rs = length es.
Proof.
  intros Hall. apply convert_all_Forall2 in Hall.
  symmetry. by eapply Forall2_length.
Qed.

(** X5.. Rendering composes: two non-empty sequences that render give,
    put one after the other, the first rendering, one blank line and
    the second rendering. *)
Theorem render_markdown_app (es1 es2 : list Element) (out1 out2 : string) :
  es1 ≠ [] → es2 ≠ [] →
  _render_markdown es1 = Ok out1 →
  _render_markdown es2 = Ok out2 →
  _render_markdown (es1 ++ es2) = Ok (out1 +:+ LF +:+ LF +:+ out2).
Proof.
  unfold _render_markdown. intros Hne1 Hne2.
  destruct (convert_all es1) as [rs1|] eqn:H1; [|done].
  destruct (convert_all es2) as [rs2|] eqn:H2; [|done].
  intros [= <-] [= <-]. rewrite (convert_all_app _ _ _ _ H1 H2).
  cbn [mbind Result_bind mret Result_ret]. f_equal.
  rewrite str_join_app.
  - by rewrite str_append_assoc.
  - intros ->. apply convert_all_length in H1. by destruct es1.
  - intros ->. apply convert_all_length in H2. by destruct es2.
Qed.

(** X6.. The rendering of a sequence raises what its first element that
    cannot be rendered raises, whatever comes after that element. *)
Theorem render_markdown_raises_first_error
    (rendered : list Element) (el : Element) (rest : list Element)
    (e : Exception) :
  Forall (λ el', ∃ r, _convert_to_markdown el' = Ok r) rendered →
  _convert_to_markdown el = Raise e →
  _render_markdown (rendered ++ el :: rest) = Raise e.
Proof.
  intros Hall Hel.
  assert (∃ rs, convert_all rendered = Ok rs) as [rs Hrs].
  { induction Hall as [|el' els [r Hr] _ [rs IH]]; [by eexists|].
    exists (r :: rs). cbn [convert_all]. by rewrite Hr, IH. }
  by eapply render_markdown_first_failure.
Qed.

End RendererTemplates.

Lemma list_item_and_formula_templates_witness :
  let C := example_collaborators (always_status 200) in
  has_empty_key (PDict list_item_element) = false
  ∧ list_item_element !! "text" = Some (PStr "Buy milk")
  ∧ @_convert_to_markdown C list_item_element = Ok "- Buy milk"
  ∧ has_empty_key (PDict formula_element) = false
  ∧ formula_element !! "text" = Some (PStr "E = mc^2")
  ∧ @_convert_to_markdown C formula_element
    = Ok ("```" +:+ LF +:+ "E = mc^2" +:+ LF +:+ "```").
Proof.
  intros C. split; [reflexivity|]. split; [reflexivity|]. split.
  - apply (proj1 (@list_item_and_formula_templates C list_item_element
                    (PStr "Buy milk") eq_refl eq_refl)). reflexivity.
  - split; [reflexivity|]. split; [reflexivity|].
    apply (proj2 (@list_item_and_formula_templates C formula_element
                    (PStr "E = mc^2") eq_refl eq_refl)). reflexivity.
Defined.

Lemma other_types_render_their_text_witness :
  has_empty_key (PDict numbered_element) = false
  ∧ numbered_element !! "type" = Some (PInt 7)
  ∧ numbered_element !! "text" = Some (PStr "seven")
  ∧ @_convert_to_markdown (example_collaborators (always_status 200))
      numbered_element = Ok "seven".
Proof.
  split; [reflexivity|]. split; [reflexivity|]. split; [reflexivity|].
  apply (@other_types_render_their_text
           (example_collaborators (always_status 200))
           numbered_element (PInt 7) (PStr "seven"));
    [reflexivity | reflexivity | | reflexivity].
  intros Hin. repeat (apply elem_of_cons in Hin as [Hin|Hin]; [discriminate|]).
  by apply elem_of_nil in Hin.
Defined.

Lemma missing_type_raises_witness :
  untyped_element !! "type" = None
  ∧ @_convert_to_markdown (example_collaborators (always_status 200))
      untyped_element = Raise (KeyError "type").
Proof.
  split; [reflexivity|].
  apply (@missing_type_raises (example_collaborators (always_status 200))
           untyped_element).
  reflexivity.
Defined.


Lemma render_markdown_app_witness :
  let C := example_collaborators (always_status 200) in
  @_render_markdown C ([list_item_element] ++ [formula_element; numbered_element])
  = Ok ("- Buy milk" +:+ LF +:+ LF
        +:+ ("```" +:+ LF +:+ "E = mc^2" +:+ LF +:+ "```" +:+ LF +:+ LF +:+ "seven")).
Proof.
  intros C.
  apply (@render_markdown_app C [list_item_element]
           [formula_element; numbered_element]); [done | done | reflexivity..].
Defined.

Lemma render_markdown_raises_first_error_witness :
  @_render_markdown (example_collaborators (always_status 200))
    ([list_item_element] ++ untyped_element :: [title_with_depth (PStr "2")])
  = Raise (KeyError "type").
Proof.
  apply (@render_markdown_raises_first_error
           (example_collaborators (always_status 200))
           [list_item_element] untyped_element [title_with_depth (PStr "2")]).
  - repeat constructor. by eexists.
  - reflexivity.
Defined.

(** ** The form fields *)

Section FormFieldNames.

Lemma coalesced_is_Some (values : list string) :
  is_Some (coalesced values) ↔ values ≠ [].
Proof.
  destruct values as [|v1 [|v2 vs]]; cbn; split; try done;
    try (by intros [? ?]); by eexists.
Qed.

Lemma values_of_nonempty (key : string) (items : list APIParameterConfigModel) :
  values_of key items ≠ [] ↔ key ∈ name <$> items.
Proof.
  unfold values_of. rewrite list_elem_of_fmap. split.
  - intros Hne.
    destruct (filter (λ item, name item = key) items) as [|item rest] eqn:Hf;
      [done|].
    assert (item ∈ filter (λ item, name item = key) items) as Hin
      by (rewrite Hf; apply list_elem_of_here).
    apply list_elem_of_filter in Hin as [Hname Hin]. by exists item.
  - intros (item & -> & Hin) Hnil.
    assert (item ∈ filter (λ item', name item' = name item) items) as Hin'
      by by apply list_elem_of_filter.
    apply fmap_nil_inv in Hnil. rewrite Hnil in Hin'.
    by apply elem_of_nil in Hin'.
Qed.

(** X7.. The keys of the form-field dictionary are exactly the names
    that occur in the parameter list: no name is lost and none is made
    up. *)
Theorem params_to_dict_names (items : list APIParameterConfigModel) :
  dom (_params_to_dict (Some items)) = list_to_set (name <$> items).
Proof.
  apply set_eq. intros key.
  rewrite elem_of_dom, params_to_dict_lookup, coalesced_is_Some.
  rewrite values_of_nonempty. by rewrite elem_of_list_to_set.
Qed.

End FormFieldNames.


(** ** One remote attempt *)

Section RemoteAttempt.
Context `{!Collaborators}.

(** The whole of an attempt on an open file of a kind with a known
    content type: the call is recorded, and the file is read when the
    request could be prepared. *)
Lemma read_file_remotely_run file_handle api filetype f mimetype w :
  files w !! file_handle = Some f → io_closed f = false →
  FILETYPE_TO_MIMETYPE filetype = Some mimetype →
  let request :=
    remote_request api (drop (io_pos f) (io_data f)) mimetype in
  _read_file_remotely file_handle api filetype w
  = (rendered_response (requests_post (length (posted w)) request),
     add_posted request
       (set_files (match preparation api with
                   | Ok _ => <[file_handle := read_to_end f]> (files w)
                   | Raise _ => files w
                   end)
          (add_printed "Try request!" w))).
Proof.
  intros Hf Hc Hmime request. unfold _read_file_remotely. rewrite Hmime.
  unfold mbind at 1, M_bind at 1. cbn [mret M_ret].
  unfold print at 1. unfold mbind at 1, M_bind at 1.
  unfold post. unfold bytes_ahead at 1. unfold mbind at 1, M_bind at 1.
  unfold mbind at 1, M_bind at 1.
  cbn [files add_printed]. rewrite Hf. cbn [from_option].
  fold (remote_request api (drop (io_pos f) (io_data f)) mimetype).
  fold request. unfold called at 1. unfold mbind at 1, M_bind at 1.
  cbn [posted add_printed].
  unfold rendered_response, requests_post, preparation.
  cbn [req_url req_headers remote_request request].
  destruct (requests_prepare _ _) as [[]|e].
  2:{ destruct w; reflexivity. }
  unfold lift at 1. unfold mbind at 1, M_bind at 1.
  assert (files (add_posted request (add_printed "Try request!" w)) !! file_handle
          = Some f) as Hf' by exact Hf.
  unfold lift at 1. cbv beta iota.
  rewrite (bind_ok _ _ _ _ _ (io_read_open file_handle f _ Hf' Hc)).
  cbv beta iota. cbn [mbind Result_bind].
  fold (remote_request api (drop (io_pos f) (io_data f)) mimetype).
  fold request. unfold read_to_end. rewrite Hc.
  destruct (requests_send (length (posted w)) request) as [response|e];
    [|reflexivity].
  unfold lift, mbind, M_bind, Result_bind, mret, M_ret, Result_ret.
  destruct (raise_for_status response); [|reflexivity].
  destruct (response_json response) as [json|]; [|reflexivity].
  by destruct (_render_markdown json).
Qed.

(** X9.. An attempt on an open file calls [requests.post] exactly once:
    with the configured URL followed by "/general/v0/general", the API
    key header, the coalesced parameters as form fields, and a file part
    named "filename" over the bytes ahead of the read position, under
    the content type of the file's kind.  It prints one line and does
    not sleep.  When the URL and the headers can be prepared, the file
    is left at its end; when they cannot, the exception of the
    preparation is raised and the file is not read. *)
Theorem read_file_remotely_sends_one_request
    (file_handle : Handle) (api : APIProcessingConfigModel)
    (filetype : FileType) (f : IOBase) (mimetype : string) (w : World) :
  files w !! file_handle = Some f → io_closed f = false →
  FILETYPE_TO_MIMETYPE filetype = Some mimetype →
  let run := _read_file_remotely file_handle api filetype w in
  posted run.2
    = posted w ++ [remote_request api (drop (io_pos f) (io_data f)) mimetype]
  ∧ printed run.2 = printed w ++ ["Try request!"]
  ∧ slept run.2 = slept w
  ∧ (preparation api = Ok tt →
     files run.2 !! file_handle = Some (read_to_end f))
  ∧ (∀ e, preparation api = Raise e →
     run.1 = Raise e ∧ files run.2 = files w).
Proof.
  intros Hf Hc Hmime.
  rewrite (read_file_remotely_run _ api _ _ _ _ Hf Hc Hmime). cbn [fst snd].
  split; [reflexivity|]. split; [reflexivity|]. split; [reflexivity|]. split.
  - intros Hprep. rewrite Hprep. cbn.
    apply list_lookup_insert_eq. by eapply lookup_lt_Some.
  - intros e Hprep. rewrite Hprep. split; [|reflexivity].
    unfold rendered_response, requests_post.
    unfold preparation in Hprep. cbn [req_url req_headers remote_request] in *.
    by rewrite Hprep.
Qed.

(** A kind without an entry in the content-type table makes the
    attempt raise a [KeyError] before anything is printed, read or
    sent. *)
Lemma read_file_remotely_unknown_content_type
    (file_handle : Handle) (api : APIProcessingConfigModel)
    (filetype : FileType) (w : World) :
  FILETYPE_TO_MIMETYPE filetype = None →
  _read_file_remotely file_handle api filetype w
  = (Raise (KeyError "FILETYPE_TO_MIMETYPE"), w).
Proof.
  intros Hmime. unfold _read_file_remotely. by rewrite Hmime.
Qed.

(** X10.. What an attempt makes of the answer depends on the status
    alone: a status in 400..599 raises the request exception that
    carries the response, and the body is not looked at; any other
    status -- 2xx, and 1xx and 3xx as well -- is taken as success and
    the JSON body is rendered. *)
Theorem read_file_remotely_by_status
    (file_handle : Handle) (api : APIProcessingConfigModel)
    (filetype : FileType) (f : IOBase) (mimetype : string) (w : World)
    (response : Response) :
  files w !! file_handle = Some f → io_closed f = false →
  FILETYPE_TO_MIMETYPE filetype = Some mimetype →
  requests_post (length (posted w))
    (remote_request api (drop (io_pos f) (io_data f)) mimetype) = Ok response →
  ((400 ≤ status_code response < 600)%Z →
     (_read_file_remotely file_handle api filetype w).1
       = Raise (RequestException (Some response)))
  ∧ ((status_code response < 400 ∨ 600 ≤ status_code response)%Z →
     (_read_file_remotely file_handle api filetype w).1
       = (json_response ← response_json response;
          markdown ← _render_markdown json_response;
          Ok (Some markdown))).
Proof.
  intros Hf Hc Hmime Hpost.
  rewrite (read_file_remotely_run _ api _ _ _ _ Hf Hc Hmime). cbn [fst].
  unfold rendered_response. rewrite Hpost.
  cbn [mbind Result_bind]. unfold raise_for_status. split.
  - intros [Hlo Hhi].
    apply Z.leb_le in Hlo. apply Z.ltb_lt in Hhi. by rewrite Hlo, Hhi.
  - intros Hout.
    assert ((400 <=? status_code response)%Z && (status_code response <? 600)%Z
            = false) as ->; [|reflexivity].
    apply andb_false_iff. destruct Hout as [Hlt|Hge].
    + left. apply Z.leb_gt. lia.
    + right. apply Z.ltb_ge. lia.
Qed.

Lemma sent_nothing (w : World) :
  slept w = slept w
  ∧ ∃ extra, posted w = posted w ++ extra ∧ length extra ≤ 1.
Proof. split; [done|]. exists []. split; [by rewrite app_nil_r | cbn; lia]. Qed.

Lemma sent_one (w w' : World) (request : Request) :
  slept w' = slept w → posted w' = posted w ++ [request] →
  slept w' = slept w
  ∧ ∃ extra, posted w' = posted w ++ extra ∧ length extra ≤ 1.
Proof. intros Hs Hp. split; [done|]. exists [request]. split; [done | cbn; lia]. Qed.

(** Whatever the state of the file, an attempt sends at most one
    request and does not sleep. *)
Lemma read_file_remotely_one_request file_handle api filetype :
  one_request_at_most (_read_file_remotely file_handle api filetype).
Proof.
  intros w r w'. unfold _read_file_remotely.
  destruct (FILETYPE_TO_MIMETYPE filetype) as [mimetype|].
  2:{ intros [= <- <-]. apply sent_nothing. }
  unfold mbind at 1, M_bind at 1. cbn [mret M_ret].
  unfold print at 1. unfold mbind at 1, M_bind at 1.
  unfold post. unfold bytes_ahead at 1. unfold mbind at 1, M_bind at 1.
  unfold mbind at 1, M_bind at 1.
  unfold called at 1. unfold mbind at 1, M_bind at 1.
  match goal with
  | |- context [add_posted ?req (add_printed _ w)] => set (request := req)
  end.
  unfold mbind at 1, M_bind at 1.
  destruct (requests_prepare _ _) as [[]|e]; unfold lift at 1; cbv beta iota.
  2:{ intros [= <- <-]. by eapply sent_one. }
  unfold io_read. rewrite bind_assoc.
  unfold the_file at 1. unfold mbind at 1, M_bind at 1.
  cbn [files add_printed add_posted].
  destruct (files w !! file_handle) as [f|].
  2:{ intros [= <- <-]. by eapply sent_one. }
  destruct (io_closed f).
  { intros [= <- <-]. by eapply sent_one. }
  rewrite bind_assoc. unfold put_file at 1. unfold mbind at 1, M_bind at 1.
  unfold mbind at 1, M_bind at 1. cbn [mret M_ret].
  unfold lift at 1. cbv beta iota.
  match goal with
  | |- context [requests_send ?n ?req] =>
      destruct (requests_send n req) as [response|e]
  end.
  2:{ intros [= <- <-]. by eapply sent_one. }
  unfold lift, mbind, M_bind, mret, M_ret.
  destruct (raise_for_status response);
    [|intros [= <- <-]; by eapply sent_one].
  destruct (response_json response) as [json|];
    [|intros [= <- <-]; by eapply sent_one].
  destruct (_render_markdown json); intros [= <- <-]; by eapply sent_one.
Qed.

End RemoteAttempt.

(** ** The retries, in general *)

Section RetryBounds.
Context `{!Collaborators}.

(** The effects of the loop of the decorator around a computation that
    sends at most one request: [k] waits, taken in order from the
    generator, and at most [k + 1] requests. *)
Lemma on_exception_loop_effects {A} (target : M A)
    (exception giveup : Exception → bool) (cap : nat) :
  one_request_at_most target →
  ∀ fuel tries n w r w',
    tries < cap →
    on_exception_loop fuel exception giveup cap target tries n w = (r, w') →
    ∃ k extra,
      k + tries < cap
      ∧ slept w' = slept w ++ (expo <$> seq n k)
      ∧ posted w' = posted w ++ extra
      ∧ length extra ≤ k + 1.
Proof.
  intros Htarget. induction fuel as [|fuel IH]; intros tries n w r w' Hlt.
  - cbn. intros [= <- <-]. exists 0, []. cbn. rewrite !app_nil_r.
    repeat split; [lia | lia].
  - cbn [on_exception_loop]. unfold try_except.
    unfold mbind at 1, M_bind at 1.
    destruct (target w) as [[a|e] w1] eqn:Hrun;
      destruct (Htarget _ _ _ Hrun) as (Hs1 & x & Hp1 & Hx).
    { intros [= <- <-]. exists 0, x. cbn. rewrite app_nil_r.
      repeat split; [lia | done | done | lia]. }
    assert (∃ k extra, k + tries < cap
              ∧ slept w1 = slept w ++ (expo <$> seq n k)
              ∧ posted w1 = posted w ++ extra ∧ length extra ≤ k + 1) as Hstop.
    { exists 0, x. cbn. rewrite app_nil_r.
      repeat split; [lia | done | done | lia]. }
    destruct (exception e); [|by intros [= <- <-]].
    destruct (giveup e); [by intros [= <- <-]|]. cbn [orb].
    destruct (Nat.eqb_spec (tries + 1) cap) as [Heq|Hne];
      [by intros [= <- <-]|].
    unfold mbind at 1, M_bind at 1. unfold sleep_up_to at 1.
    intros Hrest. apply IH in Hrest as (k & extra & Hk & Hs & Hp & Hlen);
      [|lia].
    exists (S k), (x ++ extra). repeat split.
    + lia.
    + rewrite Hs. cbn [slept add_slept]. rewrite Hs1.
      rewrite <- app_assoc. cbn [seq fmap list_fmap app].
      by rewrite Nat.add_1_r.
    + rewrite Hp. cbn [posted add_slept]. by rewrite Hp1, app_assoc.
    + rewrite length_app. lia.
Qed.

Lemma expo_waits (k : nat) :
  k ≤ 4 → expo <$> seq 0 k = take k backoff_waits.
Proof.
  intros Hk. do 5 (destruct k as [|k]; [reflexivity|]). lia.
Qed.

(** X11.. Remote extraction with retries always comes to an end, and
    within bounds: it sleeps [k] times, for up to 1, 2, 4 and 8 seconds
    in that order, with [k] at most 4, and sends at most [k + 1]
    requests -- never more than five. *)
Theorem retries_are_bounded
    (file_handle : Handle) (api : APIProcessingConfigModel)
    (filetype : FileType) (w : World) :
  let run := _read_file_remotely_with_retries file_handle api filetype w in
  run.1 ≠ Ok None
  ∧ ∃ k extra,
      k ≤ 4
      ∧ slept run.2 = slept w ++ take k backoff_waits
      ∧ posted run.2 = posted w ++ extra
      ∧ length extra ≤ k + 1.
Proof.
  intros run. split.
  - apply read_file_remotely_with_retries_finishes.
  - destruct (on_exception_loop_effects
                (_read_file_remotely file_handle api filetype)
                isinstance_RequestException user_error max_tries
                (read_file_remotely_one_request file_handle api filetype)
                max_tries 0 0 w run.1 run.2) as (k & extra & Hk & Hs & Hp & Hlen).
    + unfold max_tries. lia.
    + subst run. unfold _read_file_remotely_with_retries.
      by destruct (on_exception_loop _ _ _ _ _ _ _ _).
    + unfold max_tries in Hk. exists k, extra.
      repeat split; [lia | | done | done].
      rewrite Hs. by rewrite expo_waits by lia.
Qed.

(** X12.. An attempt that returns, or that raises anything but a request
    exception (a [KeyError] of the content-type table or of the
    renderer, a [ValueError] of a closed file, ...), ends the retries
    at once: its outcome is the outcome, and nothing more is sent or
    waited for. *)
Theorem retries_end_at_once
    (file_handle : Handle) (api : APIProcessingConfigModel)
    (filetype : FileType) (w w1 : World) :
  (∀ r, _read_file_remotely file_handle api filetype w = (Ok r, w1) →
     _read_file_remotely_with_retries file_handle api filetype w
       = (Ok (Some r), w1))
  ∧ (∀ e, _read_file_remotely file_handle api filetype w = (Raise e, w1) →
     isinstance_RequestException e = false →
     _read_file_remotely_with_retries file_handle api filetype w
       = (Raise e, w1)).
Proof.
  split.
  - intros r. apply read_file_remotely_first_success.
  - intros e Hrun Hother. unfold _read_file_remotely_with_retries, max_tries.
    cbn [on_exception_loop]. unfold try_except.
    rewrite (bind_raise _ _ _ _ _ Hrun). by rewrite Hother.
Qed.

(** After its first attempt, the loop only adds to the requests sent. *)
Lemma on_exception_loop_after_first_attempt {A} (target : M A)
    (exception giveup : Exception → bool) (cap fuel tries n : nat) w r1 w1 :
  one_request_at_most target → tries < cap →
  target w = (r1, w1) →
  ∃ extra,
    posted (on_exception_loop (S fuel) exception giveup cap target tries n w).2
    = posted w1 ++ extra.
Proof.
  intros Htarget Hlt Hrun. cbn [on_exception_loop]. unfold try_except.
  unfold mbind at 1, M_bind at 1. rewrite Hrun.
  destruct r1 as [a|e]; [exists []; cbn; by rewrite app_nil_r|].
  destruct (exception e); [|exists []; cbn; by rewrite app_nil_r].
  destruct (giveup e); [exists []; cbn; by rewrite app_nil_r|]. cbn [orb].
  destruct (Nat.eqb_spec (tries + 1) cap) as [Heq|Hne];
    [exists []; cbn; by rewrite app_nil_r|].
  unfold mbind at 1, M_bind at 1. unfold sleep_up_to at 1.
  destruct (on_exception_loop fuel exception giveup cap target (tries + 1)
              (n + 1) (add_slept (expo n) w1)) as [r w'] eqn:Hrest.
  apply (on_exception_loop_effects target exception giveup cap Htarget) in Hrest
    as (k & extra & _ & _ & Hp & _); [|lia].
  exists extra. exact Hp.
Qed.

(** X13.. When the request can be prepared and the first attempt on an
    open file fails with a request exception, whatever response it
    carries, a second call is made, and its file part is empty: the
    first attempt read the file to its end, and nothing takes it back
    to the start before the retry. *)
Theorem retry_uploads_nothing
    (file_handle : Handle) (api : APIProcessingConfigModel)
    (filetype : FileType) (f : IOBase) (mimetype : string)
    (response : option Response) (w w1 : World) :
  files w !! file_handle = Some f → io_closed f = false →
  FILETYPE_TO_MIMETYPE filetype = Some mimetype →
  preparation api = Ok tt →
  _read_file_remotely file_handle api filetype w
    = (Raise (RequestException response), w1) →
  ∃ rest,
    posted (_read_file_remotely_with_retries file_handle api filetype w).2
    = posted w
      ++ remote_request api (drop (io_pos f) (io_data f)) mimetype
      :: remote_request api [] mimetype
      :: rest.
Proof.
  intros Hf Hc Hmime Hprep Hrun.
  pose proof (read_file_remotely_run _ api _ _ _ _ Hf Hc Hmime) as Hfirst.
  cbv zeta in Hfirst. rewrite Hprep, Hrun in Hfirst.
  injection Hfirst as _ Hw1.
  unfold _read_file_remotely_with_retries, max_tries.
  rewrite (read_file_remotely_retry_step file_handle api filetype 4 0 0 w
             response w1); [|unfold max_tries; lia | exact Hrun].
  set (w1' := add_slept (expo 0) w1).
  assert (files w1' !! file_handle = Some (read_to_end f)) as Hf1.
  { subst w1' w1. cbn. apply list_lookup_insert_eq. by eapply lookup_lt_Some. }
  pose proof (read_file_remotely_run _ api _ _ _ _ Hf1 Hc Hmime) as Hsecond.
  cbv zeta in Hsecond.
  destruct (on_exception_loop_after_first_attempt
              (_read_file_remotely file_handle api filetype)
              isinstance_RequestException user_error max_tries 3
              (0 + 1) (0 + 1) w1' _ _
              (read_file_remotely_one_request file_handle api filetype)
              ltac:(unfold max_tries; lia) Hsecond) as [rest Hrest].
  exists rest. rewrite Hrest. cbn [posted add_posted set_files add_printed].
  subst w1' w1. cbn [posted add_posted set_files add_printed add_slept].
  cbn [read_to_end io_pos io_data]. rewrite drop_all.
  by rewrite <- !app_assoc.
Qed.

End RetryBounds.

(** ** What the parser leaves as it was *)

Section Frames.
Context `{!Collaborators}.

Global Instance offline_local : LocalFrame offline.
Proof.
  split.
  - by intros w.
  - intros w1 w2 w3 [? ?] [? ?]. split; congruence.
  - by intros h f w.
  - by intros f w.
  - by intros r w.
  - by intros s w.
Qed.

Global Instance files_stay_local : LocalFrame files_stay.
Proof.
  split.
  - intros w. unfold files_stay. lia.
  - intros w1 w2 w3. unfold files_stay. lia.
  - intros h f w. unfold files_stay. cbn. by rewrite length_insert.
  - intros f w. unfold files_stay. cbn. rewrite length_app. lia.
  - intros r w. unfold files_stay. cbn. lia.
  - intros s w. unfold files_stay. cbn. lia.
Qed.

Global Instance files_stay_remote : RemoteFrame files_stay.
Proof. split; intros ? w; unfold files_stay; cbn; lia. Qed.

Section Local.
Context (R : relation World) `{!LocalFrame R}.

Lemma preserves_ret {A} (a : A) : preserves R (mret a).
Proof. intros w r w' [= <- <-]. apply frame_refl. Qed.

Lemma preserves_raise {A} (e : Exception) : preserves R (raise e : M A).
Proof. intros w r w' [= <- <-]. apply frame_refl. Qed.

Lemma preserves_lift {A} (r : Result A) : preserves R (lift r).
Proof. intros w r' w' [= <- <-]. apply frame_refl. Qed.

Lemma preserves_bind {A B} (m : M A) (f : A → M B) :
  preserves R m → (∀ a, preserves R (f a)) → preserves R (m ≫= f).
Proof.
  intros Hm Hf w r w'. unfold mbind, M_bind.
  destruct (m w) as [[a|e] w1] eqn:Hrun.
  - intros Hrest. eapply frame_trans; [by eapply Hm | by eapply Hf].
  - intros [= <- <-]. by eapply Hm.
Qed.

Lemma preserves_try_finally {A} (body : M A) (cleanup : M unit) :
  preserves R body → preserves R cleanup →
  preserves R (try_finally body cleanup).
Proof.
  intros Hb Hc w r w'. unfold try_finally.
  destruct (body w) as [rb w1] eqn:Hrun.
  destruct (cleanup w1) as [[[]|e] w2] eqn:Hclean; intros [= <- <-];
    (eapply frame_trans; [by eapply Hb | by eapply Hc]).
Qed.

Lemma preserves_try_except {A} (body : M A) (handler : Exception → M A) :
  preserves R body → (∀ e, preserves R (handler e)) →
  preserves R (try_except body handler).
Proof.
  intros Hb Hh w r w'. unfold try_except.
  destruct (body w) as [[a|e] w1] eqn:Hrun.
  - intros [= <- <-]. by eapply Hb.
  - intros Hrest. eapply frame_trans; [by eapply Hb | by eapply Hh].
Qed.

Lemma preserves_the_file h : preserves R (the_file h).
Proof.
  intros w r w'. unfold the_file.
  destruct (files w !! h) as [f|]; [destruct (io_closed f)|];
    intros [= <- <-]; apply frame_refl.
Qed.

Lemma preserves_put_file h f : preserves R (put_file h f).
Proof. intros w r w' [= <- <-]. apply frame_put. Qed.

Lemma preserves_new_file f : preserves R (new_file f).
Proof. intros w r w' [= <- <-]. apply frame_new. Qed.

Lemma preserves_logger_warn msg : preserves R (logger_warn msg).
Proof. intros w r w' [= <- <-]. apply frame_logged. Qed.

Lemma preserves_print msg : preserves R (print msg).
Proof. intros w r w' [= <- <-]. apply frame_printed. Qed.

Lemma preserves_environ_get key fallback : preserves R (environ_get key fallback).
Proof. intros w r w' [= <- <-]. apply frame_refl. Qed.

Lemma preserves_io_read h : preserves R (io_read h).
Proof.
  unfold io_read. apply preserves_bind; [apply preserves_the_file|].
  intros f. apply preserves_bind; [apply preserves_put_file|].
  intros _. apply preserves_ret.
Qed.

Lemma preserves_io_seek h pos : preserves R (io_seek h pos).
Proof.
  unfold io_seek. apply preserves_bind; [apply preserves_the_file|].
  intros f. apply preserves_put_file.
Qed.

Lemma preserves_io_close h : preserves R (io_close h).
Proof.
  intros w r w'. unfold io_close. destruct (files w !! h) as [f|].
  - apply preserves_put_file.
  - intros [= <- <-]. apply frame_refl.
Qed.

Lemma preserves_clear_name h : preserves R (clear_name h).
Proof.
  intros w r w'. unfold clear_name. destruct (files w !! h) as [f|].
  - destruct (io_name f); [apply preserves_put_file|].
    intros [= <- <-]. apply frame_refl.
  - intros [= <- <-]. apply frame_refl.
Qed.

Lemma preserves_sniff h : preserves R (sniff h).
Proof.
  unfold sniff. apply preserves_bind; [apply preserves_the_file|].
  intros f. destruct (detect_filetype_file _) as [kind consumed].
  apply preserves_bind; [apply preserves_put_file|].
  intros _. apply preserves_ret.
Qed.

Lemma preserves_get_filetype file remote_file :
  preserves R (_get_filetype file remote_file).
Proof.
  unfold _get_filetype. destruct (_ && _); [apply preserves_ret|].
  apply preserves_bind; [apply preserves_clear_name|]. intros _.
  destruct (_ && _); [apply preserves_ret|].
  apply preserves_bind; [apply preserves_sniff|]. intros kind.
  apply preserves_bind; [apply preserves_io_seek|]. intros _.
  apply preserves_ret.
Qed.

Lemma preserves_handle_unprocessable_file remote_file skip :
  preserves R (_handle_unprocessable_file remote_file skip).
Proof.
  unfold _handle_unprocessable_file. destruct (default false skip).
  - apply preserves_logger_warn.
  - apply preserves_raise.
Qed.

Lemma preserves_read_file_locally file_handle filetype :
  preserves R (_read_file_locally file_handle filetype).
Proof.
  unfold _read_file_locally.
  apply preserves_bind; [apply preserves_lift|].
  intros [[partition_pdf partition_docx] partition_pptx].
  unfold not_function. cbn [orb].
  apply preserves_bind.
  - destruct (bool_decide (filetype = Some PDF)).
    { apply preserves_bind; [apply preserves_io_seek|]. intros _.
      apply preserves_bind; [apply preserves_io_read|]. intros buffered.
      apply preserves_bind; [apply preserves_new_file|]. intros file.
      apply preserves_try_finally; [|apply preserves_io_close].
      apply preserves_bind; [apply preserves_io_seek|]. intros _.
      apply preserves_bind; [apply preserves_io_read|]. intros bytes.
      apply preserves_lift. }
    destruct (bool_decide (filetype = Some DOCX)).
    { apply preserves_bind; [apply preserves_io_read|]. intros bytes.
      apply preserves_lift. }
    destruct (bool_decide (filetype = Some PPTX)).
    { apply preserves_bind; [apply preserves_io_read|]. intros bytes.
      apply preserves_lift. }
    apply preserves_raise.
  - intros elements. apply preserves_bind; [apply preserves_lift|].
    intros markdown. apply preserves_ret.
Qed.

Lemma preserves_with_open_file {A} stream_reader file (body : Handle → M A) :
  (∀ h, preserves R (body h)) →
  preserves R (with_open_file stream_reader file body).
Proof.
  intros Hbody. unfold with_open_file.
  apply preserves_bind; [apply preserves_lift|]. intros f.
  apply preserves_bind; [apply preserves_new_file|]. intros h.
  apply preserves_try_finally; [apply Hbody | apply preserves_io_close].
Qed.

End Local.

Section Remote.
Context (R : relation World) `{!LocalFrame R} `{!RemoteFrame R}.

Lemma preserves_read_file_remotely file_handle api filetype :
  preserves R (_read_file_remotely file_handle api filetype).
Proof.
  unfold _read_file_remotely.
  apply preserves_bind; [done|..].
  { destruct (FILETYPE_TO_MIMETYPE filetype);
      [by apply preserves_ret | by apply preserves_raise]. }
  intros mimetype. apply preserves_bind; [done | by apply preserves_print|].
  intros _. apply preserves_bind; [done|..].
  { unfold post.
    apply preserves_bind; [done|..].
    { intros w r w'. unfold bytes_ahead. intros [= <- <-]. apply frame_refl. }
    intros pending. apply preserves_bind; [done|..].
    { intros w r w'. unfold called. intros [= <- <-]. apply frame_posted. }
    intros n. apply preserves_bind; [done | by apply preserves_lift|].
    intros _. apply preserves_bind; [done | by apply preserves_io_read|].
    intros body. by apply preserves_lift. }
  intros response. apply preserves_bind; [done | by apply preserves_lift|].
  intros _. apply preserves_bind; [done | by apply preserves_lift|].
  intros json. apply preserves_bind; [done | by apply preserves_lift|].
  intros markdown. by apply preserves_ret.
Qed.

Lemma preserves_on_exception_loop {A} (target : M A) exception giveup cap :
  preserves R target →
  ∀ fuel tries n,
    preserves R (on_exception_loop fuel exception giveup cap target tries n).
Proof.
  intros Htarget. induction fuel as [|fuel IH]; intros tries n.
  - by apply preserves_ret.
  - cbn [on_exception_loop]. apply preserves_try_except; [done|..].
    + apply preserves_bind; [done | done|]. intros a. by apply preserves_ret.
    + intros e. destruct (exception e); [|by apply preserves_raise].
      destruct (giveup e || _); [by apply preserves_raise|].
      apply preserves_bind; [done|..]; [|intros _; apply IH].
      intros w r w' [= <- <-]. apply frame_slept.
Qed.

Lemma preserves_read_file file_handle remote_file format :
  preserves R (_read_file file_handle remote_file format).
Proof.
  unfold _read_file.
  apply preserves_bind; [done | by apply preserves_get_filetype|].
  intros filetype. destruct (bool_decide (filetype = Some MD)).
  { apply preserves_bind; [done | by apply preserves_io_read|]. intros bytes.
    apply preserves_bind; [done | by apply preserves_lift|]. intros decoded.
    by apply preserves_ret. }
  destruct (negb _).
  { apply preserves_bind; [done | by apply preserves_handle_unprocessable_file|].
    intros _. by apply preserves_ret. }
  destruct (processing format) as [|api].
  - by apply preserves_read_file_locally.
  - destruct filetype as [filetype|]; [|by apply preserves_raise].
    apply preserves_bind; [done|..]; [|intros r; by apply preserves_ret].
    unfold _read_file_remotely_with_retries.
    apply preserves_on_exception_loop, preserves_read_file_remotely.
Qed.

Lemma preserves_parse_records config file stream_reader :
  preserves R (parse_records config file stream_reader).
Proof.
  unfold parse_records.
  apply preserves_bind; [done | by apply preserves_lift|]. intros format.
  apply preserves_with_open_file; [done|]. intros h.
  apply preserves_bind; [done | apply preserves_read_file|].
  intros [markdown|]; by apply preserves_ret.
Qed.

End Remote.

End Frames.

(** ** Local extraction *)

Section LocalExtraction.
Context `{!Collaborators}.

Lemma files_set_files (fs : list IOBase) (w : World) :
  files (set_files fs w) = fs.
Proof. reflexivity. Qed.

Lemma preserves_lift_ok_bind {A B} (R : relation World) (a : A) (f : A → M B) :
  preserves R (f a) → preserves R (lift (Ok a) ≫= f).
Proof. intros Hf w r w'. apply Hf. Qed.

(** X15.. For a PDF, local extraction hands the whole file to the PDF
    entry point, wherever the read position was: it rewinds the file,
    copies it into a buffer of its own, and rewinds again.  Afterwards
    the file is at its start, and the buffer -- the one file object
    added -- is closed, also when the entry point or the renderer
    raised. *)
Theorem read_file_locally_pdf_buffers_whole_file
    (file_handle : Handle) (f : IOBase) (w : World)
    (partition_pdf partition_docx partition_pptx
       : list byte → Result (list Element)) :
  unstructured_partition_pdf = Some partition_pdf →
  unstructured_partition_docx = Some partition_docx →
  unstructured_partition_pptx = Some partition_pptx →
  files w !! file_handle = Some f → io_closed f = false →
  let run := _read_file_locally file_handle (Some PDF) w in
  run.1 = (elements ← partition_pdf (io_data f);
           markdown ← _render_markdown elements;
           Ok (Some markdown))
  ∧ files run.2 !! file_handle
    = Some {| io_data := io_data f; io_pos := 0; io_closed := false;
              io_name := io_name f |}
  ∧ files run.2 !! length (files w)
    = Some (closed_file (read_to_end (BytesIO (io_data f))))
  ∧ length (files run.2) = S (length (files w)).
Proof.
  intros Hpdf Hdocx Hpptx Hf Hc run.
  pose proof (lookup_lt_Some _ _ _ Hf) as Hlt.
  assert (∃ w6,
    run = (elements ← partition_pdf (io_data f);
           markdown ← _render_markdown elements;
           Ok (Some markdown), w6)
    ∧ files w6 !! file_handle
      = Some {| io_data := io_data f; io_pos := 0; io_closed := false;
                io_name := io_name f |}
    ∧ files w6 !! length (files w)
      = Some (closed_file (read_to_end (BytesIO (io_data f))))
    ∧ length (files w6) = S (length (files w))) as (w6 & Hrun & Hrest);
    [|by rewrite Hrun].
  subst run.
  unfold _read_file_locally, _import_unstructured.
  rewrite Hpdf, Hdocx, Hpptx.
  rewrite bind_lift_ok. cbv beta iota.
  unfold not_function. cbn [orb].
  rewrite bool_decide_eq_true_2 by done.
  rewrite bind_assoc.
  rewrite (bind_ok _ _ _ _ _ (io_seek_open file_handle f 0 w Hf Hc)).
  set (f0 := {| io_data := io_data f; io_pos := 0; io_closed := false;
                io_name := io_name f |}).
  set (w1 := set_files (<[file_handle := f0]> (files w)) w).
  assert (length (files w1) = length (files w)) as Hlen1
    by (unfold w1; rewrite files_set_files; by rewrite length_insert).
  assert (files w1 !! file_handle = Some f0) as Hf1
    by (unfold w1; rewrite files_set_files; by apply list_lookup_insert_eq).
  rewrite bind_assoc.
  rewrite (bind_ok _ _ _ _ _ (io_read_open file_handle f0 w1 Hf1 eq_refl)).
  cbn [io_pos io_data io_name f0]. rewrite drop_0.
  set (fe := {| io_data := io_data f; io_pos := length (io_data f);
                io_closed := false; io_name := io_name f |}).
  set (w2 := set_files (<[file_handle := fe]> (files w1)) w1).
  rewrite bind_assoc. unfold new_file at 1. unfold mbind at 1, M_bind at 1.
  set (w3 := set_files (files w2 ++ [BytesIO (io_data f)]) w2).
  assert (length (files w2) = length (files w)) as Hlen2
    by (unfold w2; rewrite files_set_files, length_insert; exact Hlen1).
  assert (files w2 !! file_handle = Some fe) as Hf2
    by (unfold w2; rewrite files_set_files; apply list_lookup_insert_eq; lia).
  assert (files w3 = files w2 ++ [BytesIO (io_data f)]) as Hfiles3
    by reflexivity.
  assert (files w3 !! file_handle = Some fe) as Hf3
    by (rewrite Hfiles3, lookup_app_l by lia; exact Hf2).
  unfold try_finally. unfold mbind at 1, M_bind at 1.
  rewrite (bind_ok _ _ _ _ _ (io_seek_open file_handle fe 0 w3 Hf3 eq_refl)).
  cbn [io_data io_name fe].
  set (w4 := set_files (<[file_handle := f0]> (files w3)) w3).
  assert (files w4 = <[file_handle := f0]> (files w3)) as Hfiles4
    by reflexivity.
  assert (files w4 !! length (files w2) = Some (BytesIO (io_data f))) as Hb4.
  { rewrite Hfiles4, list_lookup_insert_ne by lia.
    rewrite Hfiles3, lookup_app_r by lia. by rewrite Nat.sub_diag. }
  rewrite (bind_ok _ _ _ _ _ (io_read_open _ _ w4 Hb4 eq_refl)).
  cbn [io_pos io_data io_name BytesIO]. rewrite drop_0.
  set (be := {| io_data := io_data f; io_pos := length (io_data f);
                io_closed := false; io_name := None |}).
  set (w5 := set_files (<[length (files w2) := be]> (files w4)) w4).
  assert (length (files w4) = S (length (files w))) as Hlen4.
  { rewrite Hfiles4, length_insert, Hfiles3, length_app.
    change (length [BytesIO (io_data f)]) with 1. lia. }
  assert (files w5 = <[length (files w2) := be]> (files w4)) as Hfiles5
    by reflexivity.
  assert (files w5 !! length (files w2) = Some be) as Hb5
    by (rewrite Hfiles5; apply list_lookup_insert_eq; lia).
  assert (∀ r : Result (list Element),
    (let (r0, w') := lift r w5 in
     match io_close (length (files w2)) w' with
     | (Ok _, w'') => (r0, w'')
     | (Raise e, w'') => (Raise e, w'')
     end)
    = (r, set_files (<[length (files w2) := closed_file be]> (files w5)) w5))
    as Hclose.
  { intros r. unfold lift, io_close. cbv beta iota. unfold Handle in *.
    by rewrite Hb5. }
  rewrite Hclose.
  set (w6 := set_files _ w5).
  assert (files w6 = <[length (files w2) := closed_file be]> (files w5))
    as Hfiles6 by reflexivity.
  assert (files w6 !! file_handle = Some f0) as Hf6.
  { rewrite Hfiles6, list_lookup_insert_ne by lia.
    rewrite Hfiles5, list_lookup_insert_ne by lia.
    rewrite Hfiles4. apply list_lookup_insert_eq.
    rewrite Hfiles3, length_app.
    change (length [BytesIO (io_data f)]) with 1. lia. }
  assert (files w6 !! length (files w) = Some (closed_file be)) as Hb6.
  { rewrite Hfiles6, <- Hlen2. apply list_lookup_insert_eq.
    rewrite Hfiles5, length_insert. lia. }
  assert (length (files w6) = S (length (files w))) as Hlen6.
  { rewrite Hfiles6, length_insert, Hfiles5, length_insert. exact Hlen4. }
  exists w6. split; [|done].
  destruct (partition_pdf (io_data f)) as [elements|e]; [|reflexivity].
  unfold lift, mbind, M_bind, mret, M_ret, Result_bind, Result_ret.
  by destruct (_render_markdown elements).
Qed.

(** Reading a file under a local configuration keeps what the steps on
    files and the logger keep. *)
Lemma preserves_read_file_local (R : relation World) `{!LocalFrame R}
    file_handle remote_file format :
  processing format = LocalProcessing →
  preserves R (_read_file file_handle remote_file format).
Proof.
  intros Hlocal. unfold _read_file.
  apply preserves_bind; [done | by apply preserves_get_filetype|].
  intros filetype. destruct (bool_decide (filetype = Some MD)).
  { apply preserves_bind; [done | by apply preserves_io_read|]. intros bytes.
    apply preserves_bind; [done | by apply preserves_lift|]. intros decoded.
    by apply preserves_ret. }
  destruct (negb _).
  { apply preserves_bind; [done | by apply preserves_handle_unprocessable_file|].
    intros _. by apply preserves_ret. }
  rewrite Hlocal. by apply preserves_read_file_locally.
Qed.

(** X16.. Under a local configuration [parse_records] stays offline: for
    every file and whatever happens to it, no request is sent and no
    time is spent sleeping. *)
Theorem parse_records_local_stays_offline
    (config : FileBasedStreamConfig) (fmt : UnstructuredFormat)
    (file : RemoteFile) (stream_reader : RemoteFile → Result IOBase)
    (w : World) :
  format config = Unstructured fmt →
  processing fmt = LocalProcessing →
  posted (parse_records config file stream_reader w).2 = posted w
  ∧ slept (parse_records config file stream_reader w).2 = slept w.
Proof.
  intros Hfmt Hlocal.
  assert (preserves offline (parse_records config file stream_reader)) as Hp.
  { unfold parse_records, _extract_format. rewrite Hfmt.
    apply preserves_lift_ok_bind.
    apply preserves_with_open_file; [apply _|]. intros h.
    apply preserves_bind;
      [apply _ | exact (preserves_read_file_local offline h file fmt Hlocal)|].
    intros [markdown|]; apply preserves_ret; apply _. }
  destruct (parse_records config file stream_reader w) as [r w'] eqn:Hrun.
  exact (Hp _ _ _ Hrun).
Qed.

End LocalExtraction.

(** ** Detection and the file it is given *)

Section DetectionAndFile.
Context `{!Collaborators}.

(** X17.. Detection changes nothing but the [name] and the read position
    of the file it is given: the bytes of the file and whether it is
    open stay, the position stays or goes back to 0, no file object is
    added, and the log, the output, the requests and the rest of the
    world are as before -- whatever the outcome of the detection. *)
Theorem get_filetype_keeps_the_file
    (file : Handle) (remote_file : RemoteFile) (w : World) :
  world_kept w (_get_filetype file remote_file w).2
  ∧ file_kept w (_get_filetype file remote_file w).2 file.
Proof.
  destruct (_get_filetype file remote_file w) as [r w'] eqn:Hrun.
  exact (get_filetype_effects _ _ _ _ _ Hrun).
Qed.



End DetectionAndFile.

(** ** Records, schemas and the file behind them *)

Section Records.
Context `{!Collaborators}.


(** The file a [with] block opened is closed when the block is left. *)
Lemma with_open_file_closes {A} (stream_reader : RemoteFile → Result IOBase)
    (file : RemoteFile) (body : Handle → M A) (f : IOBase) (w : World) :
  (∀ h, preserves files_stay (body h)) →
  stream_reader file = Ok f →
  ∃ f', files (with_open_file stream_reader file body w).2 !! length (files w)
        = Some f'
      ∧ io_closed f' = true.
Proof.
  intros Hbody Hopen. unfold with_open_file. rewrite Hopen.
  unfold lift at 1. unfold mbind at 1, M_bind at 1.
  unfold new_file at 1. unfold mbind at 1, M_bind at 1.
  set (w0 := set_files (files w ++ [f]) w).
  unfold try_finally.
  destruct (body (length (files w)) w0) as [r w1] eqn:Hrun.
  pose proof (Hbody _ _ _ _ Hrun) as Hstay. unfold files_stay in Hstay.
  assert (length (files w) < length (files w1)) as Hlt.
  { subst w0. cbn in Hstay. rewrite length_app in Hstay. cbn in Hstay. lia. }
  destruct (lookup_lt_is_Some_2 _ _ Hlt) as [f1 Hf1].
  unfold io_close. unfold Handle in *. rewrite Hf1. unfold put_file.
  exists (closed_file f1). split; [|done].
  cbn. by apply list_lookup_insert_eq.
Qed.

Lemma preserves_infer_schema_body (R : relation World) `{!LocalFrame R}
    (file : RemoteFile) (fmt : UnstructuredFormat) (h : Handle) :
  preserves R
    (filetype ← _get_filetype h file;
     (if negb (bool_decide (filetype ∈ _supported_file_types)) then
        _handle_unprocessable_file file (skip_unprocessable_file_types fmt)
      else mret tt);;
     mret static_schema).
Proof.
  apply preserves_bind; [done | by apply preserves_get_filetype|].
  intros filetype. apply preserves_bind; [done|..].
  - destruct (negb _);
      [by apply preserves_handle_unprocessable_file | by apply preserves_ret].
  - intros _. by apply preserves_ret.
Qed.

(** X20.. The file that [parse_records] or [infer_schema] opened through
    the stream reader is closed when they are done -- whether they
    returned or raised, and whatever was read, sent or retried in
    between. *)
Theorem opened_file_is_closed_in_the_end
    (config : FileBasedStreamConfig) (fmt : UnstructuredFormat)
    (file : RemoteFile) (stream_reader : RemoteFile → Result IOBase)
    (f : IOBase) (w : World) :
  format config = Unstructured fmt →
  stream_reader file = Ok f →
  (∃ f', files (parse_records config file stream_reader w).2
           !! length (files w) = Some f'
       ∧ io_closed f' = true)
  ∧ (∃ f', files (infer_schema config file stream_reader w).2
             !! length (files w) = Some f'
         ∧ io_closed f' = true).
Proof.
  intros Hfmt Hopen. split.
  - unfold parse_records, _extract_format. rewrite Hfmt.
    unfold lift at 1. unfold mbind at 1, M_bind at 1.
    apply (with_open_file_closes stream_reader file _ f); [|done]. intros h.
    apply preserves_bind; [apply _ | apply preserves_read_file; apply _|].
    intros [markdown|]; apply preserves_ret; apply _.
  - unfold infer_schema, _extract_format. rewrite Hfmt.
    unfold lift at 1. unfold mbind at 1, M_bind at 1.
    apply (with_open_file_closes stream_reader file _ f); [|done]. intros h.
    apply (preserves_infer_schema_body files_stay).
Qed.

(** X21.. Nothing is opened in vain: for a configuration of another
    format, [parse_records] and [infer_schema] raise the [ValueError]
    of [_extract_format], and when the stream reader cannot open the
    file they raise its exception; in both cases the world is as it
    was. *)
Theorem nothing_happens_before_the_file_is_open
    (config : FileBasedStreamConfig) (file : RemoteFile)
    (stream_reader : RemoteFile → Result IOBase) (w : World) :
  (∀ repr, format config = OtherFormat repr →
     parse_records config file stream_reader w
       = (Raise (ValueError ("Invalid format config: " +:+ repr)), w)
     ∧ infer_schema config file stream_reader w
       = (Raise (ValueError ("Invalid format config: " +:+ repr)), w))
  ∧ (∀ fmt e, format config = Unstructured fmt →
     stream_reader file = Raise e →
     parse_records config file stream_reader w = (Raise e, w)
     ∧ infer_schema config file stream_reader w = (Raise e, w)).
Proof.
  split.
  - intros repr Hfmt. unfold parse_records, infer_schema, _extract_format.
    by rewrite Hfmt.
  - intros fmt e Hfmt Hopen.
    unfold parse_records, infer_schema, _extract_format, with_open_file.
    rewrite Hfmt. unfold lift, mbind, M_bind. by rewrite Hopen.
Qed.

(** X22.. The schema does not depend on the file: for a supported kind
    [infer_schema] returns the schema of two string fields and logs
    nothing; for an unsupported kind it returns the same schema after
    one warning when unprocessable files are skipped, and raises the
    record-parse error naming the URI otherwise. *)
Theorem infer_schema_by_kind
    (config : FileBasedStreamConfig) (fmt : UnstructuredFormat)
    (file : RemoteFile) (stream_reader : RemoteFile → Result IOBase)
    (f : IOBase) (kind : option FileType) (w w2 : World) :
  format config = Unstructured fmt →
  stream_reader file = Ok f →
  _get_filetype (length (files w)) file (set_files (files w ++ [f]) w)
    = (Ok kind, w2) →
  let run := infer_schema config file stream_reader w in
  (kind ∈ _supported_file_types →
     run.1 = Ok static_schema ∧ logged run.2 = logged w)
  ∧ (kind ∉ _supported_file_types →
     skip_unprocessable_file_types fmt = Some true →
     run.1 = Ok static_schema
     ∧ logged run.2 = logged w ++ [skipped_warning file])
  ∧ (kind ∉ _supported_file_types →
     skip_unprocessable_file_types fmt ≠ Some true →
     run.1 = Raise (RecordParseError ERROR_PARSING_RECORD (uri file))
     ∧ logged run.2 = logged w).
Proof.
  intros Hfmt Hopen Hdetect run.
  destruct (get_filetype_effects _ _ _ _ _ Hdetect) as [Hw2 _].
  assert (logged w2 = logged w) as Hlog.
  { unfold world_kept in Hw2. destruct_and!. done. }
  assert (∀ (r : Result unit) w3,
    (if negb (bool_decide (kind ∈ _supported_file_types)) then
       _handle_unprocessable_file file (skip_unprocessable_file_types fmt)
     else mret tt) w2 = (r, w3) →
    run.1 = match r with Ok _ => Ok static_schema | Raise e => Raise e end
    ∧ logged run.2 = logged w3) as Hrun.
  { intros r w3 Hpolicy.
    assert (∃ w', run = (match r with
                         | Ok _ => Ok static_schema
                         | Raise e => Raise e
                         end, w') ∧ logged w' = logged w3)
      as (w' & Hrun & Hl); [|by rewrite Hrun].
    subst run. unfold infer_schema, _extract_format.
    rewrite Hfmt. unfold lift at 1. unfold mbind at 1, M_bind at 1.
    unfold with_open_file. rewrite Hopen.
    unfold lift at 1. unfold mbind at 1, M_bind at 1.
    unfold new_file at 1. unfold mbind at 1, M_bind at 1.
    match goal with
    | |- ∃ w', try_finally ?body ?cleanup ?w0 = _ ∧ _ =>
        assert (body w0
                = (match r with
                   | Ok _ => Ok static_schema
                   | Raise e => Raise e
                   end, w3)) as Hbody
    end.
    { rewrite (bind_ok _ _ _ _ _ Hdetect).
      unfold mbind at 1, M_bind at 1. rewrite Hpolicy.
      by destruct r as [[]|e]. }
    destruct (try_finally_close _ (length (files w)) _ _ _ Hbody)
      as (w' & Hfin & Hl & _).
    exists w'. by rewrite Hfin. }
  split; [|split].
  - intros Hin. rewrite (bool_decide_eq_true_2 _ Hin) in Hrun.
    destruct (Hrun (Ok tt) w2 eq_refl) as [Hr Hl]. by rewrite Hr, Hl.
  - intros Hnot Hskip. rewrite (bool_decide_eq_false_2 _ Hnot) in Hrun.
    destruct (Hrun (Ok tt) (add_logged (skipped_warning file) w2))
      as [Hr Hl].
    { unfold _handle_unprocessable_file. rewrite Hskip. reflexivity. }
    rewrite Hr, Hl. cbn. by rewrite Hlog.
  - intros Hnot Hskip. rewrite (bool_decide_eq_false_2 _ Hnot) in Hrun.
    destruct (Hrun (Raise (RecordParseError ERROR_PARSING_RECORD (uri file))) w2)
      as [Hr Hl].
    { unfold _handle_unprocessable_file.
      destruct (skip_unprocessable_file_types fmt) as [[|]|]; done. }
    by rewrite Hr, Hl.
Qed.

End Records.

(** ** The connection check, request by request *)

Section CheckRequests.
Context `{!Collaborators}.

Lemma connection_test_one_request (api : APIProcessingConfigModel) :
  one_request_at_most (connection_test api).
Proof.
  intros w r w'. unfold connection_test, new_file.
  unfold mbind at 1, M_bind at 1.
  intros Hrun. apply read_file_remotely_one_request in Hrun. exact Hrun.
Qed.

(** X23.. The connection check never retries and never waits: whatever
    the configuration, the environment and the service, [check_config]
    sends at most one request and does not sleep. *)
Theorem check_config_sends_at_most_one_request
    (config : FileBasedStreamConfig) (w : World) :
  slept (check_config config w).2 = slept w
  ∧ ∃ extra, posted (check_config config w).2 = posted w ++ extra
           ∧ length extra ≤ 1.
Proof.
  destruct (format config) as [fmt|repr] eqn:Hfmt.
  2:{ rewrite (check_config_other_format config repr w Hfmt).
      apply (sent_nothing w). }
  destruct (processing fmt) as [|api] eqn:Hproc.
  { assert (check_config config w = (Ok (true, None), w)) as ->.
    { unfold check_config, _extract_format. rewrite Hfmt.
      unfold lift at 1. unfold mbind at 1, M_bind at 1. by rewrite Hproc. }
    apply (sent_nothing w). }
  rewrite (check_config_remote config fmt api w Hfmt Hproc).
  destruct (insecure_on_cloud api w); [apply (sent_nothing w)|].
  destruct (connection_test api w) as [[r|e] w1] eqn:Htest;
    exact (connection_test_one_request api _ _ _ Htest).
Qed.

(** X24.. When the check goes to the service, the one request it sends
    carries the fixed Markdown payload under the content type of
    Markdown, with the URL, key and parameters of the configuration;
    the verdict is (True, None) when the answer is accepted and
    rendered, and (False, message of the exception) otherwise. *)
Theorem check_config_posts_the_fixed_payload
    (config : FileBasedStreamConfig) (fmt : UnstructuredFormat)
    (api : APIProcessingConfigModel) (mimetype : string) (w : World) :
  format config = Unstructured fmt →
  processing fmt = APIProcessing api →
  insecure_on_cloud api w = false →
  FILETYPE_TO_MIMETYPE MD = Some mimetype →
  let request := remote_request api connection_test_payload mimetype in
  posted (check_config config w).2 = posted w ++ [request]
  ∧ (check_config config w).1
    = Ok (match rendered_response (requests_post (length (posted w)) request) with
          | Ok _ => (true, None)
          | Raise e => (false, Some (format_exc e))
          end).
Proof.
  intros Hfmt Hproc Hsecure Hmime request.
  set (w0 := set_files (files w ++ [BytesIO connection_test_payload]) w).
  assert (files w0 !! length (files w) = Some (BytesIO connection_test_payload))
    as Hf0.
  { subst w0. cbn. rewrite lookup_app_r by lia. by rewrite Nat.sub_diag. }
  pose proof (read_file_remotely_run (length (files w)) api MD
                (BytesIO connection_test_payload) mimetype w0 Hf0 eq_refl Hmime)
    as Hrun.
  cbv zeta in Hrun. cbn [io_pos io_data BytesIO] in Hrun.
  rewrite drop_0 in Hrun.
  assert (connection_test api w
          = (rendered_response (requests_post (length (posted w)) request),
             add_posted request
               (set_files
                  (match preparation api with
                   | Ok _ => <[length (files w) :=
                                 read_to_end (BytesIO connection_test_payload)]>
                               (files w0)
                   | Raise _ => files w0
                   end)
                  (add_printed "Try request!" w0)))) as Htest.
  { unfold connection_test, new_file. unfold mbind at 1, M_bind at 1.
    exact Hrun. }
  rewrite (check_config_remote config fmt api w Hfmt Hproc), Hsecure, Htest.
  destruct (rendered_response (requests_post (length (posted w)) request));
    split; reflexivity.
Qed.

End CheckRequests.

(** ** The build script, step by step *)

Section BuildSteps.
Context `{!BuildCollaborators}.



(** X26.. [run_sanity_checks] turns a [SanityCheckError] into the answer
    [False] with one console message that ends with the error; it never
    raises one.  Any other exception of the checks passes unchanged.
    The file system is not touched. *)
Theorem run_sanity_checks_absorbs_sanity_errors
    (base_image_version : AirbyteConnectorBaseImage) (w : World) :
  let run := run_sanity_checks base_image_version w in
  fs_calls run.2 = fs_calls w
  ∧ (∀ msg, run.1 ≠ Raise (SanityCheckError msg))
  ∧ (∀ msg,
     run_sanity_checks_for_version base_image_version
       = Raise (SanityCheckError msg) →
     run.1 = Ok false
     ∧ console run.2
       = console w
         ++ [":cross_mark: Sanity checks failure on "
             +:+ name_with_tag base_image_version +:+ " for "
             +:+ platform base_image_version +:+ ": " +:+ msg])
  ∧ (∀ e,
     run_sanity_checks_for_version base_image_version = Raise e →
     (∀ msg, e ≠ SanityCheckError msg) →
     run = (Raise e, w)).
Proof.
  intros run.
  destruct (run_sanity_checks_for_version base_image_version) as [[]|e] eqn:Hchk.
  - assert (run = (Ok true,
                   add_console (":white_check_mark: Successfully ran sanity checks on "
                                +:+ name_with_tag base_image_version +:+ " for "
                                +:+ platform base_image_version) w)) as ->.
    { subst run. unfold run_sanity_checks, try_except.
      unfold lift at 1. unfold mbind at 1, M_bind at 1. by rewrite Hchk. }
    repeat split; done.
  - assert (run = match e with
                  | SanityCheckError msg =>
                      (Ok false,
                       add_console (":cross_mark: Sanity checks failure on "
                                    +:+ name_with_tag base_image_version +:+ " for "
                                    +:+ platform base_image_version +:+ ": "
                                    +:+ msg) w)
                  | _ => (Raise e, w)
                  end) as ->.
    { subst run. unfold run_sanity_checks, try_except.
      unfold lift at 1. unfold mbind at 1, M_bind at 1. rewrite Hchk.
      by destruct e. }
    destruct e; cbn [fst snd]; (split; [done|]); (split; [done|]); split;
      try (intros msg' [= <-]; done);
      try (intros e' [= <-] Hother; done).
    intros e' [= <-] Hother. by destruct (Hother msg).
Qed.


End BuildSteps.

Section BuildRuns.
Context `{!BuildCollaborators}.



(** X28.. What [main] makes of an exception of the build: a keyboard
    interrupt becomes the console message "Aborted the build." and exit
    status 1; any other exception -- a failing Dockerfile generation, a
    crash of the sanity checks -- leaves [main] as it is, with no
    message added. *)
Theorem main_on_exceptions_of_the_build (w w1 : World) :
  (a_build w = (Raise KeyboardInterrupt, w1) →
     main w = (Raise (SystemExit 1),
               add_console ":bomb: Aborted the build." w1))
  ∧ (∀ e, a_build w = (Raise e, w1) → e ≠ KeyboardInterrupt →
     main w = (Raise e, w1)).
Proof.
  split.
  - intros Hrun. unfold main, try_except.
    by rewrite (bind_raise _ _ _ _ _ Hrun).
  - intros e Hrun Hother. unfold main, try_except.
    rewrite (bind_raise _ _ _ _ _ Hrun). by destruct e.
Qed.

(** X29.. [write_changelog_file] renders the table before it opens the
    file: when the table cannot be rendered, the exception is raised
    and the file is not opened, so an existing changelog is not
    truncated.  Otherwise the file is opened for writing and receives
    the title line and the table, in that order, and nothing else. *)
Theorem write_changelog_file_all_or_nothing
    (changelog_path base_image_name : string)
    (base_images_classes : list BaseImageClass) (w : World) :
  (∀ e, markdown_table (changelog_rows base_images_classes) = Raise e →
     write_changelog_file changelog_path base_image_name base_images_classes w
       = (Raise e, w))
  ∧ (∀ markdown,
     markdown_table (changelog_rows base_images_classes) = Ok markdown →
     write_changelog_file changelog_path base_image_name base_images_classes w
       = (Ok tt,
          add_fs_call (FileWrite changelog_path markdown)
            (add_fs_call
               (FileWrite changelog_path
                  ("# Changelog for " +:+ base_image_name +:+ LF +:+ LF))
               (add_fs_call (OpenWrite changelog_path) w)))).
Proof.
  unfold write_changelog_file. fold (changelog_rows base_images_classes).
  split.
  - intros e He. by rewrite He.
  - intros markdown Hmd. by rewrite Hmd.
Qed.

End BuildRuns.

(** ** The further properties, on the concrete inputs *)

Lemma read_file_remotely_sends_one_request_witness :
  let C := scheme_checking_collaborators in
  let w := example_world (list_byte_of_string "%PDF-1.7") in
  let sent := @_read_file_remotely C 0 (example_api "https://api.example.com")
                PDF w in
  let refused := @_read_file_remotely C 0 (example_api "api.example.com") PDF w in
  posted sent.2
    = [remote_request (example_api "https://api.example.com")
         (list_byte_of_string "%PDF-1.7") "application/pdf"]
  ∧ printed sent.2 = ["Try request!"]
  ∧ slept sent.2 = []
  ∧ files sent.2 !! 0
    = Some (read_to_end (BytesIO (list_byte_of_string "%PDF-1.7")))
  ∧ refused.1 = Raise (RequestException None)
  ∧ files refused.2 = files w.
Proof.
  intros C w sent refused.
  destruct (@read_file_remotely_sends_one_request C 0
              (example_api "https://api.example.com") PDF
              (BytesIO (list_byte_of_string "%PDF-1.7")) "application/pdf" w
              eq_refl eq_refl eq_refl) as (Hposted & Hprinted & Hslept & Hread & _).
  destruct (@read_file_remotely_sends_one_request C 0
              (example_api "api.example.com") PDF
              (BytesIO (list_byte_of_string "%PDF-1.7")) "application/pdf" w
              eq_refl eq_refl eq_refl) as (_ & _ & _ & _ & Hrefused).
  split; [exact Hposted|]. split; [exact Hprinted|]. split; [exact Hslept|].
  split; [exact (Hread eq_refl)|].
  exact (Hrefused (RequestException None) eq_refl).
Defined.

Lemma read_file_remotely_by_status_witness :
  let api := example_api "https://api.example.com" in
  let w := example_world (list_byte_of_string "%PDF-1.7") in
  (@_read_file_remotely (example_collaborators (always_status 404)) 0 api PDF w).1
    = Raise (RequestException (Some {| status_code := 404; content := [] |}))
  ∧ (@_read_file_remotely (example_collaborators (always_status 302)) 0 api PDF w).1
    = Ok (Some ("## Report" +:+ LF +:+ LF +:+ "- Buy milk"
                +:+ LF +:+ LF +:+ "Done.")).
Proof.
  intros api w. split.
  - apply (proj1 (@read_file_remotely_by_status
                    (example_collaborators (always_status 404)) 0 api PDF
                    (BytesIO (list_byte_of_string "%PDF-1.7")) "application/pdf"
                    w {| status_code := 404; content := [] |}
                    eq_refl eq_refl eq_refl eq_refl)).
    cbn. lia.
  - apply (proj2 (@read_file_remotely_by_status
                    (example_collaborators (always_status 302)) 0 api PDF
                    (BytesIO (list_byte_of_string "%PDF-1.7")) "application/pdf"
                    w {| status_code := 302; content := [] |}
                    eq_refl eq_refl eq_refl eq_refl)).
    cbn. lia.
Defined.

Lemma retries_end_at_once_witness :
  let C := example_collaborators (always_status 200) in
  let api := example_api "https://api.example.com" in
  let w := example_world (list_byte_of_string "PK") in
  @_read_file_remotely_with_retries C 0 api DOCX w
    = (Raise (KeyError "FILETYPE_TO_MIMETYPE"), w)
  ∧ (@_read_file_remotely_with_retries C 0 api PDF w).1
    = Ok (Some (Some ("## Report" +:+ LF +:+ LF +:+ "- Buy milk"
                      +:+ LF +:+ LF +:+ "Done."))).
Proof.
  intros C api w. split.
  - apply (proj2 (@retries_end_at_once C 0 api DOCX w w)); reflexivity.
  - rewrite (proj1 (@retries_end_at_once C 0 api PDF w
                      (@_read_file_remotely C 0 api PDF w).2)
               (Some ("## Report" +:+ LF +:+ LF +:+ "- Buy milk"
                      +:+ LF +:+ LF +:+ "Done.")) eq_refl).
    reflexivity.
Defined.

Lemma retry_uploads_nothing_witness :
  let C := scheme_checking_collaborators in
  let api := example_api "https://api.example.com" in
  let w := example_world (list_byte_of_string "%PDF-1.7") in
  @preparation C api = Ok tt
  ∧ ∃ rest,
      posted (@_read_file_remotely_with_retries C 0 api PDF w).2
      = remote_request api (list_byte_of_string "%PDF-1.7") "application/pdf"
        :: remote_request api [] "application/pdf"
        :: rest.
Proof.
  intros C api w. split; [reflexivity|].
  exact (@retry_uploads_nothing C 0 api PDF
           (BytesIO (list_byte_of_string "%PDF-1.7")) "application/pdf"
           (Some {| status_code := 503; content := [] |}) w
           (@_read_file_remotely C 0 api PDF w).2
           eq_refl eq_refl eq_refl eq_refl eq_refl).
Defined.

Lemma read_file_locally_pdf_buffers_whole_file_witness :
  let data := list_byte_of_string "%PDF-1.7" in
  let run := @_read_file_locally counting_collaborators 0 (Some PDF)
               partly_read_world in
  run.1 = Ok (Some "8")
  ∧ files run.2 !! (0 : Handle)
    = Some {| io_data := data; io_pos := 0; io_closed := false;
              io_name := Some (Some "/tmp/x.pdf") |}
  ∧ files run.2 !! 1 = Some (closed_file (read_to_end (BytesIO data)))
  ∧ length (files run.2) = 2.
Proof.
  intros data run.
  exact (@read_file_locally_pdf_buffers_whole_file counting_collaborators 0
           {| io_data := data; io_pos := 4; io_closed := false;
              io_name := Some (Some "/tmp/x.pdf") |}
           partly_read_world _ _ _ eq_refl eq_refl eq_refl eq_refl eq_refl).
Defined.

Lemma parse_records_local_stays_offline_witness :
  let run := @parse_records (example_collaborators (always_status 200))
               (example_config None LocalProcessing)
               {| uri := "scan.bin"; mime_type := Some "application/pdf" |}
               (λ _, Ok (BytesIO (list_byte_of_string "%PDF-1.7")))
               empty_world in
  posted run.2 = [] ∧ slept run.2 = [].
Proof.
  intros run.
  exact (@parse_records_local_stays_offline
           (example_collaborators (always_status 200))
           (example_config None LocalProcessing) _
           {| uri := "scan.bin"; mime_type := Some "application/pdf" |}
           (λ _, Ok (BytesIO (list_byte_of_string "%PDF-1.7")))
           empty_world eq_refl eq_refl).
Defined.



Lemma opened_file_is_closed_in_the_end_witness :
  let C := example_collaborators (always_status 503) in
  let config :=
    example_config None (APIProcessing (example_api "https://api.example.com")) in
  let file := {| uri := "scan.bin"; mime_type := Some "application/pdf" |} in
  let stream_reader : RemoteFile → Result IOBase :=
    λ _, Ok (BytesIO (list_byte_of_string "%PDF-1.7")) in
  (∃ f', files (@parse_records C config file stream_reader empty_world).2 !! 0
         = Some f' ∧ io_closed f' = true)
  ∧ (∃ f', files (@infer_schema C config file stream_reader empty_world).2 !! 0
           = Some f' ∧ io_closed f' = true).
Proof.
  intros C config file stream_reader.
  exact (@opened_file_is_closed_in_the_end C config _ file stream_reader
           (BytesIO (list_byte_of_string "%PDF-1.7")) empty_world
           eq_refl eq_refl).
Defined.

Lemma nothing_happens_before_the_file_is_open_witness :
  let C := example_collaborators (always_status 200) in
  let file := {| uri := "table.csv"; mime_type := None |} in
  @parse_records C {| format := OtherFormat "CsvFormat()" |} file
    (λ _, Ok (BytesIO [])) empty_world
  = (Raise (ValueError "Invalid format config: CsvFormat()"), empty_world)
  ∧ @infer_schema C (example_config None LocalProcessing) file
      (λ _, Raise (PyException "permission denied")) empty_world
    = (Raise (PyException "permission denied"), empty_world).
Proof.
  intros C file. split.
  - apply (proj1 (@nothing_happens_before_the_file_is_open C
                    {| format := OtherFormat "CsvFormat()" |} file
                    (λ _, Ok (BytesIO [])) empty_world) "CsvFormat()").
    reflexivity.
  - apply (proj2 (@nothing_happens_before_the_file_is_open C
                    (example_config None LocalProcessing) file
                    (λ _, Raise (PyException "permission denied")) empty_world)
             {| skip_unprocessable_file_types := None;
                processing := LocalProcessing |}
             (PyException "permission denied")); reflexivity.
Defined.

Lemma infer_schema_by_kind_witness :
  let C := example_collaborators (always_status 200) in
  let file := {| uri := "table.csv"; mime_type := None |} in
  let stream_reader : RemoteFile → Result IOBase :=
    λ _, Ok (BytesIO (list_byte_of_string "a,b")) in
  ((@infer_schema C (example_config (Some true) LocalProcessing) file
      stream_reader empty_world).1 = Ok static_schema
   ∧ logged (@infer_schema C (example_config (Some true) LocalProcessing) file
               stream_reader empty_world).2 = [skipped_warning file])
  ∧ ((@infer_schema C (example_config None LocalProcessing) file
        stream_reader empty_world).1
     = Raise (RecordParseError ERROR_PARSING_RECORD "table.csv")
     ∧ logged (@infer_schema C (example_config None LocalProcessing) file
                 stream_reader empty_world).2 = []).
Proof.
  intros C file stream_reader. split.
  - eapply (proj1 (proj2 (@infer_schema_by_kind C
              (example_config (Some true) LocalProcessing) _ file stream_reader
              _ (Some CSV) empty_world _ eq_refl eq_refl eq_refl)));
      [compute_done | reflexivity].
  - eapply (proj2 (proj2 (@infer_schema_by_kind C
              (example_config None LocalProcessing) _ file stream_reader
              _ (Some CSV) empty_world _ eq_refl eq_refl eq_refl)));
      [compute_done | discriminate].
Defined.

Lemma check_config_posts_the_fixed_payload_witness :
  let C := example_collaborators (always_status 200) in
  let api := example_api "http://localhost:8000" in
  let run := @check_config C (example_config None (APIProcessing api))
               empty_world in
  posted run.2 = [remote_request api connection_test_payload "text/markdown"]
  ∧ run.1 = Ok (true, None).
Proof.
  intros C api run.
  exact (@check_config_posts_the_fixed_payload C
           (example_config None (APIProcessing api)) _ api "text/markdown"
           empty_world eq_refl eq_refl eq_refl eq_refl).
Defined.


Lemma run_sanity_checks_absorbs_sanity_errors_witness :
  let B := example_build ["linux/arm64"] in
  let version := {| image_class := example_image "1.0.0";
                    platform := "linux/arm64" |} in
  (@run_sanity_checks B version empty_world).1 = Ok false
  ∧ console (@run_sanity_checks B version empty_world).2
    = [":cross_mark: Sanity checks failure on airbyte/python-connector-base:1.0.0 for linux/arm64: unexpected python version"].
Proof.
  intros B version.
  exact (proj1 (proj2 (proj2
           (@run_sanity_checks_absorbs_sanity_errors B version empty_world)))
           "unexpected python version" eq_refl).
Defined.


Lemma main_on_exceptions_of_the_build_witness :
  (@main (example_build_raising KeyboardInterrupt) empty_world).1
    = Raise (SystemExit 1)
  ∧ (@main (example_build_raising (PyException "docker daemon is gone"))
       empty_world).1
    = Raise (PyException "docker daemon is gone").
Proof.
  split.
  - rewrite (proj1 (@main_on_exceptions_of_the_build
                      (example_build_raising KeyboardInterrupt) empty_world
                      (@a_build (example_build_raising KeyboardInterrupt)
                         empty_world).2) eq_refl).
    reflexivity.
  - rewrite (proj2 (@main_on_exceptions_of_the_build
                      (example_build_raising (PyException "docker daemon is gone"))
                      empty_world
                      (@a_build (example_build_raising
                                   (PyException "docker daemon is gone"))
                         empty_world).2)
               (PyException "docker daemon is gone") eq_refl
               ltac:(discriminate)).
    reflexivity.
Defined.

Lemma write_changelog_file_all_or_nothing_witness :
  let B := example_build_raising KeyboardInterrupt in
  @write_changelog_file B "/repo/CHANGELOG.md" "base" [] empty_world
    = (Raise (ValueError "empty table"), empty_world)
  ∧ fs_calls (@write_changelog_file B "/repo/CHANGELOG.md" "base"
                [example_image "1.0.0"] empty_world).2
    = [ OpenWrite "/repo/CHANGELOG.md";
        FileWrite "/repo/CHANGELOG.md" ("# Changelog for base" +:+ LF +:+ LF);
        FileWrite "/repo/CHANGELOG.md" "|table|" ].
Proof.
  intros B. split.
  - apply (proj1 (@write_changelog_file_all_or_nothing B "/repo/CHANGELOG.md"
                    "base" [] empty_world)). reflexivity.
  - rewrite (proj2 (@write_changelog_file_all_or_nothing B "/repo/CHANGELOG.md"
                      "base" [example_image "1.0.0"] empty_world)
               "|table|" eq_refl).
    reflexivity.
Defined.
